(** * web-lattice: a shallow embedding of the SDK and its specification

    The development follows the TypeScript sources

    - [sdk/types.ts], [sdk/config.ts], [sdk/metrics.ts], [sdk/encryption.ts]
    - [sdk/WebLattice.ts]

    JavaScript objects become records, optional properties become options,
    the module-level [globalConfig], the console, [window.location] and the
    [requestKeys] weak map become fields of an explicit [World] that is
    threaded through a state-and-exception monad.  The libraries the SDK
    calls (CryptoJS, JSON.parse, the HTTP adapter of axios, the random
    source) are collected in the class [Runtime]. *)

From Stdlib Require Import ZArith Ascii String.
From stdpp Require Import base option strings list gmap pretty.

Set Warnings "-register-all".

Open Scope string_scope.
Open Scope list_scope.
Open Scope Z_scope.

(** ** JavaScript values *)

(** The values that travel through the SDK: request payloads, response
    bodies, interpolated template values.  Numbers are restricted to the
    integers. *)
Inductive Json : Type :=
  | JNull
  | JBool (b : bool)
  | JNum (n : Z)
  | JStr (s : string)
  | JArr (items : list Json)
  | JObj (members : list (string * Json)).

(** [undefined] is [None]. *)
Abbreviation JsValue := (option Json).

(** ToBoolean. *)
Definition str_truthy (s : string) : bool :=
  match s with EmptyString => false | _ => true end.

Definition truthy (v : Json) : bool :=
  match v with
  | JNull => false
  | JBool b => b
  | JNum n => negb (n =? 0)
  | JStr s => str_truthy s
  | JArr _ | JObj _ => true
  end.

Definition js_truthy (v : JsValue) : bool :=
  match v with None => false | Some j => truthy j end.

(** The [typeof] operator. *)
Definition typeof (v : JsValue) : string :=
  match v with
  | None => "undefined"
  | Some (JBool _) => "boolean"
  | Some (JNum _) => "number"
  | Some (JStr _) => "string"
  | Some JNull | Some (JArr _) | Some (JObj _) => "object"
  end.

(** [a || b] on strings, and on an optional string with a string default. *)
Definition str_or (a b : string) : string := if str_truthy a then a else b.

Definition opt_str_or (a : option string) (b : string) : string :=
  match a with Some s => str_or s b | None => b end.

(** [a || b] on an optional boolean. *)
Definition opt_bool_or (a : option bool) (b : bool) : bool :=
  match a with Some true => true | _ => b end.

Definition join (sep : string) (parts : list string) : string :=
  match parts with
  | [] => EmptyString
  | p :: ps => fold_left (fun acc q => acc +:+ sep +:+ q) ps p
  end.

(** *** JSON.stringify *)

Definition dquote : string := String "034"%char EmptyString.
Definition backslash : string := String "092"%char EmptyString.

Definition hex_digit (n : N) : ascii :=
  ascii_of_N (if (n <? 10)%N then 48 + n else 87 + n)%N.

Definition escape_char (c : ascii) : string :=
  let n := N_of_ascii c in
  if (n =? 34)%N then backslash +:+ dquote
  else if (n =? 92)%N then backslash +:+ backslash
  else if (n =? 8)%N then backslash +:+ "b"
  else if (n =? 9)%N then backslash +:+ "t"
  else if (n =? 10)%N then backslash +:+ "n"
  else if (n =? 12)%N then backslash +:+ "f"
  else if (n =? 13)%N then backslash +:+ "r"
  else if (n <? 32)%N then
    backslash +:+ "u00" +:+
    String (hex_digit (n / 16)) (String (hex_digit (n mod 16)) EmptyString)
  else String c EmptyString.

Fixpoint escape (s : string) : string :=
  match s with
  | EmptyString => EmptyString
  | String c rest => escape_char c +:+ escape rest
  end.

Definition quote (s : string) : string := dquote +:+ escape s +:+ dquote.

Fixpoint JSON_stringify (v : Json) : string :=
  match v with
  | JNull => "null"
  | JBool true => "true"
  | JBool false => "false"
  | JNum n => pretty n
  | JStr s => quote s
  | JArr items => "[" +:+ join "," (map JSON_stringify items) +:+ "]"
  | JObj members =>
      "{" +:+
      join "," (map (fun kv => quote (fst kv) +:+ ":" +:+ JSON_stringify (snd kv))
                    members) +:+
      "}"
  end.

(** String coercion, as performed by [+] with a string operand. *)
Fixpoint toString (v : Json) : string :=
  match v with
  | JNull => "null"
  | JBool true => "true"
  | JBool false => "false"
  | JNum n => pretty n
  | JStr s => s
  | JArr items =>
      join "," (map (fun x => match x with JNull => EmptyString | _ => toString x end)
                    items)
  | JObj _ => "[object Object]"
  end.

(** ** Configuration objects ([sdk/types.ts], [sdk/config.ts]) *)

Inductive Environment : Type := PROD | UAT | DEV.

(** An own property of an object literal: the key is missing, or it is
    there and holds [undefined], or it holds a value.  Reading a missing
    key and reading [undefined] give the same result; object spread tells
    them apart. *)
Inductive Slot (A : Type) : Type :=
  | Absent
  | Undefined
  | Value (a : A).
Arguments Absent {A}.
Arguments Undefined {A}.
Arguments Value {A} a.

Definition read {A} (s : Slot A) : option A :=
  match s with Value a => Some a | _ => None end.

Definition present {A} (s : Slot A) : bool :=
  match s with Absent => false | _ => true end.

(** One key of [{...old, ...new}]. *)
Definition spread {A} (old new : Slot A) : Slot A :=
  match new with Absent => old | _ => new end.

Record EncryptionConfig : Type := {
  enc_enabled : bool;
  enc_secretKey : option string;
  enc_useRemoteKeys : option bool;
}.

Record MetricsConfig : Type := {
  met_enabled : bool;
  met_logToConsole : option bool;
}.

Record GraphqlConfig : Type := {
  gql_endpoint : option string;
}.

(** A plain object of strings, as the caller writes a [headers] object:
    its entries in the order of [Object.entries]; the keys of an object
    are distinct. *)
Abbreviation Properties := (list (string * string)).

(** [object[key]] *)
Definition property (key : string) (object : Properties) : option string :=
  snd <$> List.find (fun kv => String.eqb (fst kv) key) object.

(** [{ ...object, [key]: value }]: a key the object has keeps its place. *)
Fixpoint setProperty (key value : string) (object : Properties) : Properties :=
  match object with
  | [] => [(key, value)]
  | (k, v) :: rest =>
      if String.eqb k key then (k, value) :: rest
      else (k, v) :: setProperty key value rest
  end.

(** [String.prototype.toLowerCase], on the ASCII letters of a header
    name. *)
Definition lowerAscii (a : ascii) : ascii :=
  let n := nat_of_ascii a in
  if ((65 <=? n) && (n <=? 90))%nat then ascii_of_nat (n + 32) else a.

Fixpoint toLowerCase (s : string) : string :=
  match s with
  | EmptyString => EmptyString
  | String a rest => String (lowerAscii a) (toLowerCase rest)
  end.

(** [AxiosHeaders]: axios matches header names without regard to case,
    in [set], in [get] and when it merges the instance and the per-call
    headers, so a name has one value whatever its spelling.  The headers
    are the map from the lower-case name to that value.  Names are HTTP
    tokens. *)
Abbreviation AxiosHeaders := (gmap string string).

(** [headers.set(name, value)] *)
Definition setHeader (name value : string) (headers : AxiosHeaders) : AxiosHeaders :=
  <[toLowerCase name := value]> headers.

(** [headers.get(name)] *)
Definition getHeader (name : string) (headers : AxiosHeaders) : option string :=
  headers !! toLowerCase name.

(** [headers.set(object)]: the entries are set one after the other. *)
Definition setHeaders (object : Properties) (headers : AxiosHeaders) : AxiosHeaders :=
  fold_left (fun h kv => setHeader (fst kv) (snd kv) h) object headers.

Record NetworkConfig : Type := {
  baseUrl : Slot string;
  timeout : Slot Z;
  headers : Slot Properties;
  environment : Slot Environment;
  encryption : Slot EncryptionConfig;
  metrics : Slot MetricsConfig;
  graphql : Slot GraphqlConfig;
}.

(** The initial value of the module variable [globalConfig]. *)
Definition initialGlobalConfig : NetworkConfig := {|
  baseUrl := Value EmptyString;
  timeout := Value 10000;
  headers := Absent;
  environment := Value DEV;
  encryption :=
    Value {| enc_enabled := false; enc_secretKey := None; enc_useRemoteKeys := None |};
  metrics := Value {| met_enabled := true; met_logToConsole := Some true |};
  graphql := Absent;
|}.

(** [{ ...globalConfig, ...config }] *)
Definition shallowMerge (globalConfig config : NetworkConfig) : NetworkConfig := {|
  baseUrl := spread (baseUrl globalConfig) (baseUrl config);
  timeout := spread (timeout globalConfig) (timeout config);
  headers := spread (headers globalConfig) (headers config);
  environment := spread (environment globalConfig) (environment config);
  encryption := spread (encryption globalConfig) (encryption config);
  metrics := spread (metrics globalConfig) (metrics config);
  graphql := spread (graphql globalConfig) (graphql config);
|}.

(** ** Requests, responses, errors *)

Inductive Method : Type := GET | POST | PUT | PATCH | DELETE.

Definition toUpperCase (m : Method) : string :=
  match m with
  | GET => "GET" | POST => "POST" | PUT => "PUT"
  | PATCH => "PATCH" | DELETE => "DELETE"
  end.

(** The request configuration object axios hands from the request
    interceptors to the adapter and back inside the response.  [req_id] is
    the identity of the object: the interceptors mutate it in place, and
    the weak map [requestKeys] is keyed by it. *)
Record RequestConfig : Type := {
  req_id : nat;
  req_url : option string;
  req_method : option Method;
  req_baseURL : option string;
  req_data : JsValue;
  req_headers : AxiosHeaders;
  req_timeout : option Z;
  req_isGraphQL : option bool;
  req__startTime : option Z;
  req__isGraphQL : option bool;
}.

Record AxiosResponse : Type := {
  resp_status : Z;
  resp_data : Json;
  resp_headers : gmap string string;
  resp_config : RequestConfig;
}.

(** A thrown value: an [Error] (message only) or an [AxiosError] (with
    the request configuration and, for an HTTP error, the response). *)
Record JsError : Type := {
  err_message : string;
  err_config : option RequestConfig;
  err_response : option AxiosResponse;
}.

Definition mkError (message : string) : JsError :=
  {| err_message := message; err_config := None; err_response := None |}.

(** What the HTTP adapter answers. *)
Inductive Reply : Type :=
  | Replied (status : Z) (data : Json) (hdrs : gmap string string)
  | NetworkFailure (message : string).

(** The result of a library call that may raise. *)
Inductive Try (A : Type) : Type :=
  | Ret (a : A)
  | Raise (message : string).
Arguments Ret {A} a.
Arguments Raise {A} message.

(** [ApiResponse<T>] of [sdk/types.ts]. *)
Record ApiResponse : Type := {
  success : bool;
  data : JsValue;
  error : option string;
  resp_hdrs : option (gmap string string);
  statusCode : option Z;
  errorCode : option string;
}.

(** [ApiRequestConfig]: the per-call options. *)
Record ApiRequestConfig : Type := {
  arc_baseUrl : option string;
  arc_queryParams : option (list (string * JsValue));
  arc_isGraphQL : option bool;
  arc_headers : option Properties;
  arc_timeout : option Z;
  arc_data : JsValue;
}.

Definition emptyRequestConfig : ApiRequestConfig := {|
  arc_baseUrl := None; arc_queryParams := None; arc_isGraphQL := None;
  arc_headers := None; arc_timeout := None; arc_data := None;
|}.

(** [MetricData] of [sdk/metrics.ts], and the record written to the
    console (the data plus a timestamp). *)
Record MetricData : Type := {
  md_url : string;
  md_method : string;
  md_startTime : Z;
  md_endTime : Z;
  md_duration : Z;
  md_status : option Z;
  md_success : bool;
  md_encrypted : bool;
  md_graphql : bool;
  md_requestSize : option nat;
  md_responseSize : option nat;
}.

Record MetricRecord : Type := {
  metric_data : MetricData;
  metric_timestamp : Z;
}.

(** ** The libraries and the browser *)

Class Runtime : Type := {
  (** [CryptoJS.AES.encrypt(plaintext, key).toString()] *)
  aesEncrypt : string -> string -> string;
  (** [CryptoJS.AES.decrypt(ciphertext, key).toString(CryptoJS.enc.Utf8)],
      which raises on bytes that are no UTF-8 text *)
  aesDecrypt : string -> string -> Try string;
  (** [JSON.parse], which raises a [SyntaxError] *)
  JSON_parse : string -> Try Json;
  (** [CryptoJS.lib.WordArray.random(16).toString()], by draw *)
  randomWords : nat -> string;
  (** [Math.random().toString(36).substring(2, 15)], by draw *)
  randomSuffix : nat -> string;
  (** the percent-encoding of [URLSearchParams] *)
  formEncode : string -> string;
  (** the HTTP adapter of axios with the default response transform
      (a body that is JSON text arrives parsed, any other body as a
      string), and the time it takes to answer *)
  adapter : RequestConfig -> Reply;
  latency : RequestConfig -> Z;
}.

(** ** The world: module state and the browser's observable effects *)

Record World : Type := {
  (** [let globalConfig] of [sdk/config.ts] *)
  globalConfig : NetworkConfig;
  (** [sessionStorage.getItem("accessToken")] *)
  accessToken : option string;
  (** [const requestKeys = new WeakMap()], keyed by object identity *)
  requestKeys : gmap nat (string * string);
  (** the next fresh object identity, and the next random draw *)
  nextObject : nat;
  nextDraw : nat;
  (** [Date.now()] *)
  clock : Z;
  (** the metric records written by [console.log], oldest first *)
  consoleLog : list MetricRecord;
  (** the labels of the [console.error] calls, oldest first *)
  consoleError : list string;
  (** the arguments of [window.location.assign], oldest first *)
  locationAssign : list string;
  (** the requests handed to the HTTP adapter, oldest first *)
  sent : list RequestConfig;
}.

Definition initialWorld : World := {|
  globalConfig := initialGlobalConfig;
  accessToken := None;
  requestKeys := ∅;
  nextObject := 0%nat;
  nextDraw := 0%nat;
  clock := 1000;
  consoleLog := [];
  consoleError := [];
  locationAssign := [];
  sent := [];
|}.

Definition set_globalConfig (g : NetworkConfig) (w : World) : World :=
  {| globalConfig := g; accessToken := accessToken w;
     requestKeys := requestKeys w; nextObject := nextObject w;
     nextDraw := nextDraw w; clock := clock w; consoleLog := consoleLog w;
     consoleError := consoleError w; locationAssign := locationAssign w;
     sent := sent w |}.

Definition set_requestKeys (k : gmap nat (string * string)) (w : World) : World :=
  {| globalConfig := globalConfig w; accessToken := accessToken w;
     requestKeys := k; nextObject := nextObject w;
     nextDraw := nextDraw w; clock := clock w; consoleLog := consoleLog w;
     consoleError := consoleError w; locationAssign := locationAssign w;
     sent := sent w |}.

Definition set_nextObject (n : nat) (w : World) : World :=
  {| globalConfig := globalConfig w; accessToken := accessToken w;
     requestKeys := requestKeys w; nextObject := n;
     nextDraw := nextDraw w; clock := clock w; consoleLog := consoleLog w;
     consoleError := consoleError w; locationAssign := locationAssign w;
     sent := sent w |}.

Definition set_nextDraw (n : nat) (w : World) : World :=
  {| globalConfig := globalConfig w; accessToken := accessToken w;
     requestKeys := requestKeys w; nextObject := nextObject w;
     nextDraw := n; clock := clock w; consoleLog := consoleLog w;
     consoleError := consoleError w; locationAssign := locationAssign w;
     sent := sent w |}.

Definition set_clock (t : Z) (w : World) : World :=
  {| globalConfig := globalConfig w; accessToken := accessToken w;
     requestKeys := requestKeys w; nextObject := nextObject w;
     nextDraw := nextDraw w; clock := t; consoleLog := consoleLog w;
     consoleError := consoleError w; locationAssign := locationAssign w;
     sent := sent w |}.

Definition set_consoleLog (l : list MetricRecord) (w : World) : World :=
  {| globalConfig := globalConfig w; accessToken := accessToken w;
     requestKeys := requestKeys w; nextObject := nextObject w;
     nextDraw := nextDraw w; clock := clock w; consoleLog := l;
     consoleError := consoleError w; locationAssign := locationAssign w;
     sent := sent w |}.

Definition set_consoleError (l : list string) (w : World) : World :=
  {| globalConfig := globalConfig w; accessToken := accessToken w;
     requestKeys := requestKeys w; nextObject := nextObject w;
     nextDraw := nextDraw w; clock := clock w; consoleLog := consoleLog w;
     consoleError := l; locationAssign := locationAssign w;
     sent := sent w |}.

Definition set_locationAssign (l : list string) (w : World) : World :=
  {| globalConfig := globalConfig w; accessToken := accessToken w;
     requestKeys := requestKeys w; nextObject := nextObject w;
     nextDraw := nextDraw w; clock := clock w; consoleLog := consoleLog w;
     consoleError := consoleError w; locationAssign := l;
     sent := sent w |}.

Definition set_sent (l : list RequestConfig) (w : World) : World :=
  {| globalConfig := globalConfig w; accessToken := accessToken w;
     requestKeys := requestKeys w; nextObject := nextObject w;
     nextDraw := nextDraw w; clock := clock w; consoleLog := consoleLog w;
     consoleError := consoleError w; locationAssign := locationAssign w;
     sent := l |}.

(** ** Promises: state passing with rejection *)

(** How an [async] function ends: its promise is fulfilled with a value
    or rejected with a thrown value. *)
Inductive Settled (A : Type) : Type :=
  | Fulfilled (a : A)
  | Rejected (e : JsError).
Arguments Fulfilled {A} a.
Arguments Rejected {A} e.

Definition Promise (A : Type) : Type := World -> Settled A * World.

Definition resolve {A} (a : A) : Promise A := fun w => (Fulfilled a, w).

(** [throw e], or [return Promise.reject(e)] as the last step. *)
Definition reject {A} (e : JsError) : Promise A := fun w => (Rejected e, w).

Definition andThen {A B} (m : Promise A) (k : A -> Promise B) : Promise B :=
  fun w =>
    match m w with
    | (Fulfilled a, w') => k a w'
    | (Rejected e, w') => (Rejected e, w')
    end.

(** [try { m } catch (e) { handler e }]; the effects [m] had before it
    threw stay. *)
Definition tryCatch {A} (m : Promise A) (handler : JsError -> Promise A) : Promise A :=
  fun w =>
    match m w with
    | (Fulfilled a, w') => (Fulfilled a, w')
    | (Rejected e, w') => handler e w'
    end.

Definition gets {A} (f : World -> A) : Promise A := fun w => (Fulfilled (f w), w).

Definition modify (f : World -> World) : Promise unit := fun w => (Fulfilled tt, f w).

(** A library call that may raise, inside an [async] function. *)
Definition attempt {A} (t : Try A) : Promise A :=
  match t with
  | Ret a => resolve a
  | Raise message => reject (mkError message)
  end.

Notation "'let*' x ':=' m 'in' k" := (andThen m (fun x => k))
  (at level 10, x pattern, m at level 100, k at level 200).
Notation "m ';;;' k" := (andThen m (fun _ => k))
  (at level 100, k at level 200, right associativity).

Section SDK.
Context `{Runtime}.

(** ** [sdk/config.ts] *)

Definition setNetworkConfig (config : NetworkConfig) : Promise unit :=
  modify (fun w => set_globalConfig (shallowMerge (globalConfig w) config) w).

Definition getNetworkConfig : Promise NetworkConfig := gets globalConfig.

(** ** [sdk/encryption.ts]

    The helpers read the module variable [globalConfig]; it is their
    first argument here. *)

(** [globalConfig.encryption?.enabled] *)
Definition encryptionEnabled (globalConfig : NetworkConfig) : option bool :=
  enc_enabled <$> read (encryption globalConfig).

(** [globalConfig.encryption?.secretKey] *)
Definition encryptionSecretKey (globalConfig : NetworkConfig) : option string :=
  read (encryption globalConfig) ≫= enc_secretKey.

(** [!x] on an optional boolean and on an optional string *)
Definition notBool (x : option bool) : bool :=
  match x with Some true => false | _ => true end.

Definition notStr (x : option string) : bool :=
  match x with Some s => negb (str_truthy s) | None => true end.

Definition encryptData (globalConfig : NetworkConfig) (data : Json) : string :=
  if notBool (encryptionEnabled globalConfig)
     || notStr (encryptionSecretKey globalConfig)
  then JSON_stringify data
  else
    let jsonString := JSON_stringify data in
    aesEncrypt jsonString (default EmptyString (encryptionSecretKey globalConfig)).

Definition decryptData (globalConfig : NetworkConfig) (encryptedData : string)
  : Try string :=
  if notBool (encryptionEnabled globalConfig)
     || notStr (encryptionSecretKey globalConfig)
  then Ret encryptedData
  else
    aesDecrypt encryptedData (default EmptyString (encryptionSecretKey globalConfig)).

Definition generateEncryptionKeys : Promise (string * string) :=
  let* n := gets nextDraw in
  modify (set_nextDraw (S (S n))) ;;;
  resolve (randomWords n, randomWords (S n)).

(** ** [sdk/metrics.ts] *)

Definition Date_now : Promise Z := gets clock.

Definition console_log (m : MetricRecord) : Promise unit :=
  modify (fun w => set_consoleLog (consoleLog w ++ [m]) w).

Definition console_error (label : string) : Promise unit :=
  modify (fun w => set_consoleError (consoleError w ++ [label]) w).

Definition recordMetrics (data : MetricData) : Promise unit :=
  let* g := gets globalConfig in
  if notBool (met_enabled <$> read (metrics g)) then resolve tt
  else
    let* stamp := Date_now in
    let metric := {| metric_data := data; metric_timestamp := stamp |} in
    (if opt_bool_or (read (metrics g) ≫= met_logToConsole) false
     then console_log metric
     else resolve tt) ;;;
    resolve tt.

(** ** [sdk/WebLattice.ts]: the helpers *)

Definition isProd (config : NetworkConfig) : bool :=
  match read (environment config) with
  | Some PROD => opt_bool_or (enc_enabled <$> read (encryption config)) false
  | _ => false
  end.

(** [getRequestMetadata]; [config] is [None] for the empty object. *)
Definition getRequestMetadata (config : option RequestConfig) : string * string :=
  (opt_str_or (config ≫= req_url) EmptyString,
   opt_str_or (toUpperCase <$> (config ≫= req_method)) "UNKNOWN").

(** returns [(publicKey, publicKey_id)] *)
Definition getPublicKeyDetails (globalConfig : NetworkConfig) : string * string :=
  if opt_bool_or (read (encryption globalConfig) ≫= enc_useRemoteKeys) false
  then ("remote-key-value", "remote-key-id")
  else (opt_str_or (encryptionSecretKey globalConfig) EmptyString, "local-key-id").

Definition with_data (d : JsValue) (c : RequestConfig) : RequestConfig :=
  {| req_id := req_id c; req_url := req_url c; req_method := req_method c;
     req_baseURL := req_baseURL c; req_data := d; req_headers := req_headers c;
     req_timeout := req_timeout c; req_isGraphQL := req_isGraphQL c;
     req__startTime := req__startTime c; req__isGraphQL := req__isGraphQL c |}.

Definition with_headers (h : AxiosHeaders) (c : RequestConfig) : RequestConfig :=
  {| req_id := req_id c; req_url := req_url c; req_method := req_method c;
     req_baseURL := req_baseURL c; req_data := req_data c; req_headers := h;
     req_timeout := req_timeout c; req_isGraphQL := req_isGraphQL c;
     req__startTime := req__startTime c; req__isGraphQL := req__isGraphQL c |}.

Definition with_marks (start : Z) (isGraphQL : bool) (c : RequestConfig)
  : RequestConfig :=
  {| req_id := req_id c; req_url := req_url c; req_method := req_method c;
     req_baseURL := req_baseURL c; req_data := req_data c;
     req_headers := req_headers c; req_timeout := req_timeout c;
     req_isGraphQL := req_isGraphQL c;
     req__startTime := Some start; req__isGraphQL := Some isGraphQL |}.

(** returns the mutated [config] and [(aesKey, iv)] *)
Definition handleProductionSecurity (config : RequestConfig)
  : Promise (RequestConfig * (string * string)) :=
  let* keys := generateEncryptionKeys in
  modify (fun w => set_requestKeys (<[req_id config := keys]> (requestKeys w)) w) ;;;
  let* g := gets globalConfig in
  let config' :=
    match req_data config with
    | Some d =>
        if truthy d && String.eqb (typeof (Some d)) "object"
        then with_data (Some (JStr (encryptData g d))) config
        else config
    | None => config
    end in
  resolve (config', keys).

Definition updateHeadersWithEncryption (config : RequestConfig)
    (aesKey iv : string) (publicKey_id : option string) : RequestConfig :=
  let headers := req_headers config in
  let headers := setHeader "x-encryption" "true" headers in
  let headers := setHeader "x-encryption-key" aesKey headers in
  let headers := setHeader "x-encryption-iv" iv headers in
  let headers :=
    if str_truthy (default EmptyString publicKey_id)
    then setHeader "x-public-key-id" (default EmptyString publicKey_id) headers
    else headers in
  with_headers headers config.

Definition addCommonHeaders (config : RequestConfig) : Promise RequestConfig :=
  let* t := Date_now in
  let* n := gets nextDraw in
  modify (set_nextDraw (S n)) ;;;
  let headers := req_headers config in
  let headers :=
    setHeader "x-correlation-id" (pretty t +:+ "-" +:+ randomSuffix n) headers in
  let headers := setHeader "x-client-version" "1.0.0" headers in
  let headers := setHeader "x-app-platform" "web" headers in
  resolve (with_headers headers config).

(** ** [sdk/WebLattice.ts]: the client *)

(** [x || y] on an optional number *)
Definition num_or (x : option Z) (y : Z) : Z :=
  match x with Some n => if n =? 0 then y else n | None => y end.

(** The narrowing of a value whose [typeof] is ["string"]. *)
Definition asString (v : Json) : string :=
  match v with JStr s => s | _ => EmptyString end.

(** [v || {}] *)
Definition orEmptyObject (v : JsValue) : Json :=
  match v with
  | Some j => if truthy j then j else JObj []
  | None => JObj []
  end.

(** An instance: [this.config] and the defaults given to [axios.create]. *)
Record WebLattice : Type := {
  this_config : NetworkConfig;
  client_baseURL : option string;
  client_timeout : Z;
  client_headers : Properties;
}.

Definition WebLattice_constructor (config : NetworkConfig) : Promise WebLattice :=
  setNetworkConfig config ;;;
  resolve {|
    this_config := config;
    client_baseURL := read (baseUrl config);
    client_timeout := num_or (read (timeout config)) 10000;
    client_headers :=
      setProperty "Content-Type" "application/json" (default [] (read (headers config)));
  |}.

(** The [transformRequest] given to [axios.create]; [JSON.stringify] of
    [undefined] is [undefined]. *)
Definition transformRequest (self : WebLattice) (data : JsValue) : JsValue :=
  if isProd (this_config self)
  then (fun d => JStr (JSON_stringify d)) <$> data
  else data.

Definition location_assign (path : string) : Promise unit :=
  modify (fun w => set_locationAssign (locationAssign w ++ [path]) w).

(** *** The request interceptor *)

Definition requestInterceptor (self : WebLattice) (config : RequestConfig)
  : Promise RequestConfig :=
  let* startTime := Date_now in
  tryCatch
    (let* token := gets accessToken in
     let* config :=
       if isProd (this_config self) then
         let* g := gets globalConfig in
         let publicKey_id := snd (getPublicKeyDetails g) in
         let* secured := handleProductionSecurity config in
         resolve (updateHeadersWithEncryption (fst secured)
                    (fst (snd secured)) (snd (snd secured)) (Some publicKey_id))
       else resolve config in
     let config :=
       if str_truthy (default EmptyString token)
       then with_headers
              (setHeader "Authorization" ("Bearer " +:+ default EmptyString token)
                 (req_headers config)) config
       else config in
     let* config := addCommonHeaders config in
     resolve (with_marks startTime (opt_bool_or (req_isGraphQL config) false) config))
    (fun error => console_error "Error in request interceptor:" ;;; reject error).

(** *** The response interceptor, success handler *)

Definition with_resp_data (d : Json) (r : AxiosResponse) : AxiosResponse :=
  {| resp_status := resp_status r; resp_data := d;
     resp_headers := resp_headers r; resp_config := resp_config r |}.

(** The handler returns from inside its [try]: [decoded] is what the
    decryption block hands on, either the response or the promise
    rejected with [parseError] which the handler returns at once. *)
Definition responseFulfilled (self : WebLattice) (response : AxiosResponse)
  : Promise AxiosResponse :=
  let* endTime := Date_now in
  let startTime := num_or (req__startTime (resp_config response)) endTime in
  let isGraphQL := opt_bool_or (req__isGraphQL (resp_config response)) false in
  let meta := getRequestMetadata (Some (resp_config response)) in
  let* returned :=
    tryCatch
      (let* decoded :=
         if isProd (this_config self) then
           let* keys := gets (fun w => requestKeys w !! req_id (resp_config response)) in
           match keys with
           | Some _ =>
               if truthy (resp_data response)
                  && String.eqb (typeof (Some (resp_data response))) "string"
               then
                 let* g := gets globalConfig in
                 let* decryptedData :=
                   attempt (decryptData g (asString (resp_data response))) in
                 match JSON_parse decryptedData with
                 | Ret parsed => resolve (Fulfilled (with_resp_data parsed response))
                 | Raise message =>
                     console_error "Error parsing decrypted JSON:" ;;;
                     resolve (Rejected (mkError message))
                 end
               else resolve (Fulfilled response)
           | None => resolve (Fulfilled response)
           end
         else resolve (Fulfilled response) in
       match decoded with
       | Rejected parseError => resolve (Rejected parseError)
       | Fulfilled response =>
           recordMetrics {|
             md_url := fst meta;
             md_method := snd meta;
             md_startTime := startTime;
             md_endTime := endTime;
             md_duration := endTime - startTime;
             md_status := Some (resp_status response);
             md_success := true;
             md_encrypted := isProd (this_config self);
             md_graphql := isGraphQL;
             md_requestSize :=
               Some (String.length
                       (JSON_stringify (orEmptyObject (req_data (resp_config response)))));
             md_responseSize :=
               Some (String.length
                       (JSON_stringify (orEmptyObject (Some (resp_data response)))));
           |} ;;;
           resolve (Fulfilled response)
       end)
      (fun error =>
         console_error "Error in response decryption:" ;;;
         resolve (Rejected error)) in
  match returned with
  | Fulfilled response => resolve response
  | Rejected error => reject error
  end.

(** *** The response interceptor, error handler *)

Definition with_error_data (d : Json) (e : JsError) : JsError :=
  {| err_message := err_message e; err_config := err_config e;
     err_response := with_resp_data d <$> err_response e |}.

Definition responseRejected (self : WebLattice) (error : JsError)
  : Promise AxiosResponse :=
  let* endTime := Date_now in
  let config := err_config error in
  let startTime := num_or (config ≫= req__startTime) endTime in
  let isGraphQL := opt_bool_or (config ≫= req__isGraphQL) false in
  let meta := getRequestMetadata config in
  let* error :=
    tryCatch
      (let* error :=
         match err_response error, err_config error with
         | Some response, Some cfg =>
             if isProd (this_config self) && truthy (resp_data response) then
               let* keys := gets (fun w => requestKeys w !! req_id cfg) in
               match keys with
               | Some _ =>
                   if String.eqb (typeof (Some (resp_data response))) "string" then
                     let* g := gets globalConfig in
                     let* decryptedData :=
                       attempt (decryptData g (asString (resp_data response))) in
                     match JSON_parse decryptedData with
                     | Ret parsed => resolve (with_error_data parsed error)
                     | Raise _ =>
                         console_error "Error parsing decrypted error JSON:" ;;;
                         resolve error
                     end
                   else resolve error
               | None => resolve error
               end
             else resolve error
         | _, _ => resolve error
         end in
       let status := resp_status <$> err_response error in
       recordMetrics {|
         md_url := fst meta;
         md_method := snd meta;
         md_startTime := startTime;
         md_endTime := endTime;
         md_duration := endTime - startTime;
         md_status := status;
         md_success := false;
         md_encrypted := isProd (this_config self);
         md_graphql := isGraphQL;
         md_requestSize := None;
         md_responseSize := None;
       |} ;;;
       (match status with
        | Some s =>
            if s =? 401 then location_assign "/enter-email"
            else if negb (s =? 0) && (500 <=? s) && (s <? 600)
                 then location_assign "/generic-error"
                 else resolve tt
        | None => resolve tt
        end) ;;;
       resolve error)
      (fun decryptError =>
         console_error "Error decrypting error response data:" ;;;
         resolve error) in
  reject error.

(** *** axios: one request through the interceptor chain *)

(** [validateStatus], the default of axios. *)
Definition validateStatus (status : Z) : bool := (200 <=? status) && (status <? 300).

(** The request configuration axios builds from the instance defaults,
    the verb's arguments and the per-call configuration: a fresh object.
    Its headers are the instance's with the per-call ones set over them,
    names matched without regard to case. *)
Definition newRequest (self : WebLattice) (method : Method) (url : string)
    (data : JsValue) (axiosConfig : ApiRequestConfig) : Promise RequestConfig :=
  let* id := gets nextObject in
  modify (set_nextObject (S id)) ;;;
  resolve {|
    req_id := id;
    req_url := Some url;
    req_method := Some method;
    req_baseURL := client_baseURL self;
    req_data := data;
    req_headers :=
      setHeaders (default [] (arc_headers axiosConfig))
        (setHeaders (client_headers self) ∅);
    req_timeout := Some (default (client_timeout self) (arc_timeout axiosConfig));
    req_isGraphQL := arc_isGraphQL axiosConfig;
    req__startTime := None;
    req__isGraphQL := None;
  |}.

(** [dispatchRequest]: transform the data, call the adapter, settle. *)
Definition dispatchRequest (self : WebLattice) (config : RequestConfig)
  : Promise AxiosResponse :=
  let config := with_data (transformRequest self (req_data config)) config in
  modify (fun w => set_sent (sent w ++ [config]) w) ;;;
  modify (fun w => set_clock (clock w + latency config) w) ;;;
  match adapter config with
  | Replied status body hdrs =>
      let response :=
        {| resp_status := status; resp_data := body;
           resp_headers := hdrs; resp_config := config |} in
      if validateStatus status then resolve response
      else reject {|
        err_message := "Request failed with status code " +:+ pretty status;
        err_config := Some config;
        err_response := Some response |}
  | NetworkFailure message =>
      reject {| err_message := message;
                err_config := Some config;
                err_response := None |}
  end.

(** [promise.then(onFulfilled, onRejected)] *)
Definition thenElse {A B} (m : Promise A)
    (onFulfilled : A -> Promise B) (onRejected : JsError -> Promise B) : Promise B :=
  fun w =>
    match m w with
    | (Fulfilled a, w') => onFulfilled a w'
    | (Rejected e, w') => onRejected e w'
    end.

(** [this.client.request]: the interceptors are chained with [then], so
    a rejection of the request interceptor reaches the error handler of
    the response interceptor, and a rejection of the success handler does
    not. *)
Definition client_request (self : WebLattice) (method : Method) (url : string)
    (data : JsValue) (axiosConfig : ApiRequestConfig) : Promise AxiosResponse :=
  thenElse
    (let* config := newRequest self method url data axiosConfig in
     let* config := requestInterceptor self config in
     dispatchRequest self config)
    (responseFulfilled self)
    (responseRejected self).

(** *** The verb methods

    A method [m] of the class is [WebLattice_m], with [this] as its
    first argument. *)

Fixpoint includes (c : ascii) (s : string) : bool :=
  match s with
  | EmptyString => false
  | String d rest => if Ascii.eqb c d then true else includes c rest
  end.

Definition constructUrl (url : string) (queryParams : option (list (string * JsValue)))
  : string :=
  let params :=
    omap (fun kv =>
            match snd kv with
            | None | Some JNull => None
            | Some value => Some (formEncode (fst kv) +:+ "=" +:+ formEncode (toString value))
            end)
         (default [] queryParams) in
  let queryString := join "&" params in
  if str_truthy queryString
  then url +:+ (if includes "?"%char url then "&" else "?") +:+ queryString
  else url.

(** The object every verb returns from its [try] block. *)
Definition successEnvelope (payload : JsValue) (response : AxiosResponse) : ApiResponse :=
  {| success := true;
     data := payload;
     error := None;
     resp_hdrs := Some (resp_headers response);
     statusCode := Some (resp_status response);
     errorCode := None |}.

(** The object every verb returns from its [catch] block. *)
Definition failureEnvelope (error : JsError) : ApiResponse :=
  let status := resp_status <$> err_response error in
  {| success := false;
     data := None;
     error := Some (str_or (err_message error) "An unknown error occurred");
     resp_hdrs := None;
     statusCode := Some (num_or status 500);
     errorCode :=
       Some ("ERR_" +:+
             match status with
             | Some s => if s =? 0 then "UNKNOWN" else pretty s
             | None => "UNKNOWN"
             end) |}.

(** [{ queryParams, isGraphQL, ...restConfig } = config], then
    [axiosConfig.isGraphQL = isGraphQL]: the call configuration without
    its query parameters. *)
Definition restConfig (config : ApiRequestConfig) : ApiRequestConfig :=
  {| arc_baseUrl := arc_baseUrl config; arc_queryParams := None;
     arc_isGraphQL := arc_isGraphQL config; arc_headers := arc_headers config;
     arc_timeout := arc_timeout config; arc_data := arc_data config |}.

Definition WebLattice_get (self : WebLattice) (url : string) (config : ApiRequestConfig)
  : Promise ApiResponse :=
  tryCatch
    (let finalUrl := constructUrl url (arc_queryParams config) in
     let axiosConfig := restConfig config in
     let* response := client_request self GET finalUrl (arc_data axiosConfig) axiosConfig in
     resolve (successEnvelope (Some (resp_data response)) response))
    (fun error => resolve (failureEnvelope error)).

Definition WebLattice_post (self : WebLattice) (url : string) (data : JsValue)
    (config : ApiRequestConfig) : Promise ApiResponse :=
  tryCatch
    (let finalUrl := constructUrl url (arc_queryParams config) in
     let axiosConfig := restConfig config in
     let* response := client_request self POST finalUrl data axiosConfig in
     resolve (successEnvelope (Some (resp_data response)) response))
    (fun error => resolve (failureEnvelope error)).

Definition WebLattice_put (self : WebLattice) (url : string) (data : JsValue)
    (config : ApiRequestConfig) : Promise ApiResponse :=
  tryCatch
    (let finalUrl := constructUrl url (arc_queryParams config) in
     let axiosConfig := restConfig config in
     let* response := client_request self PUT finalUrl data axiosConfig in
     resolve (successEnvelope (Some (resp_data response)) response))
    (fun error => resolve (failureEnvelope error)).

Definition WebLattice_patch (self : WebLattice) (url : string) (data : JsValue)
    (config : ApiRequestConfig) : Promise ApiResponse :=
  tryCatch
    (let finalUrl := constructUrl url (arc_queryParams config) in
     let axiosConfig := restConfig config in
     let* response := client_request self PATCH finalUrl data axiosConfig in
     resolve (successEnvelope (Some (resp_data response)) response))
    (fun error => resolve (failureEnvelope error)).

Definition WebLattice_delete (self : WebLattice) (url : string) (config : ApiRequestConfig)
  : Promise ApiResponse :=
  tryCatch
    (let finalUrl := constructUrl url (arc_queryParams config) in
     let axiosConfig := restConfig config in
     let* response := client_request self DELETE finalUrl (arc_data axiosConfig) axiosConfig in
     resolve (successEnvelope (Some (resp_data response)) response))
    (fun error => resolve (failureEnvelope error)).

(** [obj.data] on a response body: a [TypeError] on [null], the member
    on an object, [undefined] on anything else. *)
Definition member (key : string) (members : list (string * Json)) : JsValue :=
  snd <$> List.find (fun kv => String.eqb (fst kv) key) members.

Definition dataProperty (body : Json) : Try JsValue :=
  match body with
  | JNull => Raise "Cannot read properties of null (reading 'data')"
  | JObj members => Ret (member "data" members)
  | _ => Ret None
  end.

Definition graphqlBody (query : string) (variables : JsValue) : Json :=
  JObj (("query", JStr query) ::
        match variables with Some v => [("variables", v)] | None => [] end).

Definition asGraphQL (config : ApiRequestConfig) : ApiRequestConfig :=
  {| arc_baseUrl := arc_baseUrl config; arc_queryParams := arc_queryParams config;
     arc_isGraphQL := Some true; arc_headers := arc_headers config;
     arc_timeout := arc_timeout config; arc_data := arc_data config |}.

Definition WebLattice_graphql (self : WebLattice) (query : string) (variables : JsValue)
    (config : ApiRequestConfig) : Promise ApiResponse :=
  tryCatch
    (let* g := gets globalConfig in
     let endpoint :=
       opt_str_or (arc_baseUrl config)
         (opt_str_or (read (graphql g) ≫= gql_endpoint) EmptyString) in
     if negb (str_truthy endpoint)
     then reject (mkError "GraphQL endpoint is not configured")
     else
       let axiosConfig := asGraphQL config in
       let* response :=
         client_request self POST endpoint (Some (graphqlBody query variables))
           axiosConfig in
       let* payload := attempt (dataProperty (resp_data response)) in
       resolve (successEnvelope payload response))
    (fun error => resolve (failureEnvelope error)).

(** *** [gql] and [initWebLattice] *)

(** [values[i] || ""], coerced by [+] *)
Definition interpolated (values : list JsValue) (i : nat) : string :=
  match mjoin (values !! i) with
  | Some v => if truthy v then toString v else EmptyString
  | None => EmptyString
  end.

(** [strings.reduce((result, str, i) => result + str + (values[i] || ""), "")] *)
Definition gql (strings : list string) (values : list JsValue) : string :=
  fst (fold_left
         (fun acc str =>
            (fst acc +:+ str +:+ interpolated values (snd acc), S (snd acc)))
         strings (EmptyString, 0%nat)).

Record InitOptions : Type := {
  io_baseUrl : string;
  io_env : option Environment;
  io_encryptionKey : option string;
  io_timeout : option Z;
  io_headers : option Properties;
  io_useRemoteKeys : option bool;
  io_enableMetrics : option bool;
}.

Definition initWebLattice (config : InitOptions) : Promise WebLattice :=
  let sdkConfig := {|
    baseUrl := Value (io_baseUrl config);
    timeout := Value (num_or (io_timeout config) 10000);
    headers := match io_headers config with Some h => Value h | None => Undefined end;
    environment := Value (default DEV (io_env config));
    encryption := Value {|
      enc_enabled := negb (notStr (io_encryptionKey config));
      enc_secretKey := Some (opt_str_or (io_encryptionKey config) EmptyString);
      enc_useRemoteKeys := Some (opt_bool_or (io_useRemoteKeys config) false) |};
    metrics := Value {|
      met_enabled := match io_enableMetrics config with Some false => false | _ => true end;
      met_logToConsole := Some true |};
    graphql := Absent;
  |} in
  WebLattice_constructor sdkConfig.

End SDK.

(** ** A runtime to run the SDK on

    A reversible stand-in for the cipher, a JSON reader for the values of
    [Json], and a small server.  The theorems below hold for every
    [Runtime]; this one evaluates them on concrete calls. *)

Module Demo.

(** *** The cipher: a salt header, the key, the text reversed *)

Fixpoint stripPrefix (p s : string) : option string :=
  match p, s with
  | EmptyString, _ => Some s
  | String a p', String b s' => if Ascii.eqb a b then stripPrefix p' s' else None
  | String _ _, EmptyString => None
  end.

Definition header (key : string) : string := "Salted__" +:+ key +:+ ":".

Definition encrypt (plaintext key : string) : string :=
  header key +:+ String.rev plaintext.

Definition decrypt (ciphertext key : string) : Try string :=
  match stripPrefix (header key) ciphertext with
  | Some body => Ret (String.rev body)
  | None => Raise "Malformed UTF-8 data"
  end.

(** *** JSON.parse on integers, strings, arrays and objects *)

Definition isSpace (c : ascii) : bool :=
  let n := N_of_ascii c in
  (n =? 32)%N || (n =? 9)%N || (n =? 10)%N || (n =? 13)%N.

Definition digitOf (c : ascii) : option Z :=
  let n := N_of_ascii c in
  if (48 <=? n)%N && (n <=? 57)%N then Some (Z.of_N (n - 48)) else None.

Fixpoint skipSpace (s : string) : string :=
  match s with
  | String c rest => if isSpace c then skipSpace rest else s
  | EmptyString => s
  end.

(** the digits at the head of [s], read onto [acc] *)
Fixpoint readDigits (s : string) (acc : Z) : Z * string :=
  match s with
  | String c rest =>
      match digitOf c with
      | Some d => readDigits rest (10 * acc + d)
      | None => (acc, s)
      end
  | EmptyString => (acc, s)
  end.

Definition readNumber (s : string) : option (Z * string) :=
  match s with
  | String c rest =>
      if Ascii.eqb c "-"%char then
        match rest with
        | String d _ =>
            match digitOf d with
            | Some _ => let r := readDigits rest 0 in Some (- fst r, snd r)
            | None => None
            end
        | EmptyString => None
        end
      else
        match digitOf c with
        | Some _ => Some (readDigits s 0)
        | None => None
        end
  | EmptyString => None
  end.

Definition unescape (c : ascii) : option ascii :=
  let n := N_of_ascii c in
  if (n =? 34)%N || (n =? 92)%N || (n =? 47)%N then Some c
  else if (n =? 98)%N then Some (ascii_of_N 8)
  else if (n =? 116)%N then Some (ascii_of_N 9)
  else if (n =? 110)%N then Some (ascii_of_N 10)
  else if (n =? 102)%N then Some (ascii_of_N 12)
  else if (n =? 114)%N then Some (ascii_of_N 13)
  else None.

(** the text after an opening quote, up to the closing one *)
Fixpoint readString (s : string) : option (string * string) :=
  match s with
  | EmptyString => None
  | String c rest =>
      let n := N_of_ascii c in
      if (n =? 34)%N then Some (EmptyString, rest)
      else if (n =? 92)%N then
        match rest with
        | String e rest' =>
            match unescape e, readString rest' with
            | Some u, Some (body, tail) => Some (String u body, tail)
            | _, _ => None
            end
        | EmptyString => None
        end
      else if (n <? 32)%N then None
      else
        match readString rest with
        | Some (body, tail) => Some (String c body, tail)
        | None => None
        end
  end.

Fixpoint readValue (fuel : nat) (s : string) {struct fuel} : option (Json * string) :=
  match fuel with
  | O => None
  | S fuel =>
      let s := skipSpace s in
      match stripPrefix "null" s, stripPrefix "true" s, stripPrefix "false" s with
      | Some rest, _, _ => Some (JNull, rest)
      | _, Some rest, _ => Some (JBool true, rest)
      | _, _, Some rest => Some (JBool false, rest)
      | None, None, None =>
          match s with
          | String c rest =>
              let n := N_of_ascii c in
              if (n =? 34)%N then
                match readString rest with
                | Some (body, tail) => Some (JStr body, tail)
                | None => None
                end
              else if (n =? 91)%N then
                match stripPrefix "]" (skipSpace rest) with
                | Some tail => Some (JArr [], tail)
                | None =>
                    match readItems fuel rest with
                    | Some (items, tail) => Some (JArr items, tail)
                    | None => None
                    end
                end
              else if (n =? 123)%N then
                match stripPrefix "}" (skipSpace rest) with
                | Some tail => Some (JObj [], tail)
                | None =>
                    match readMembers fuel rest with
                    | Some (members, tail) => Some (JObj members, tail)
                    | None => None
                    end
                end
              else
                match readNumber s with
                | Some (z, tail) => Some (JNum z, tail)
                | None => None
                end
          | EmptyString => None
          end
      end
  end
with readItems (fuel : nat) (s : string) {struct fuel} : option (list Json * string) :=
  match fuel with
  | O => None
  | S fuel =>
      match readValue fuel s with
      | Some (v, rest) =>
          match skipSpace rest with
          | String c tail =>
              if (N_of_ascii c =? 93)%N then Some ([v], tail)
              else if (N_of_ascii c =? 44)%N then
                match readItems fuel tail with
                | Some (more, tail') => Some (v :: more, tail')
                | None => None
                end
              else None
          | EmptyString => None
          end
      | None => None
      end
  end
with readMembers (fuel : nat) (s : string) {struct fuel}
  : option (list (string * Json) * string) :=
  match fuel with
  | O => None
  | S fuel =>
      match skipSpace s with
      | String q afterQuote =>
          if (N_of_ascii q =? 34)%N then
            match readString afterQuote with
            | Some (key, afterKey) =>
                match stripPrefix ":" (skipSpace afterKey) with
                | Some afterColon =>
                    match readValue fuel afterColon with
                    | Some (v, rest) =>
                        match skipSpace rest with
                        | String c tail =>
                            if (N_of_ascii c =? 125)%N then Some ([(key, v)], tail)
                            else if (N_of_ascii c =? 44)%N then
                              match readMembers fuel tail with
                              | Some (more, tail') => Some ((key, v) :: more, tail')
                              | None => None
                              end
                            else None
                        | EmptyString => None
                        end
                    | None => None
                    end
                | None => None
                end
            | None => None
            end
          else None
      | EmptyString => None
      end
  end.

Definition parse (text : string) : Try Json :=
  match readValue (S (String.length text)) text with
  | Some (v, rest) =>
      match skipSpace rest with
      | EmptyString => Ret v
      | _ => Raise "Unexpected non-whitespace character after JSON"
      end
  | None => Raise "Unexpected token in JSON"
  end.

(** *** The server *)

Definition secret : string := "s3cret".

Definition okBody : Json := JObj [("ok", JBool true)].

Definition server (config : RequestConfig) : Reply :=
  let url := default EmptyString (req_url config) in
  if String.eqb url "/users" then Replied 200 okBody ∅
  else if String.eqb url "/graphql" then
    Replied 200 (JObj [("data", JObj [("user", JStr "ada")])]) ∅
  else if String.eqb url "/sealed" then
    Replied 200 (JStr (encrypt (JSON_stringify okBody) secret)) ∅
  else if String.eqb url "/garbled" then
    Replied 200 (JStr (encrypt "not json" secret)) ∅
  else if String.eqb url "/plain" then Replied 200 (JStr "hello") ∅
  else if String.eqb url "/login" then
    Replied 401 (JObj [("message", JStr "unauthorized")]) ∅
  else if String.eqb url "/denied" then Replied 401 (JStr "Unauthorized") ∅
  else if String.eqb url "/denied-sealed" then
    Replied 401 (JStr (encrypt "not json" secret)) ∅
  else if String.eqb url "/crash" then Replied 500 (JStr "Internal Server Error") ∅
  else if String.eqb url "/teapot" then Replied 418 JNull ∅
  else if String.eqb url "/offline" then NetworkFailure "Network Error"
  else Replied 404 JNull ∅.

Definition runtime : Runtime := {|
  aesEncrypt := encrypt;
  aesDecrypt := decrypt;
  JSON_parse := parse;
  randomWords := fun n => "key" +:+ pretty n;
  randomSuffix := fun n => "r" +:+ pretty n;
  formEncode := fun s => s;
  adapter := server;
  latency := fun _ => 7;
|}.

(** *** Configurations *)

Definition devConfig : NetworkConfig := {|
  baseUrl := Value "https://api.example.com";
  timeout := Absent;
  headers := Absent;
  environment := Value DEV;
  encryption := Value {| enc_enabled := true; enc_secretKey := Some secret;
                         enc_useRemoteKeys := None |};
  metrics := Value {| met_enabled := true; met_logToConsole := Some true |};
  graphql := Absent;
|}.

Definition prodConfig : NetworkConfig := {|
  baseUrl := Value "https://api.example.com";
  timeout := Absent;
  headers := Absent;
  environment := Value PROD;
  encryption := Value {| enc_enabled := true; enc_secretKey := Some secret;
                         enc_useRemoteKeys := None |};
  metrics := Value {| met_enabled := true; met_logToConsole := Some true |};
  graphql := Absent;
|}.

Definition quietConfig : NetworkConfig := {|
  baseUrl := Value "https://api.example.com";
  timeout := Absent;
  headers := Absent;
  environment := Value DEV;
  encryption := Absent;
  metrics := Value {| met_enabled := true; met_logToConsole := Some false |};
  graphql := Absent;
|}.

Definition silentConfig : NetworkConfig := {|
  baseUrl := Value "https://api.example.com";
  timeout := Absent;
  headers := Absent;
  environment := Value DEV;
  encryption := Absent;
  metrics := Value {| met_enabled := false; met_logToConsole := Some true |};
  graphql := Absent;
|}.

(** A second production configuration, with a key of its own. *)
Definition otherConfig : NetworkConfig := {|
  baseUrl := Value "https://other.example.com";
  timeout := Absent;
  headers := Absent;
  environment := Value PROD;
  encryption := Value {| enc_enabled := true; enc_secretKey := Some "other";
                         enc_useRemoteKeys := None |};
  metrics := Absent;
  graphql := Absent;
|}.

(** An update that has the key [encryption] alone. *)
Definition encryptionOffUpdate : NetworkConfig := {|
  baseUrl := Absent;
  timeout := Absent;
  headers := Absent;
  environment := Absent;
  encryption := Value {| enc_enabled := false; enc_secretKey := None;
                         enc_useRemoteKeys := None |};
  metrics := Absent;
  graphql := Absent;
|}.

(** A client constructed in the initial world, and the world after. *)
Definition boot (config : NetworkConfig) : WebLattice * World :=
  match @WebLattice_constructor config initialWorld with
  | (Fulfilled self, w) => (self, w)
  | (Rejected _, w) =>
      ({| this_config := config; client_baseURL := None;
          client_timeout := 0; client_headers := [] |}, w)
  end.

End Demo.

(** ** The vocabulary of the specification *)

(** A call through one of the verb methods, with its arguments. *)
Inductive Call : Type :=
  | Get (url : string) (config : ApiRequestConfig)
  | Post (url : string) (body : JsValue) (config : ApiRequestConfig)
  | Put (url : string) (body : JsValue) (config : ApiRequestConfig)
  | Patch (url : string) (body : JsValue) (config : ApiRequestConfig)
  | Delete (url : string) (config : ApiRequestConfig)
  | Graphql (query : string) (variables : JsValue) (config : ApiRequestConfig).

Definition invoke `{Runtime} (self : WebLattice) (call : Call) : Promise ApiResponse :=
  match call with
  | Get url config => WebLattice_get self url config
  | Post url body config => WebLattice_post self url body config
  | Put url body config => WebLattice_put self url body config
  | Patch url body config => WebLattice_patch self url body config
  | Delete url config => WebLattice_delete self url config
  | Graphql query variables config => WebLattice_graphql self query variables config
  end.

(** An optional string that is missing or empty. *)
Definition unset (x : option string) : Prop := x = None \/ x = Some EmptyString.

(** Metrics are enabled in a configuration; its records go to the console. *)
Definition metricsEnabled (g : NetworkConfig) : bool :=
  match read (metrics g) with Some m => met_enabled m | None => false end.

Definition logsToConsole (g : NetworkConfig) : bool :=
  match read (metrics g) with
  | Some m => match met_logToConsole m with Some b => b | None => false end
  | None => false
  end.

(** The redirects the specification asks for, by HTTP status. *)
Definition redirectFor (status : option Z) : list string :=
  match status with
  | Some s =>
      if decide (s = 401) then ["/enter-email"]
      else if decide (500 <= s < 600) then ["/generic-error"]
      else []
  | None => []
  end.

(** The text of an interpolated value in a template literal. *)
Definition valueText (v : JsValue) : string :=
  match v with Some j => toString j | None => "undefined" end.

(** The fragments and the interpolated values concatenated in order:
    fragment, value, fragment, value, and so on; the last fragment of a
    template has no value after it. *)
Fixpoint concatenation (strings : list string) (values : list JsValue) : string :=
  match strings with
  | [] => EmptyString
  | fragment :: strings' =>
      match values with
      | v :: values' => fragment +:+ valueText v +:+ concatenation strings' values'
      | [] => fragment +:+ concatenation strings' []
      end
  end.

(** One top-level key after a shallow merge: the value of the update
    when the update has the key, the previous value otherwise. *)
Definition mergedKey {A} (previous update result : Slot A) : Prop :=
  (present update = true -> result = update) /\
  (present update = false -> result = previous).

(** A configuration after a shallow merge, key by key. *)
Definition shallowlyMerged (previous update result : NetworkConfig) : Prop :=
  mergedKey (baseUrl previous) (baseUrl update) (baseUrl result) /\
  mergedKey (timeout previous) (timeout update) (timeout result) /\
  mergedKey (headers previous) (headers update) (headers result) /\
  mergedKey (environment previous) (environment update) (environment result) /\
  mergedKey (encryption previous) (encryption update) (encryption result) /\
  mergedKey (metrics previous) (metrics update) (metrics result) /\
  mergedKey (graphql previous) (graphql update) (graphql result).

(** How an interceptor handler treats a response body: it leaves it
    alone, or decrypts and parses it, or fails in one of the two steps.
    [keys] is the entry of [requestKeys] for the request. *)
Inductive Decoding : Type :=
  | Untouched
  | Decoded (parsed : Json)
  | DecryptRaised (message : string)
  | ParseRaised (message : string).

Definition decoding `{Runtime} (self : WebLattice) (keys : option (string * string))
    (g : NetworkConfig) (body : Json) : Decoding :=
  if isProd (this_config self)
     && match keys with Some _ => true | None => false end
     && truthy body && String.eqb (typeof (Some body)) "string"
  then
    match decryptData g (asString body) with
    | Raise message => DecryptRaised message
    | Ret decryptedData =>
        match JSON_parse decryptedData with
        | Ret parsed => Decoded parsed
        | Raise message => ParseRaised message
        end
    end
  else Untouched.

(** The metric data the success handler and the error handler build at
    time [endTime]. *)
Definition successMetric `{Runtime} (self : WebLattice) (endTime : Z)
    (response : AxiosResponse) : MetricData :=
  let startTime := num_or (req__startTime (resp_config response)) endTime in
  let meta := getRequestMetadata (Some (resp_config response)) in
  {| md_url := fst meta;
     md_method := snd meta;
     md_startTime := startTime;
     md_endTime := endTime;
     md_duration := endTime - startTime;
     md_status := Some (resp_status response);
     md_success := true;
     md_encrypted := isProd (this_config self);
     md_graphql := opt_bool_or (req__isGraphQL (resp_config response)) false;
     md_requestSize :=
       Some (String.length
               (JSON_stringify (orEmptyObject (req_data (resp_config response)))));
     md_responseSize :=
       Some (String.length
               (JSON_stringify (orEmptyObject (Some (resp_data response))))) |}.

Definition failureMetric `{Runtime} (self : WebLattice) (endTime : Z)
    (error : JsError) : MetricData :=
  let startTime := num_or (err_config error ≫= req__startTime) endTime in
  let meta := getRequestMetadata (err_config error) in
  {| md_url := fst meta;
     md_method := snd meta;
     md_startTime := startTime;
     md_endTime := endTime;
     md_duration := endTime - startTime;
     md_status := resp_status <$> err_response error;
     md_success := false;
     md_encrypted := isProd (this_config self);
     md_graphql := opt_bool_or (err_config error ≫= req__isGraphQL) false;
     md_requestSize := None;
     md_responseSize := None |}.

(** The world after a metric record was offered to [recordMetrics]. *)
Definition recorded (g : NetworkConfig) (d : MetricData) (w : World) : World :=
  if metricsEnabled g && logsToConsole g
  then set_consoleLog
         (consoleLog w ++ [{| metric_data := d; metric_timestamp := clock w |}]) w
  else w.

(** The world after the redirects of [paths]. *)
Definition redirected (paths : list string) (w : World) : World :=
  match paths with
  | [] => w
  | _ => set_locationAssign (locationAssign w ++ paths) w
  end.

(** The world after a [console.error] with [label]. *)
Definition complained (label : string) (w : World) : World :=
  set_consoleError (consoleError w ++ [label]) w.

(** The call hands exactly one request to the HTTP adapter, and the
    adapter answers it with [reply]. *)
Definition answered `{Runtime} (self : WebLattice) (call : Call) (w : World)
    (reply : Reply) : Prop :=
  exists c : RequestConfig,
    sent (snd (invoke self call w)) = sent w ++ [c] /\ adapter c = reply.

(** The console, the location, the configuration and the list of sent
    requests agree in two worlds. *)
Definition sameEffects (w w' : World) : Prop :=
  globalConfig w' = globalConfig w /\
  consoleLog w' = consoleLog w /\
  consoleError w' = consoleError w /\
  locationAssign w' = locationAssign w /\
  sent w' = sent w.

(** The data of a request after the request interceptor: in production
    mode an object is replaced by its encryption under the global
    configuration [g]. *)
Definition securedData `{Runtime} (self : WebLattice) (g : NetworkConfig)
    (body : JsValue) : JsValue :=
  if isProd (this_config self) then
    match body with
    | Some d =>
        if truthy d && String.eqb (typeof (Some d)) "object"
        then Some (JStr (encryptData g d))
        else Some d
    | None => None
    end
  else body.

(** The error axios raises for a reply that is no 2xx response. *)
Definition httpError (c : RequestConfig) (status : Z) (body : Json)
    (hdrs : gmap string string) : JsError :=
  {| err_message := "Request failed with status code " +:+ pretty status;
     err_config := Some c;
     err_response :=
       Some {| resp_status := status; resp_data := body;
               resp_headers := hdrs; resp_config := c |} |}.

Definition networkError (c : RequestConfig) (message : string) : JsError :=
  {| err_message := message; err_config := Some c; err_response := None |}.

(** The response interceptor applied to the reply to request [c]. *)
Definition intercepted `{Runtime} (self : WebLattice) (c : RequestConfig)
    (reply : Reply) : Promise AxiosResponse :=
  match reply with
  | Replied status body hdrs =>
      if validateStatus status
      then responseFulfilled self
             {| resp_status := status; resp_data := body;
                resp_headers := hdrs; resp_config := c |}
      else responseRejected self (httpError c status body hdrs)
  | NetworkFailure message => responseRejected self (networkError c message)
  end.

(** The [try] and [catch] of a verb around its request: [payload] reads
    the data of the envelope off the response. *)
Definition enveloped (payload : AxiosResponse -> Try JsValue)
    (request : Promise AxiosResponse) : Promise ApiResponse :=
  tryCatch
    (let* response := request in
     let* p := attempt (payload response) in
     resolve (successEnvelope p response))
    (fun error => resolve (failureEnvelope error)).

Definition wholeBody (response : AxiosResponse) : Try JsValue :=
  Ret (Some (resp_data response)).

Definition graphqlData (response : AxiosResponse) : Try JsValue :=
  dataProperty (resp_data response).

(** The world and the result of a handler, by the way the body was
    treated. *)
Definition fulfilledOutcome `{Runtime} (self : WebLattice) (response : AxiosResponse)
    (w : World) : Decoding -> Settled AxiosResponse * World :=
  fun treated =>
    match treated with
    | Untouched =>
        (Fulfilled response,
         recorded (globalConfig w) (successMetric self (clock w) response) w)
    | Decoded parsed =>
        (Fulfilled (with_resp_data parsed response),
         recorded (globalConfig w)
           (successMetric self (clock w) (with_resp_data parsed response)) w)
    | DecryptRaised message =>
        (Rejected (mkError message), complained "Error in response decryption:" w)
    | ParseRaised message =>
        (Rejected (mkError message), complained "Error parsing decrypted JSON:" w)
    end.

Definition rejectedOutcome `{Runtime} (self : WebLattice) (error : JsError)
    (w : World) : Decoding -> Settled AxiosResponse * World :=
  fun treated =>
    let g := globalConfig w in
    let paths := redirectFor (resp_status <$> err_response error) in
    let metric := failureMetric self (clock w) error in
    match treated with
    | Untouched => (Rejected error, redirected paths (recorded g metric w))
    | Decoded parsed =>
        (Rejected (with_error_data parsed error),
         redirected paths (recorded g metric w))
    | DecryptRaised _ =>
        (Rejected error, complained "Error decrypting error response data:" w)
    | ParseRaised _ =>
        (Rejected error,
         redirected paths
           (recorded g metric (complained "Error parsing decrypted error JSON:" w)))
    end.

(** What a verb makes of a settled request. *)
Definition envelopeOf (payload : AxiosResponse -> Try JsValue)
    (settled : Settled AxiosResponse) : ApiResponse :=
  match settled with
  | Fulfilled response =>
      match payload response with
      | Ret p => successEnvelope p response
      | Raise message => failureEnvelope (mkError message)
      end
  | Rejected error => failureEnvelope error
  end.

(** The reply needs no decryption, or its body decrypts and, for a 2xx
    reply, parses: neither handler is cut short by the decoding. *)
Definition decodes `{Runtime} (self : WebLattice) (g : NetworkConfig)
    (reply : Reply) : Prop :=
  match reply with
  | Replied status body _ =>
      forall s,
        isProd (this_config self) = true -> body = JStr s -> s <> EmptyString ->
        exists d, decryptData g s = Ret d /\
                  (validateStatus status = true -> exists v, JSON_parse d = Ret v)
  | NetworkFailure _ => True
  end.

(** The envelope of a failure with no HTTP status to report. *)
Definition unknownStatus (env : ApiResponse) : Prop :=
  statusCode env = Some 500 /\ errorCode env = Some "ERR_UNKNOWN".

(** The envelope of a failure with HTTP status [status]. *)
Definition reportsStatus (status : Z) (env : ApiResponse) : Prop :=
  statusCode env = Some status /\ errorCode env = Some ("ERR_" +:+ pretty status).

(** ** The vocabulary of the further properties *)

(** A query parameter that [constructUrl] keeps: its value is neither
    [undefined] nor [null]. *)
Definition usable (value : JsValue) : bool :=
  match value with
  | None | Some JNull => false
  | Some _ => true
  end.

(** [key=value], both form-encoded. *)
Definition queryPair `{Runtime} (kv : string * JsValue) : string :=
  formEncode (fst kv) +:+ "=" +:+
  formEncode (match snd kv with Some value => toString value | None => EmptyString end).

(** The update that has no key. *)
Definition emptyUpdate : NetworkConfig := {|
  baseUrl := Absent; timeout := Absent; headers := Absent; environment := Absent;
  encryption := Absent; metrics := Absent; graphql := Absent;
|}.

(** The arguments a call hands to [this.client]. *)
Definition callConfig (call : Call) : ApiRequestConfig :=
  match call with
  | Get _ config | Post _ _ config | Put _ _ config | Patch _ _ config
  | Delete _ config | Graphql _ _ config => config
  end.

Definition callMethod (call : Call) : Method :=
  match call with
  | Get _ _ => GET
  | Post _ _ _ | Graphql _ _ _ => POST
  | Put _ _ _ => PUT
  | Patch _ _ _ => PATCH
  | Delete _ _ => DELETE
  end.

Definition callBody (call : Call) : JsValue :=
  match call with
  | Get _ config | Delete _ config => arc_data config
  | Post _ body _ | Put _ body _ | Patch _ body _ => body
  | Graphql query variables _ => Some (graphqlBody query variables)
  end.

(** The endpoint [graphql] resolves under the global configuration [g]. *)
Definition graphqlEndpoint (g : NetworkConfig) (config : ApiRequestConfig) : string :=
  opt_str_or (arc_baseUrl config)
    (opt_str_or (read (graphql g) ≫= gql_endpoint) EmptyString).

Definition callUrl `{Runtime} (g : NetworkConfig) (call : Call) : string :=
  match call with
  | Get url config | Post url _ config | Put url _ config | Patch url _ config
  | Delete url config => constructUrl url (arc_queryParams config)
  | Graphql _ _ config => graphqlEndpoint g config
  end.

Definition callAxiosConfig (call : Call) : ApiRequestConfig :=
  match call with
  | Graphql _ _ config => asGraphQL config
  | _ => restConfig (callConfig call)
  end.

Definition callPayload (call : Call) : AxiosResponse -> Try JsValue :=
  match call with
  | Graphql _ _ _ => graphqlData
  | _ => wholeBody
  end.

(** The call is one of the five REST verbs. *)
Definition isRest (call : Call) : bool :=
  match call with Graphql _ _ _ => false | _ => true end.

(** The names of the headers the request interceptor writes, in lower
    case. *)
Definition encryptionHeaders : list string :=
  ["x-encryption"; "x-encryption-key"; "x-encryption-iv"; "x-public-key-id"].

Definition commonHeaders : list string :=
  ["x-correlation-id"; "x-client-version"; "x-app-platform"].

(** The request object axios builds for a call from the instance
    defaults and the arguments of the verb, before the interceptors run;
    [id] is the identity of the object. *)
Definition callRequest `{Runtime} (self : WebLattice) (g : NetworkConfig) (call : Call)
    (id : nat) : RequestConfig :=
  {| req_id := id;
     req_url := Some (callUrl g call);
     req_method := Some (callMethod call);
     req_baseURL := client_baseURL self;
     req_data := callBody call;
     req_headers :=
       setHeaders (default [] (arc_headers (callAxiosConfig call)))
         (setHeaders (client_headers self) ∅);
     req_timeout :=
       Some (default (client_timeout self) (arc_timeout (callAxiosConfig call)));
     req_isGraphQL := arc_isGraphQL (callAxiosConfig call);
     req__startTime := None;
     req__isGraphQL := None |}.

(** The call reaches [this.client]: every REST verb does, [graphql] does
    when it finds an endpoint. *)
Definition reachesClient (g : NetworkConfig) (call : Call) : bool :=
  isRest call || str_truthy (graphqlEndpoint g (callConfig call)).

(** The page after the session stored the access token [token]. *)
Definition signedIn (token : string) (w : World) : World :=
  {| globalConfig := globalConfig w; accessToken := Some token;
     requestKeys := requestKeys w; nextObject := nextObject w;
     nextDraw := nextDraw w; clock := clock w; consoleLog := consoleLog w;
     consoleError := consoleError w; locationAssign := locationAssign w;
     sent := sent w |}.

(** The per-call configuration that names [endpoint] as its [baseUrl]. *)
Definition towards (endpoint : string) : ApiRequestConfig :=
  {| arc_baseUrl := Some endpoint; arc_queryParams := None; arc_isGraphQL := None;
     arc_headers := None; arc_timeout := None; arc_data := None |}.

(** The options of a production client with the key [key]. *)
Definition productionOptions (key : string) : InitOptions :=
  {| io_baseUrl := "https://api.example.com"; io_env := Some PROD;
     io_encryptionKey := Some key; io_timeout := None; io_headers := None;
     io_useRemoteKeys := None; io_enableMetrics := None |}.

(** The value of the last entry of [entries] whose name is [name], the
    case of letters apart. *)
Fixpoint lastNamed (name : string) (entries : Properties) : option string :=
  match entries with
  | [] => None
  | (k, v) :: rest =>
      match lastNamed name rest with
      | Some v' => Some v'
      | None => if String.eqb (toLowerCase k) (toLowerCase name) then Some v else None
      end
  end.

(** Evaluate [toLowerCase] on the literal names. *)
Ltac lower :=
  unfold setHeader, getHeader in *;
  repeat match goal with
    | |- context [toLowerCase ?s] =>
        let v := eval vm_compute in (toLowerCase s) in
        progress change (toLowerCase s) with v
    end.

Ltac run :=
  unfold andThen, tryCatch, thenElse, gets, modify, resolve, reject, attempt,
    Date_now, console_log, console_error, location_assign in *;
  cbv beta iota zeta in *.

(** * The claims *)

Section Laws.
Context `{Runtime}.

(** ** Encryption helpers *)

Lemma encryptData_disabled g P :
  encryptionEnabled g <> Some true -> encryptData g P = JSON_stringify P.
Proof.
  intros Hoff. unfold encryptData.
  destruct (encryptionEnabled g) as [[|]|]; simpl; congruence.
Qed.

Lemma encryptData_unkeyed g P :
  unset (encryptionSecretKey g) -> encryptData g P = JSON_stringify P.
Proof.
  intros [Hk|Hk]; unfold encryptData; rewrite Hk; simpl;
    by rewrite orb_true_r.
Qed.

(** With a key and the switch on, the cipher is applied whatever the
    environment says. *)
Lemma encryptData_enabled g P K :
  encryptionEnabled g = Some true ->
  encryptionSecretKey g = Some K -> K <> EmptyString ->
  encryptData g P = aesEncrypt (JSON_stringify P) K.
Proof.
  intros He Hk HK. unfold encryptData. rewrite He, Hk. simpl.
  destruct K; [congruence | reflexivity].
Qed.

Lemma decryptData_enabled g c K :
  encryptionEnabled g = Some true ->
  encryptionSecretKey g = Some K -> K <> EmptyString ->
  decryptData g c = aesDecrypt c K.
Proof.
  intros He Hk HK. unfold decryptData. rewrite He, Hk. simpl.
  destruct K; [congruence | reflexivity].
Qed.

(** C1, as amended.  [encryptData] returns [JSON.stringify] of the payload
    unchanged whenever encryption is disabled in the global configuration
    or no non-empty secret key is configured there.  The environment is
    not consulted. *)
Theorem encryptData_passthrough (g : NetworkConfig) (P : Json) :
  encryptionEnabled g <> Some true \/ unset (encryptionSecretKey g) ->
  encryptData g P = JSON_stringify P.
Proof.
  intros [Hoff|Hkey]; [by apply encryptData_disabled | by apply encryptData_unkeyed].
Qed.

(** C4.  With encryption enabled, a non-empty secret key [K] and the
    environment [PROD], decrypting what [encryptData] produced gives back
    [JSON.stringify] of the payload, provided the cipher undoes itself on
    that text. *)
Theorem decrypt_encrypt_roundtrip (g : NetworkConfig) (P : Json) (K : string) :
  read (environment g) = Some PROD ->
  encryptionEnabled g = Some true ->
  encryptionSecretKey g = Some K ->
  K <> EmptyString ->
  aesDecrypt (aesEncrypt (JSON_stringify P) K) K = Ret (JSON_stringify P) ->
  decryptData g (encryptData g P) = Ret (JSON_stringify P).
Proof.
  intros _ He Hk HK Hlaw.
  rewrite (encryptData_enabled g P K He Hk HK).
  by rewrite (decryptData_enabled g _ K He Hk HK).
Qed.

(** ** The configuration store *)

Lemma spread_mergedKey {A} (previous update : Slot A) :
  mergedKey previous update (spread previous update).
Proof. split; by destruct update. Qed.

(** C8.  [setNetworkConfig(U)] leaves in [globalConfig] the value of [U]
    for every top-level key [U] has (a sub-object such as [encryption] is
    replaced as a whole) and the previous value for every key [U] lacks;
    nothing else in the world changes. *)
Theorem setNetworkConfig_shallow (U : NetworkConfig) (w : World) :
  let C := globalConfig w in
  let w' := snd (setNetworkConfig U w) in
  let C' := globalConfig w' in
  fst (setNetworkConfig U w) = Fulfilled tt /\
  mergedKey (baseUrl C) (baseUrl U) (baseUrl C') /\
  mergedKey (timeout C) (timeout U) (timeout C') /\
  mergedKey (headers C) (headers U) (headers C') /\
  mergedKey (environment C) (environment U) (environment C') /\
  mergedKey (encryption C) (encryption U) (encryption C') /\
  mergedKey (metrics C) (metrics U) (metrics C') /\
  mergedKey (graphql C) (graphql U) (graphql C') /\
  w' = set_globalConfig C' w.
Proof.
  simpl. repeat split; try apply spread_mergedKey; by destruct (_ U).
Qed.

(** ** The [gql] tag *)

Lemma append_assoc (a b c : string) : (a +:+ b) +:+ c = a +:+ (b +:+ c).
Proof.
  induction a as [|x a IH]; [reflexivity|].
  change (String x ((a +:+ b) +:+ c) = String x (a +:+ (b +:+ c))).
  by rewrite IH.
Qed.

Lemma append_empty (a : string) : a +:+ EmptyString = a.
Proof.
  induction a as [|x a IH]; [reflexivity|].
  change (String x (a +:+ EmptyString) = String x a).
  by rewrite IH.
Qed.

Lemma interpolated_truthy values i v :
  values !! i = Some v -> js_truthy v = true ->
  interpolated values i = valueText v.
Proof.
  intros Hi Hv. unfold interpolated. rewrite Hi. simpl.
  destruct v as [j|]; simpl in *; [by rewrite Hv | done].
Qed.

Lemma interpolated_beyond (values : list JsValue) i :
  values !! i = None -> interpolated values i = EmptyString.
Proof. intros Hi. unfold interpolated. by rewrite Hi. Qed.

Lemma gql_fold_truthy (values : list JsValue) :
  Forall (fun v => js_truthy v = true) values ->
  forall strings acc i,
    fold_left
      (fun acc str =>
         (fst acc +:+ str +:+ interpolated values (snd acc), S (snd acc)))
      strings (acc, i)
    = (acc +:+ concatenation strings (drop i values), (i + length strings)%nat).
Proof.
  intros Hall. induction strings as [|fragment strings IH]; intros acc i.
  - simpl. rewrite append_empty. f_equal. lia.
  - cbn [fold_left fst snd]. rewrite IH. f_equal; [|simpl; lia].
    destruct (values !! i) as [v|] eqn:Hi.
    + rewrite (drop_S _ _ _ Hi). cbn [concatenation].
      rewrite (interpolated_truthy _ _ _ Hi).
      * by rewrite !append_assoc.
      * rewrite Forall_lookup in Hall. by eapply Hall.
    + rewrite (interpolated_beyond _ _ Hi).
      apply lookup_ge_None in Hi.
      rewrite !drop_ge by lia. cbn [concatenation].
      by rewrite append_empty, !append_assoc.
Qed.

(** X20.  Where every interpolated value is truthy, [gql] is plain
    concatenation. *)
Lemma gql_truthy strings values :
  Forall (fun v => js_truthy v = true) values ->
  gql strings values = concatenation strings values.
Proof.
  intros Hall. unfold gql. by rewrite (gql_fold_truthy values Hall).
Qed.

(** C9, at the failing input.  The template [first: ${0}] has the
    fragments ["first: "] and [""] and the value [0]; concatenating
    them in order gives ["first: 0"], and [gql] returns ["first: "]: the
    falsy value is replaced by the empty string. *)
Theorem gql_drops_falsy_value :
  gql ["first: "; EmptyString] [Some (JNum 0)] = "first: " /\
  concatenation ["first: "; EmptyString] [Some (JNum 0)] = "first: 0" /\
  gql ["first: "; EmptyString] [Some (JNum 0)]
    <> concatenation ["first: "; EmptyString] [Some (JNum 0)].
Proof. by vm_compute. Qed.

(** ** [graphql] without an endpoint *)

Lemma graphql_fails_fast
    (self : WebLattice) (query : string) (variables : JsValue)
    (config : ApiRequestConfig) (w : World) :
  unset (arc_baseUrl config) ->
  unset (read (graphql (globalConfig w)) ≫= gql_endpoint) ->
  WebLattice_graphql self query variables config w =
    (Fulfilled (failureEnvelope (mkError "GraphQL endpoint is not configured")), w).
Proof.
  intros Hcall Hglobal.
  unfold WebLattice_graphql, tryCatch, andThen, gets.
  destruct Hcall as [-> | ->], Hglobal as [-> | ->]; reflexivity.
Qed.

(** C7.  With no endpoint in the per-call configuration ([baseUrl]) nor
    in the global one ([graphql.endpoint]), [graphql] returns the failure
    envelope that says so, and the world is left as it was: nothing is
    handed to the HTTP adapter. *)
Theorem graphql_without_endpoint
    (self : WebLattice) (query : string) (variables : JsValue)
    (config : ApiRequestConfig) (w : World) :
  unset (arc_baseUrl config) ->
  unset (read (graphql (globalConfig w)) ≫= gql_endpoint) ->
  WebLattice_graphql self query variables config w =
    (Fulfilled {| success := false;
                  data := None;
                  error := Some "GraphQL endpoint is not configured";
                  resp_hdrs := None;
                  statusCode := Some 500;
                  errorCode := Some "ERR_UNKNOWN" |},
     w).
Proof. apply graphql_fails_fast. Qed.

(** ** The interceptors, step by step *)

Lemma recordMetrics_run (d : MetricData) (w : World) :
  recordMetrics d w = (Fulfilled tt, recorded (globalConfig w) d w).
Proof.
  unfold recordMetrics, recorded, metricsEnabled, logsToConsole. run.
  destruct (read (metrics (globalConfig w))) as [[[|] [[|]|]]|]; reflexivity.
Qed.

Lemma responseFulfilled_run (self : WebLattice) (response : AxiosResponse) (w : World) :
  responseFulfilled self response w =
    fulfilledOutcome self response w
      (decoding self (requestKeys w !! req_id (resp_config response))
         (globalConfig w) (resp_data response)).
Proof.
  unfold responseFulfilled, fulfilledOutcome, complained, decoding, successMetric.
  run.
  destruct (isProd (this_config self));
    cbn [andb]; run; [|rewrite recordMetrics_run; by run].
  destruct (requestKeys w !! req_id (resp_config response));
    cbn [andb]; run; [|rewrite recordMetrics_run; by run].
  destruct (truthy (resp_data response)) eqn:Htruthy;
    cbn [andb]; run; [|rewrite recordMetrics_run; by run].
  destruct (String.eqb _ "string");
    cbn [andb]; run; [|rewrite recordMetrics_run; by run].
  destruct (decryptData _ _); run; [|reflexivity].
  destruct (JSON_parse _); run; [|reflexivity].
  rewrite recordMetrics_run; by run.
Qed.

Lemma redirect_decision (s : Z) (w : World) :
  (if s =? 401 then location_assign "/enter-email"
   else if negb (s =? 0) && (500 <=? s) && (s <? 600)
        then location_assign "/generic-error"
        else resolve tt) w
  = (Fulfilled tt, redirected (redirectFor (Some s)) w).
Proof.
  unfold redirectFor, redirected, location_assign, modify, resolve.
  destruct (Z.eqb_spec s 401) as [->|Hne]; [reflexivity|].
  rewrite decide_False by done.
  destruct (Z.eqb_spec s 0) as [->|Hnz]; [reflexivity|].
  cbn [negb andb].
  destruct (decide (500 <= s < 600)) as [Hin|Hout];
    destruct (Z.leb_spec 500 s), (Z.ltb_spec s 600);
    cbn [andb]; first [ lia | reflexivity ].
Qed.

Lemma responseRejected_run (self : WebLattice) (error : JsError) (w : World) :
  responseRejected self error w =
    rejectedOutcome self error w
      match err_response error, err_config error with
      | Some response, Some cfg =>
          decoding self (requestKeys w !! req_id cfg) (globalConfig w)
            (resp_data response)
      | _, _ => Untouched
      end.
Proof.
  cbv zeta. pose proof redirect_decision as redirect_decision'.
  unfold responseRejected, rejectedOutcome, decoding, failureMetric, complained.
  run.
  destruct error as [message [cfg|] [response|]];
    cbn [err_response err_config]; run.
  2-4: rewrite recordMetrics_run; run;
       cbn [fmap option_fmap option_map err_response];
       rewrite ?redirect_decision'; by run.
  destruct (isProd (this_config self)); cbn [andb]; run.
  2: { rewrite recordMetrics_run; run.
       cbn [fmap option_fmap option_map err_response].
       rewrite redirect_decision'; by run. }
  destruct (truthy (resp_data response)); cbn [andb]; run;
    (destruct (requestKeys w !! req_id cfg); cbn [andb]; run).
  2-4: rewrite recordMetrics_run; run;
       cbn [fmap option_fmap option_map err_response];
       rewrite redirect_decision'; by run.
  destruct (String.eqb _ "string"); cbn [andb]; run.
  2: { rewrite recordMetrics_run; run.
       cbn [fmap option_fmap option_map err_response].
       rewrite redirect_decision'; by run. }
  destruct (decryptData _ _); run; [|reflexivity].
  destruct (JSON_parse _); run;
    rewrite recordMetrics_run; run;
    cbn [fmap option_fmap option_map err_response with_error_data
           resp_status with_resp_data];
    rewrite redirect_decision'; by run.
Qed.

(** *** What the steps leave untouched *)

Lemma requestInterceptor_run (self : WebLattice) (c : RequestConfig) (w : World) :
  exists c' w',
    requestInterceptor self c w = (Fulfilled c', w') /\
    req_id c' = req_id c /\
    sameEffects w w' /\
    clock w' = clock w /\
    (isProd (this_config self) = true -> is_Some (requestKeys w' !! req_id c)) /\
    req_url c' = req_url c /\
    req_method c' = req_method c /\
    req_data c' = securedData self (globalConfig w) (req_data c).
Proof.
  unfold requestInterceptor, handleProductionSecurity, generateEncryptionKeys,
    addCommonHeaders, sameEffects, securedData.
  run.
  destruct (isProd (this_config self)); run.
  - eexists _, _. split; [reflexivity|].
    cbn -[typeof truthy encryptData].
    destruct (str_truthy _);
      (destruct (req_data c) as [d|] eqn:Hdata;
       [destruct (truthy d && String.eqb (typeof (Some d)) "object")|]);
      repeat split; try done;
      try (intros _; rewrite lookup_insert_eq; by eexists).
  - eexists _, _. split; [reflexivity|].
    cbn. destruct (str_truthy _); repeat split; done.
Qed.

Lemma dispatchRequest_run (self : WebLattice) (c : RequestConfig) (w : World) :
  let c' := with_data (transformRequest self (req_data c)) c in
  let w' := set_clock (clock w + latency c') (set_sent (sent w ++ [c']) w) in
  dispatchRequest self c w =
    match adapter c' with
    | Replied status body hdrs =>
        let response :=
          {| resp_status := status; resp_data := body;
             resp_headers := hdrs; resp_config := c' |} in
        if validateStatus status then (Fulfilled response, w')
        else (Rejected {|
                err_message := "Request failed with status code " +:+ pretty status;
                err_config := Some c';
                err_response := Some response |}, w')
    | NetworkFailure message =>
        (Rejected {| err_message := message;
                     err_config := Some c';
                     err_response := None |}, w')
    end.
Proof.
  unfold dispatchRequest. run.
  destruct (adapter _) as [status body hdrs|message]; [|reflexivity].
  by destruct (validateStatus status).
Qed.

(** One request through the chain: the request interceptor never
    rejects, the request [c] goes to the adapter once, and the reply
    selects the handler.  In production mode the keys of [c] are in
    [requestKeys] when the handler runs. *)
Lemma client_request_run (self : WebLattice) (method : Method) (url : string)
    (body : JsValue) (axiosConfig : ApiRequestConfig) (w : World) :
  exists (c : RequestConfig) (w1 : World),
    globalConfig w1 = globalConfig w /\
    consoleLog w1 = consoleLog w /\
    consoleError w1 = consoleError w /\
    locationAssign w1 = locationAssign w /\
    sent w1 = sent w ++ [c] /\
    (isProd (this_config self) = true -> is_Some (requestKeys w1 !! req_id c)) /\
    client_request self method url body axiosConfig w
      = intercepted self c (adapter c) w1 /\
    req_url c = Some url /\
    req_method c = Some method /\
    req_data c = transformRequest self (securedData self (globalConfig w) body).
Proof.
  unfold client_request, newRequest. run.
  match goal with
  | |- context [requestInterceptor self ?c0 ?w0] =>
      destruct (requestInterceptor_run self c0 w0)
        as (c' & w' & -> & Hid & (Hg & Hl & He & Hr & Hs) & _ & Hkeys
            & Hurl & Hmethod & Hdata)
  end.
  run. rewrite dispatchRequest_run. cbv zeta.
  set (c := with_data (transformRequest self (req_data c')) c').
  exists c, (set_clock (clock w' + latency c) (set_sent (sent w' ++ [c]) w')).
  do 4 (split; [done|]).
  split; [cbn; by rewrite Hs|].
  split; [intros Hprod; cbn; rewrite Hid; by apply Hkeys|].
  split.
  - unfold intercepted.
    destruct (adapter _) as [status data hdrs|message]; [|reflexivity].
    destruct (validateStatus status); reflexivity.
  - cbn. rewrite Hurl, Hmethod, Hdata. done.
Qed.


(** Every verb is its request inside the same [try] and [catch];
    [graphql] first looks for its endpoint. *)
Lemma invoke_run (self : WebLattice) (call : Call) (w : World) :
  (exists query variables config,
      call = Graphql query variables config /\
      unset (arc_baseUrl config) /\
      unset (read (graphql (globalConfig w)) ≫= gql_endpoint)) \/
  (exists method url body axiosConfig payload,
      invoke self call w =
        enveloped payload (client_request self method url body axiosConfig) w).
Proof.
  destruct call as [url config|url body config|url body config|url body config
                   |url config|query variables config]; simpl.
  1-5: right; eexists _, _, _, _, wholeBody; reflexivity.
  destruct (arc_baseUrl config) as [[|a b]|] eqn:Hcall.
  2: { right. eexists _, _, _, _, graphqlData.
       unfold WebLattice_graphql, enveloped. run. by rewrite Hcall. }
  all: destruct (read (graphql (globalConfig w)) ≫= gql_endpoint)
         as [[|a b]|] eqn:Hglobal.
  all: try (left; eexists _, _, _; unfold unset; by eauto).
  all: right; eexists _, _, _, _, graphqlData;
       unfold WebLattice_graphql, enveloped; run; by rewrite Hcall, Hglobal.
Qed.

Lemma intercepted_run (self : WebLattice) (c : RequestConfig) (reply : Reply)
    (w : World) :
  intercepted self c reply w =
    match reply with
    | Replied status body hdrs =>
        let treated :=
          decoding self (requestKeys w !! req_id c) (globalConfig w) body in
        if validateStatus status
        then fulfilledOutcome self
               {| resp_status := status; resp_data := body;
                  resp_headers := hdrs; resp_config := c |} w treated
        else rejectedOutcome self (httpError c status body hdrs) w treated
    | NetworkFailure message =>
        rejectedOutcome self (networkError c message) w Untouched
    end.
Proof.
  unfold intercepted.
  destruct reply as [status body hdrs|message].
  - destruct (validateStatus status).
    + by rewrite responseFulfilled_run.
    + by rewrite responseRejected_run.
  - by rewrite responseRejected_run.
Qed.

(** *** Projections of the worlds the handlers leave *)

Lemma recorded_consoleLog g d w :
  consoleLog (recorded g d w) =
    consoleLog w ++
    (if metricsEnabled g && logsToConsole g
     then [{| metric_data := d; metric_timestamp := clock w |}] else []).
Proof.
  unfold recorded. destruct (_ && _); cbn; [done | by rewrite app_nil_r].
Qed.

Lemma recorded_globalConfig g d w : globalConfig (recorded g d w) = globalConfig w.
Proof. unfold recorded. by destruct (_ && _). Qed.

Lemma recorded_consoleError g d w : consoleError (recorded g d w) = consoleError w.
Proof. unfold recorded. by destruct (_ && _). Qed.

Lemma recorded_locationAssign g d w :
  locationAssign (recorded g d w) = locationAssign w.
Proof. unfold recorded. by destruct (_ && _). Qed.

Lemma recorded_sent g d w : sent (recorded g d w) = sent w.
Proof. unfold recorded. by destruct (_ && _). Qed.

Lemma redirected_locationAssign paths w :
  locationAssign (redirected paths w) = locationAssign w ++ paths.
Proof. destruct paths; cbn; [by rewrite app_nil_r | done]. Qed.

Lemma redirected_globalConfig paths w :
  globalConfig (redirected paths w) = globalConfig w.
Proof. by destruct paths. Qed.

Lemma redirected_consoleLog paths w : consoleLog (redirected paths w) = consoleLog w.
Proof. by destruct paths. Qed.

Lemma redirected_consoleError paths w :
  consoleError (redirected paths w) = consoleError w.
Proof. by destruct paths. Qed.

Lemma redirected_sent paths w : sent (redirected paths w) = sent w.
Proof. by destruct paths. Qed.

Lemma complained_consoleError label w :
  consoleError (complained label w) = consoleError w ++ [label].
Proof. reflexivity. Qed.

Lemma complained_globalConfig label w :
  globalConfig (complained label w) = globalConfig w.
Proof. reflexivity. Qed.

Lemma complained_consoleLog label w : consoleLog (complained label w) = consoleLog w.
Proof. reflexivity. Qed.

Lemma complained_locationAssign label w :
  locationAssign (complained label w) = locationAssign w.
Proof. reflexivity. Qed.

Lemma complained_sent label w : sent (complained label w) = sent w.
Proof. reflexivity. Qed.

Lemma complained_clock label w : clock (complained label w) = clock w.
Proof. reflexivity. Qed.

Create Rewrite HintDb world.

Hint Rewrite
  recorded_consoleLog recorded_globalConfig recorded_consoleError
  recorded_locationAssign recorded_sent
  redirected_locationAssign redirected_globalConfig redirected_consoleLog
  redirected_consoleError redirected_sent
  complained_consoleError complained_globalConfig complained_consoleLog
  complained_locationAssign complained_sent complained_clock
  : world.

(** Reduce the world of an outcome to the world it started from. *)
Ltac world :=
  cbn [fst snd fulfilledOutcome rejectedOutcome];
  autorewrite with world;
  rewrite ?app_nil_r.

Lemma fulfilledOutcome_frame self response w treated :
  let w' := snd (fulfilledOutcome self response w treated) in
  globalConfig w' = globalConfig w /\ sent w' = sent w /\
  locationAssign w' = locationAssign w.
Proof. destruct treated; world; done. Qed.

Lemma rejectedOutcome_frame self error w treated :
  let w' := snd (rejectedOutcome self error w treated) in
  globalConfig w' = globalConfig w /\ sent w' = sent w.
Proof. destruct treated; world; done. Qed.

Lemma intercepted_frame self c reply w :
  let w' := snd (intercepted self c reply w) in
  globalConfig w' = globalConfig w /\ sent w' = sent w.
Proof.
  rewrite intercepted_run.
  destruct reply as [status body hdrs|message]; cbv zeta.
  - destruct (validateStatus status).
    + by destruct (fulfilledOutcome_frame self
                     {| resp_status := status; resp_data := body;
                        resp_headers := hdrs; resp_config := c |} w
                     (decoding self (requestKeys w !! req_id c) (globalConfig w) body))
        as (? & ? & _).
    + apply rejectedOutcome_frame.
  - apply rejectedOutcome_frame.
Qed.

(** A verb around its request: the request [c] is sent once, and the
    envelope is made of what the response interceptor returns. *)
Lemma enveloped_request_run (self : WebLattice)
    (payload : AxiosResponse -> Try JsValue) (method : Method) (url : string)
    (body : JsValue) (axiosConfig : ApiRequestConfig) (w : World) :
  let result := enveloped payload (client_request self method url body axiosConfig) w in
  exists (c : RequestConfig) (w1 : World),
    globalConfig w1 = globalConfig w /\
    consoleLog w1 = consoleLog w /\
    consoleError w1 = consoleError w /\
    locationAssign w1 = locationAssign w /\
    sent w1 = sent w ++ [c] /\
    (isProd (this_config self) = true -> is_Some (requestKeys w1 !! req_id c)) /\
    sent (snd result) = sent w ++ [c] /\
    result =
      (Fulfilled (envelopeOf payload (fst (intercepted self c (adapter c) w1))),
       snd (intercepted self c (adapter c) w1)) /\
    req_url c = Some url /\
    req_method c = Some method /\
    req_data c = transformRequest self (securedData self (globalConfig w) body).
Proof.
  cbv zeta.
  destruct (client_request_run self method url body axiosConfig w)
    as (c & w1 & Hg & Hl & He & Hr & Hs & Hkeys & Hrun & Hshape).
  exists c, w1.
  assert (enveloped payload (client_request self method url body axiosConfig) w =
            (Fulfilled (envelopeOf payload (fst (intercepted self c (adapter c) w1))),
             snd (intercepted self c (adapter c) w1))) as Heq.
  { unfold enveloped, envelopeOf. run. rewrite Hrun.
    destruct (intercepted self c (adapter c) w1) as [[response|error] w'];
      cbn [fst snd]; [|reflexivity].
    by destruct (payload response). }
  do 6 (split; [done|]). split; [|by split].
  rewrite Heq. cbn [snd].
  destruct (intercepted_frame self c (adapter c) w1) as [_ ->]. done.
Qed.

(** A call either stops before anything is sent (only [graphql] without
    an endpoint does), or hands one request [c] to the adapter and wraps
    what the response interceptor makes of the reply. *)
Lemma invoke_sent (self : WebLattice) (call : Call) (w : World) :
  (invoke self call w =
     (Fulfilled (failureEnvelope (mkError "GraphQL endpoint is not configured")), w))
  \/
  (exists (c : RequestConfig) (w1 : World) (payload : AxiosResponse -> Try JsValue),
      globalConfig w1 = globalConfig w /\
      consoleLog w1 = consoleLog w /\
      consoleError w1 = consoleError w /\
      locationAssign w1 = locationAssign w /\
      sent w1 = sent w ++ [c] /\
      (isProd (this_config self) = true -> is_Some (requestKeys w1 !! req_id c)) /\
      sent (snd (invoke self call w)) = sent w ++ [c] /\
      invoke self call w =
        (Fulfilled (envelopeOf payload (fst (intercepted self c (adapter c) w1))),
         snd (intercepted self c (adapter c) w1))).
Proof.
  destruct (invoke_run self call w)
    as [(query & variables & config & -> & Hcall & Hglobal)
       |(method & url & body & axiosConfig & payload & Hinvoke)].
  - left. by apply graphql_fails_fast.
  - right.
    destruct (enveloped_request_run self payload method url body axiosConfig w)
      as (c & w1 & Hg & Hl & He & Hr & Hs & Hkeys & Hsent & Heq & _).
    exists c, w1, payload. rewrite Hinvoke. by repeat split.
Qed.

Lemma answered_sent self call w reply (c : RequestConfig) :
  sent (snd (invoke self call w)) = sent w ++ [c] ->
  answered self call w reply -> adapter c = reply.
Proof.
  intros Hs (c0 & Hs0 & <-). rewrite Hs in Hs0.
  apply app_inv_head in Hs0. by injection Hs0 as ->.
Qed.

Lemma answered_unsent self call w reply env :
  invoke self call w = (Fulfilled env, w) -> ~ answered self call w reply.
Proof.
  intros Heq (c0 & Hs0 & _). rewrite Heq in Hs0. cbn in Hs0.
  apply (f_equal length) in Hs0. rewrite length_app in Hs0. cbn in Hs0. lia.
Qed.

(** *** How a body is treated *)

Lemma decoding_string self keys g (s : string) :
  isProd (this_config self) = true -> is_Some keys -> s <> EmptyString ->
  decoding self keys g (JStr s) =
    match decryptData g s with
    | Raise message => DecryptRaised message
    | Ret d =>
        match JSON_parse d with
        | Ret parsed => Decoded parsed
        | Raise message => ParseRaised message
        end
    end.
Proof.
  intros Hprod [k ->] Hs. unfold decoding. rewrite Hprod. cbn.
  destruct s; [done | reflexivity].
Qed.

Lemma decoding_elsewhere self keys g body :
  isProd (this_config self) = false \/
  (forall s, body = JStr s -> s = EmptyString) ->
  decoding self keys g body = Untouched.
Proof.
  unfold decoding. intros [-> | Hbody]; [done|].
  destruct body as [| | |s| |]; cbn; rewrite ?andb_false_r; try done.
  by rewrite (Hbody s eq_refl), andb_false_r.
Qed.

Lemma decodes_decoding self g status body hdrs keys :
  decodes self g (Replied status body hdrs) ->
  (forall message, decoding self keys g body <> DecryptRaised message) /\
  (validateStatus status = true ->
   forall message, decoding self keys g body <> ParseRaised message).
Proof.
  intros Hd. unfold decodes in Hd. unfold decoding.
  destruct (isProd (this_config self)) eqn:Hprod; cbn [andb]; [|done].
  destruct keys; cbn [andb]; [|done].
  destruct (truthy body) eqn:Htruthy; cbn [andb]; [|done].
  destruct body as [| | |s| |]; try done.
  cbn. destruct (Hd s eq_refl eq_refl) as (d & -> & Hparse).
  { by destruct s. }
  split; [by destruct (JSON_parse d)|].
  intros Hok. by destruct (Hparse Hok) as [v ->].
Qed.

(** ** Metrics *)

Lemma metrics_switch (g : NetworkConfig) :
  metricsEnabled g = false \/ logsToConsole g = false ->
  metricsEnabled g && logsToConsole g = false.
Proof. intros [-> | ->]; [done | apply andb_false_r]. Qed.

Lemma intercepted_consoleLog self c reply w :
  let g := globalConfig w in
  let w' := snd (intercepted self c reply w) in
  (metricsEnabled g && logsToConsole g = false -> consoleLog w' = consoleLog w) /\
  (metricsEnabled g && logsToConsole g = true -> decodes self g reply ->
   exists record, consoleLog w' = consoleLog w ++ [record]).
Proof.
  cbv zeta. rewrite intercepted_run.
  destruct reply as [status body hdrs|message]; cbv zeta.
  - pose proof (decodes_decoding self (globalConfig w) status body hdrs
                  (requestKeys w !! req_id c)) as Hdecodes.
    destruct (validateStatus status);
      (split; [intros Hoff | intros Hon [Hdecrypt Hparse]%Hdecodes]);
      destruct (decoding self _ _ body) eqn:Htreated; world;
      rewrite ?Hoff, ?Hon, ?app_nil_r; try done; try by eexists.
    + by destruct (Hdecrypt message).
    + by destruct (Hparse eq_refl message).
    + by destruct (Hdecrypt message).
  - split; [intros Hoff | intros Hon _]; world;
      rewrite ?Hoff, ?Hon, ?app_nil_r; [done | by eexists].
Qed.

(** The metric records of a call, by the switches of the global
    configuration. *)
Lemma invoke_consoleLog (self : WebLattice) (call : Call) (w : World) :
  let g := globalConfig w in
  let w' := snd (invoke self call w) in
  (metricsEnabled g && logsToConsole g = false -> consoleLog w' = consoleLog w) /\
  (metricsEnabled g && logsToConsole g = true ->
   forall reply, answered self call w reply -> decodes self g reply ->
   exists record, consoleLog w' = consoleLog w ++ [record]).
Proof.
  cbv zeta.
  destruct (invoke_sent self call w)
    as [Heq|(c & w1 & payload & Hg & Hl & He & Hr & Hs & Hk & Hsent & Heq)].
  - split; [by rewrite Heq|].
    intros _ reply Hreply. by destruct (answered_unsent _ _ _ reply _ Heq).
  - destruct (intercepted_consoleLog self c (adapter c) w1) as [Hoff Hon].
    rewrite Hg, Hl in Hoff, Hon. rewrite Heq. cbn [snd].
    split; [done|].
    intros Hm reply Hreply Hdecodes.
    rewrite <- (answered_sent _ _ _ _ _ Hsent Hreply) in Hdecodes.
    by apply Hon.
Qed.

(** C2, as amended.  Whatever the outcome of a call, no metric record
    is written when metrics are disabled in the global configuration, nor
    when [logToConsole] is not set.  With both set, exactly one record is
    written for every call that hands a request to the adapter and whose
    reply, success or error, is decoded without a failure. *)
Theorem metrics_per_call (self : WebLattice) (call : Call) (w : World) :
  let g := globalConfig w in
  let w' := snd (invoke self call w) in
  (metricsEnabled g = false -> consoleLog w' = consoleLog w) /\
  (logsToConsole g = false -> consoleLog w' = consoleLog w) /\
  (metricsEnabled g = true -> logsToConsole g = true ->
   forall reply, answered self call w reply -> decodes self g reply ->
   exists record, consoleLog w' = consoleLog w ++ [record]).
Proof.
  cbv zeta. destruct (invoke_consoleLog self call w) as [Hoff Hon].
  repeat split.
  - intros Hm. apply Hoff, metrics_switch. by left.
  - intros Hm. apply Hoff, metrics_switch. by right.
  - intros Hm Hc. apply Hon. by rewrite Hm, Hc.
Qed.

(** X21.  What the amended claim leaves out: a reply whose decoding fails.
    A 2xx body that does not decrypt or does not parse, and an error body
    on which decryption raises, leave the handler before [recordMetrics]:
    no record is written, whatever the switches say. *)
Lemma no_record_when_decoding_fails
    (self : WebLattice) (call : Call) (w : World)
    (status : Z) (s : string) (hdrs : gmap string string) :
  isProd (this_config self) = true ->
  answered self call w (Replied status (JStr s) hdrs) ->
  s <> EmptyString ->
  (exists message, decryptData (globalConfig w) s = Raise message) \/
  (validateStatus status = true /\
   exists d message,
     decryptData (globalConfig w) s = Ret d /\ JSON_parse d = Raise message) ->
  consoleLog (snd (invoke self call w)) = consoleLog w.
Proof.
  intros Hprod Hreply Hs Hfails.
  destruct (invoke_sent self call w)
    as [Heq|(c & w1 & payload & Hg & Hl & He & Hr & Hs1 & Hk & Hsent & Heq)].
  { by destruct (answered_unsent _ _ _ _ _ Heq Hreply). }
  rewrite Heq. cbn [snd].
  rewrite intercepted_run, (answered_sent _ _ _ _ _ Hsent Hreply). cbv zeta.
  rewrite (decoding_string self _ _ s Hprod (Hk Hprod) Hs), Hg.
  destruct Hfails as [[message ->]|(-> & d & message & -> & ->)].
  - destruct (validateStatus status); world; done.
  - world. done.
Qed.

(** ** Redirects *)

Lemma intercepted_locationAssign self c reply w :
  let w' := snd (intercepted self c reply w) in
  match reply with
  | Replied status body hdrs =>
      if validateStatus status then locationAssign w' = locationAssign w
      else
        match decoding self (requestKeys w !! req_id c) (globalConfig w) body with
        | DecryptRaised _ => locationAssign w' = locationAssign w
        | _ => locationAssign w' = locationAssign w ++ redirectFor (Some status)
        end
  | NetworkFailure _ => locationAssign w' = locationAssign w
  end.
Proof.
  cbv zeta. rewrite intercepted_run.
  destruct reply as [status body hdrs|message]; cbv zeta.
  - destruct (validateStatus status);
      destruct (decoding self _ _ body); world; done.
  - world. done.
Qed.

(** X19.  Where the error body is decoded without a failure, the redirects
    are those of the specification: one to [/enter-email] on 401, one to
    [/generic-error] on 500 to 599, none otherwise. *)
Lemma redirects_per_status (self : WebLattice) (call : Call) (w : World) :
  let w' := snd (invoke self call w) in
  (forall reply, answered self call w reply -> decodes self (globalConfig w) reply ->
   locationAssign w' =
     locationAssign w ++
     match reply with
     | Replied status _ _ =>
         if validateStatus status then [] else redirectFor (Some status)
     | NetworkFailure _ => []
     end) /\
  (sent w' = sent w -> locationAssign w' = locationAssign w).
Proof.
  cbv zeta.
  destruct (invoke_sent self call w)
    as [Heq|(c & w1 & payload & Hg & Hl & He & Hr & Hs & Hk & Hsent & Heq)].
  - split; [|by rewrite Heq].
    intros reply Hreply. by destruct (answered_unsent _ _ _ reply _ Heq).
  - split.
    + intros reply Hreply Hdecodes.
      pose proof (answered_sent _ _ _ _ _ Hsent Hreply) as Hc.
      pose proof (intercepted_locationAssign self c (adapter c) w1) as Hloc.
      rewrite Heq. cbn [snd]. rewrite Hc.
      cbv zeta in Hloc. rewrite Hc, Hr, Hg in Hloc.
      destruct reply as [status body hdrs|message]; [|by rewrite Hloc, app_nil_r].
      destruct (decodes_decoding self (globalConfig w) status body hdrs
                  (requestKeys w1 !! req_id c) Hdecodes) as [Hdecrypt _].
      destruct (validateStatus status); [by rewrite Hloc, app_nil_r|].
      destruct (decoding self _ _ body) eqn:Htreated; try done.
      by destruct (Hdecrypt message).
    + intros Hunsent. rewrite Hunsent in Hsent.
      apply (f_equal length) in Hsent. rewrite length_app in Hsent.
      cbn in Hsent. lia.
Qed.

(** C3, at the failing input.  In production mode, when the error
    response has a non-empty string body on which decryption raises, the
    error handler leaves its [try] block before the metrics and before
    the redirect: for a 401 (or a 5xx) reply nothing is redirected,
    although the envelope reports the status. *)
Theorem redirect_skipped_when_decryption_raises
    (self : WebLattice) (call : Call) (w : World)
    (status : Z) (s : string) (hdrs : gmap string string) (message : string) :
  isProd (this_config self) = true ->
  answered self call w (Replied status (JStr s) hdrs) ->
  validateStatus status = false ->
  status <> 0 ->
  s <> EmptyString ->
  decryptData (globalConfig w) s = Raise message ->
  let w' := snd (invoke self call w) in
  (exists env, fst (invoke self call w) = Fulfilled env /\
               success env = false /\ statusCode env = Some status) /\
  locationAssign w' = locationAssign w /\
  consoleLog w' = consoleLog w /\
  consoleError w' = consoleError w ++ ["Error decrypting error response data:"].
Proof.
  intros Hprod Hreply Hstatus Hnz Hs Hraise. cbv zeta.
  destruct (invoke_sent self call w)
    as [Heq|(c & w1 & payload & Hg & Hl & He & Hr & _ & Hk & Hsent & Heq)].
  { by destruct (answered_unsent _ _ _ _ _ Heq Hreply). }
  rewrite Heq. cbn [fst snd].
  rewrite intercepted_run, (answered_sent _ _ _ _ _ Hsent Hreply). cbv zeta.
  rewrite Hstatus, (decoding_string self _ _ s Hprod (Hk Hprod) Hs), Hg, Hraise.
  world. rewrite Hr, Hl, He. repeat split; try done.
  eexists. split; [reflexivity|]. cbn. split; [done|].
  by destruct (Z.eqb_spec status 0).
Qed.

(** ** The failure envelope *)

Lemma failureEnvelope_message (e : JsError) :
  exists message,
    error (failureEnvelope e) = Some message /\ message <> EmptyString.
Proof.
  eexists. split; [reflexivity|].
  unfold str_or. by destruct (err_message e).
Qed.

Lemma failureEnvelope_unknown (e : JsError) :
  err_response e = None -> unknownStatus (failureEnvelope e).
Proof. unfold unknownStatus, failureEnvelope. by intros ->. Qed.

Lemma failureEnvelope_status (e : JsError) (r : AxiosResponse) :
  err_response e = Some r ->
  if decide (resp_status r = 0) then unknownStatus (failureEnvelope e)
  else reportsStatus (resp_status r) (failureEnvelope e).
Proof.
  unfold unknownStatus, reportsStatus, failureEnvelope. intros ->. cbn.
  destruct (decide (resp_status r = 0)) as [->|Hnz]; [done|].
  by destruct (Z.eqb_spec (resp_status r) 0).
Qed.

Lemma intercepted_failure self c reply w payload :
  let env := envelopeOf payload (fst (intercepted self c reply w)) in
  success env = false ->
  (exists message, error env = Some message /\ message <> EmptyString) /\
  match reply with
  | Replied status _ _ =>
      if validateStatus status then unknownStatus env
      else if decide (status = 0) then unknownStatus env
           else reportsStatus status env
  | NetworkFailure _ => unknownStatus env
  end.
Proof.
  cbv zeta. rewrite intercepted_run.
  destruct reply as [status body hdrs|message]; cbv zeta.
  - destruct (validateStatus status);
      destruct (decoding self _ _ body); cbn [fst fulfilledOutcome rejectedOutcome envelopeOf];
      try (destruct (payload _); cbn [success successEnvelope]; [done|]);
      intros _; (split; [apply failureEnvelope_message|]);
      try (by apply failureEnvelope_unknown);
      match goal with
      | |- context [failureEnvelope ?e] =>
          let r := eval cbn in (err_response e) in
          match r with
          | Some ?r' => exact (failureEnvelope_status e r' eq_refl)
          end
      end.
  - cbn [fst rejectedOutcome envelopeOf]. intros _.
    split; [apply failureEnvelope_message|].
    by apply failureEnvelope_unknown.
Qed.

Lemma envelopeOf_failure payload settled :
  success (envelopeOf payload settled) = false ->
  exists e, envelopeOf payload settled = failureEnvelope e.
Proof.
  destruct settled as [response|e]; cbn [envelopeOf]; [|by eexists].
  destruct (payload response); [done | by eexists].
Qed.

(** What makes the envelope of a reply a failure: a transport failure, a
    reply that is no 2xx, a body on which decryption or parsing raises. *)
Lemma intercepted_fails self c reply w payload :
  let env := envelopeOf payload (fst (intercepted self c reply w)) in
  match reply with
  | Replied status body _ =>
      (validateStatus status = false -> success env = false) /\
      (forall s, isProd (this_config self) = true ->
                 is_Some (requestKeys w !! req_id c) ->
                 body = JStr s -> s <> EmptyString ->
                 (exists message, decryptData (globalConfig w) s = Raise message) \/
                 (exists d message, decryptData (globalConfig w) s = Ret d /\
                                    JSON_parse d = Raise message) ->
                 success env = false)
  | NetworkFailure _ => success env = false
  end.
Proof.
  cbv zeta. rewrite intercepted_run.
  destruct reply as [status body hdrs|message]; cbv zeta; [|done].
  split.
  - intros ->. by destruct (decoding self _ _ body).
  - intros s Hprod Hkeys -> Hs Hraises.
    rewrite (decoding_string self _ _ s Hprod Hkeys Hs).
    destruct Hraises as [[message ->]|(d & message & -> & ->)];
      by destruct (validateStatus status).
Qed.

(** C5.  A call through a verb method never raises: it returns an
    envelope.  The envelope is a failure, [success = false], when the
    call stops before anything is sent, when the transport fails, when
    the reply is no 2xx, and when decrypting or parsing the body of the
    reply raises.  A failure envelope carries no data and no headers; it
    has a non-empty error message, the status code of the error response
    and [ERR_<status>] when the failure is an HTTP error, and 500 and
    [ERR_UNKNOWN] when the error carries no response (a transport error,
    an error thrown before the request was sent, an error thrown while a
    2xx response was handled) or, JavaScript's [||] being what it is, a
    response with status 0. *)
Theorem failure_is_an_envelope (self : WebLattice) (call : Call) (w : World) :
  exists (env : ApiResponse) (w' : World),
    invoke self call w = (Fulfilled env, w') /\
    (sent w' = sent w -> success env = false) /\
    (forall reply, answered self call w reply ->
       match reply with
       | Replied status body _ =>
           (validateStatus status = false -> success env = false) /\
           (forall s, isProd (this_config self) = true ->
                      body = JStr s -> s <> EmptyString ->
                      (exists message, decryptData (globalConfig w) s = Raise message) \/
                      (exists d message, decryptData (globalConfig w) s = Ret d /\
                                         JSON_parse d = Raise message) ->
                      success env = false)
       | NetworkFailure _ => success env = false
       end) /\
    (success env = false ->
     data env = None /\
     resp_hdrs env = None /\
     (exists message, error env = Some message /\ message <> EmptyString) /\
     (forall reply, answered self call w reply ->
        match reply with
        | Replied status _ _ =>
            if validateStatus status then unknownStatus env
            else if decide (status = 0) then unknownStatus env
                 else reportsStatus status env
        | NetworkFailure _ => unknownStatus env
        end) /\
     (sent w' = sent w -> unknownStatus env)).
Proof.
  destruct (invoke_sent self call w)
    as [Heq|(c & w1 & payload & Hg & Hl & He & Hr & Hs & Hk & Hsent & Heq)].
  - eexists _, _. split; [exact Heq|].
    split; [done|]. split.
    { intros reply Hreply. by destruct (answered_unsent _ _ _ reply _ Heq). }
    intros _. do 2 (split; [done|]).
    split; [apply failureEnvelope_message|]. split; [|done].
    intros reply Hreply. by destruct (answered_unsent _ _ _ reply _ Heq).
  - assert (sent (snd (invoke self call w)) <> sent w) as Hmore.
    { rewrite Hsent. intros Hx. apply (f_equal length) in Hx.
      rewrite length_app in Hx. cbn in Hx. lia. }
    eexists _, _. split; [exact Heq|].
    rewrite Heq in Hmore. cbn [snd] in Hmore.
    split; [done|]. split.
    { intros reply Hreply.
      pose proof (intercepted_fails self c (adapter c) w1 payload) as Hfails.
      cbv zeta in Hfails.
      rewrite (answered_sent _ _ _ _ _ Hsent Hreply) in Hfails |- *.
      destruct reply as [status body hdrs|message]; [|exact Hfails].
      destruct Hfails as [Hstatus Hraises]. split; [exact Hstatus|].
      intros s Hprod Hbody Hne Hraise.
      apply (Hraises s Hprod (Hk Hprod) Hbody Hne). by rewrite Hg. }
    intros Hfail.
    destruct (intercepted_failure self c (adapter c) w1 payload Hfail)
      as [Hmessage Hstatus].
    destruct (envelopeOf_failure _ _ Hfail) as [e He'].
    split; [by rewrite He'|]. split; [by rewrite He'|].
    split; [exact Hmessage|]. split; [|done].
    intros reply Hreply.
    by rewrite <- (answered_sent _ _ _ _ _ Hsent Hreply).
Qed.

(** ** A decrypted body that is no JSON *)

(** The error handler on its own: the parse failure is logged, the
    metric and the redirect follow, and the handler rejects with the very
    error it was given. *)
Lemma responseRejected_parse_failure
    (self : WebLattice) (c : RequestConfig) (w : World)
    (status : Z) (s : string) (hdrs : gmap string string) (d message : string) :
  isProd (this_config self) = true ->
  is_Some (requestKeys w !! req_id c) ->
  s <> EmptyString ->
  decryptData (globalConfig w) s = Ret d ->
  JSON_parse d = Raise message ->
  let error := httpError c status (JStr s) hdrs in
  responseRejected self error w =
    (Rejected error,
     redirected (redirectFor (Some status))
       (recorded (globalConfig w) (failureMetric self (clock w) error)
          (complained "Error parsing decrypted error JSON:" w))).
Proof.
  intros Hprod Hkeys Hs Hdecrypt Hparse. cbv zeta.
  rewrite responseRejected_run. cbn [httpError err_response err_config resp_data].
  by rewrite (decoding_string self _ _ s Hprod Hkeys Hs), Hdecrypt, Hparse.
Qed.

(** C6.  In production mode, let the reply have a non-empty string body
    that decrypts to a text [JSON.parse] rejects.  For a 2xx reply the
    call ends as a failure: the envelope has [success = false], the
    message of the parse error, status 500 and [ERR_UNKNOWN]; the failure
    is logged, no metric is recorded.  For an error reply the parse
    failure is logged and nothing more: the metric is recorded and the
    redirect made as for any error reply, the response interceptor
    rejects with the error it was given, the string body still in its
    response, and the envelope is the one of the HTTP error. *)
Theorem parse_failure_on_both_paths
    (self : WebLattice) (call : Call) (w : World)
    (status : Z) (s : string) (hdrs : gmap string string) (d message : string) :
  isProd (this_config self) = true ->
  answered self call w (Replied status (JStr s) hdrs) ->
  s <> EmptyString ->
  decryptData (globalConfig w) s = Ret d ->
  JSON_parse d = Raise message ->
  let g := globalConfig w in
  let w' := snd (invoke self call w) in
  (validateStatus status = true ->
   fst (invoke self call w)
     = Fulfilled {| success := false;
                    data := None;
                    error := Some (if str_truthy message then message
                                   else "An unknown error occurred");
                    resp_hdrs := None;
                    statusCode := Some 500;
                    errorCode := Some "ERR_UNKNOWN" |} /\
   consoleError w' = consoleError w ++ ["Error parsing decrypted JSON:"] /\
   consoleLog w' = consoleLog w /\
   locationAssign w' = locationAssign w) /\
  (validateStatus status = false ->
   exists (c : RequestConfig) (w1 : World) (e : JsError),
     sent w' = sent w ++ [c] /\
     intercepted self c (Replied status (JStr s) hdrs) w1 = (Rejected e, w') /\
     e = httpError c status (JStr s) hdrs /\
     err_message e = "Request failed with status code " +:+ pretty status /\
     resp_status <$> err_response e = Some status /\
     resp_data <$> err_response e = Some (JStr s) /\
     fst (invoke self call w)
       = Fulfilled {| success := false;
                      data := None;
                      error := Some ("Request failed with status code " +:+ pretty status);
                      resp_hdrs := None;
                      statusCode := Some (if status =? 0 then 500 else status);
                      errorCode :=
                        Some ("ERR_" +:+
                              (if status =? 0 then "UNKNOWN" else pretty status)) |} /\
     consoleError w' = consoleError w ++ ["Error parsing decrypted error JSON:"] /\
     (exists record,
        consoleLog w' =
          consoleLog w ++
          (if metricsEnabled g && logsToConsole g then [record] else [])) /\
     locationAssign w' = locationAssign w ++ redirectFor (Some status)).
Proof.
  intros Hprod Hreply Hs Hdecrypt Hparse. cbv zeta.
  destruct (invoke_sent self call w)
    as [Heq|(c & w1 & payload & Hg & Hl & He & Hr & Hs1 & Hk & Hsent & Heq)].
  { by destruct (answered_unsent _ _ _ _ _ Heq Hreply). }
  pose proof (intercepted_run self c (adapter c) w1) as Hrun.
  rewrite (answered_sent _ _ _ _ _ Hsent Hreply) in Heq, Hrun. cbv zeta in Hrun.
  rewrite (decoding_string self _ _ s Hprod (Hk Hprod) Hs), Hg, Hdecrypt, Hparse
    in Hrun.
  split; intros Hstatus; rewrite Hstatus in Hrun.
  - rewrite Heq, Hrun. world. by rewrite He, Hl, Hr.
  - exists c, w1, (httpError c status (JStr s) hdrs).
    rewrite Heq, Hrun. world. cbn [fst snd rejectedOutcome].
    rewrite Hg, Hl, He, Hr. repeat split; try done.
    by eexists.
Qed.

(** ** One configuration for every client *)

Lemma constructor_run (C : NetworkConfig) (w : World) :
  exists self,
    WebLattice_constructor C w =
      (Fulfilled self, set_globalConfig (shallowMerge (globalConfig w) C) w) /\
    this_config self = C.
Proof. eexists. split; reflexivity. Qed.

Lemma spread_present {A} (old new : Slot A) :
  present new = true -> spread old new = new.
Proof. by destruct new. Qed.

Lemma encryptData_reads_encryption g g' P :
  encryption g = encryption g' -> encryptData g P = encryptData g' P.
Proof.
  intros Heq. unfold encryptData, encryptionEnabled, encryptionSecretKey.
  by rewrite Heq.
Qed.

Lemma decryptData_reads_encryption g g' c :
  encryption g = encryption g' -> decryptData g c = decryptData g' c.
Proof.
  intros Heq. unfold decryptData, encryptionEnabled, encryptionSecretKey.
  by rewrite Heq.
Qed.

Lemma recorded_reads_metrics g g' d w :
  metrics g = metrics g' -> recorded g d w = recorded g' d w.
Proof.
  intros Heq. unfold recorded, metricsEnabled, logsToConsole. by rewrite Heq.
Qed.

Lemma spread_absent {A} (old new : Slot A) :
  present new = false -> spread old new = old.
Proof. by destruct new. Qed.

Lemma shallowMerge_shallowlyMerged (previous update : NetworkConfig) :
  shallowlyMerged previous update (shallowMerge previous update).
Proof. unfold shallowlyMerged. repeat split; cbn; by destruct (_ update). Qed.

(** C10.  The constructor shallow-merges its configuration into the
    global one: every key its configuration has replaces the global
    value, every key it lacks leaves the global value as it was.  After
    a client [A] and then a client [B] were constructed, [encryptData]
    and [decryptData] work from [B]'s [encryption] and [recordMetrics]
    from [B]'s [metrics] where [B]'s configuration has the key, whoever
    calls them, and from what was there before [B], [A]'s section if [A]
    gave one, where it has not.  So a call through [A] writes no metric
    record when [B] disabled metrics, whatever [A]'s own configuration
    says, and the object [A] posts in production mode leaves encrypted
    under [B]'s [encryption]. *)
Theorem helpers_read_last_constructed (CA CB : NetworkConfig) (w : World) :
  exists (A B : WebLattice) (w1 w2 : World),
    WebLattice_constructor CA w = (Fulfilled A, w1) /\
    WebLattice_constructor CB w1 = (Fulfilled B, w2) /\
    this_config A = CA /\
    this_config B = CB /\
    shallowlyMerged (globalConfig w) CA (globalConfig w1) /\
    shallowlyMerged (globalConfig w1) CB (globalConfig w2) /\
    (present (encryption CB) = true ->
     forall (P : Json) (c : string),
       encryptData (globalConfig w2) P = encryptData CB P /\
       decryptData (globalConfig w2) c = decryptData CB c) /\
    (present (metrics CB) = true ->
     forall d, recordMetrics d w2 = (Fulfilled tt, recorded CB d w2)) /\
    (present (encryption CB) = false ->
     forall (P : Json) (c : string),
       (encryptData (globalConfig w2) P = encryptData (globalConfig w1) P /\
        decryptData (globalConfig w2) c = decryptData (globalConfig w1) c) /\
       (present (encryption CA) = true ->
        encryptData (globalConfig w2) P = encryptData CA P /\
        decryptData (globalConfig w2) c = decryptData CA c) /\
       (present (encryption CA) = false ->
        encryptData (globalConfig w2) P = encryptData (globalConfig w) P /\
        decryptData (globalConfig w2) c = decryptData (globalConfig w) c)) /\
    (present (metrics CB) = false ->
     forall d,
       recordMetrics d w2 = (Fulfilled tt, recorded (globalConfig w1) d w2) /\
       (present (metrics CA) = true ->
        recordMetrics d w2 = (Fulfilled tt, recorded CA d w2)) /\
       (present (metrics CA) = false ->
        recordMetrics d w2 = (Fulfilled tt, recorded (globalConfig w) d w2))) /\
    (present (metrics CB) = true -> metricsEnabled CB = false ->
     forall call, consoleLog (snd (invoke A call w2)) = consoleLog w2) /\
    (present (encryption CB) = true -> isProd CA = true ->
     forall url (body : Json) config,
       truthy body && String.eqb (typeof (Some body)) "object" = true ->
       exists c : RequestConfig,
         sent (snd (invoke A (Post url (Some body) config) w2)) = sent w2 ++ [c] /\
         req_data c = Some (JStr (JSON_stringify (JStr (encryptData CB body))))).
Proof.
  destruct (constructor_run CA w) as (A & HA & HcA).
  destruct (constructor_run CB (set_globalConfig (shallowMerge (globalConfig w) CA) w))
    as (B & HB & HcB).
  eexists A, B, _, _. split; [exact HA|]. split; [exact HB|].
  cbn [globalConfig set_globalConfig].
  do 2 (split; [done|]).
  do 2 (split; [apply shallowMerge_shallowlyMerged|]).
  split; [|split; [|split; [|split; [|split]]]].
  - intros Hpresent P c. split.
    + apply encryptData_reads_encryption. cbn. by apply spread_present.
    + apply decryptData_reads_encryption. cbn. by apply spread_present.
  - intros Hpresent d. rewrite recordMetrics_run. f_equal.
    apply recorded_reads_metrics. cbn. by apply spread_present.
  - intros Habsent P c.
    assert (encryption (shallowMerge (shallowMerge (globalConfig w) CA) CB)
            = encryption (shallowMerge (globalConfig w) CA)) as Hkept.
    { cbn. by apply spread_absent. }
    split; [|split].
    + split; [by apply encryptData_reads_encryption
             | by apply decryptData_reads_encryption].
    + intros HA'.
      split; [apply encryptData_reads_encryption
             | apply decryptData_reads_encryption];
        rewrite Hkept; cbn; by apply spread_present.
    + intros HA'.
      split; [apply encryptData_reads_encryption
             | apply decryptData_reads_encryption];
        rewrite Hkept; cbn; by apply spread_absent.
  - intros Habsent d. rewrite recordMetrics_run.
    cbn [globalConfig set_globalConfig].
    assert (metrics (shallowMerge (shallowMerge (globalConfig w) CA) CB)
            = metrics (shallowMerge (globalConfig w) CA)) as Hkept.
    { cbn. by apply spread_absent. }
    split; [|split].
    + f_equal. by apply recorded_reads_metrics.
    + intros HA'. f_equal. apply recorded_reads_metrics. rewrite Hkept.
      cbn. by apply spread_present.
    + intros HA'. f_equal. apply recorded_reads_metrics. rewrite Hkept.
      cbn. by apply spread_absent.
  - intros Hpresent Hoff call.
    apply invoke_consoleLog. cbn [globalConfig set_globalConfig].
    apply metrics_switch. left.
    unfold metricsEnabled in *. cbn [metrics shallowMerge].
    by rewrite (spread_present _ _ Hpresent).
  - intros Hpresent Hprod url body config Hobject.
    destruct (enveloped_request_run A wholeBody POST
                (constructUrl url (arc_queryParams config)) (Some body)
                (restConfig config)
                (set_globalConfig
                   (shallowMerge (shallowMerge (globalConfig w) CA) CB)
                   (set_globalConfig (shallowMerge (globalConfig w) CA) w)))
      as (c & _ & _ & _ & _ & _ & _ & _ & Hsent & _ & _ & _ & Hdata).
    exists c. split; [exact Hsent|].
    rewrite Hdata. unfold transformRequest, securedData.
    rewrite HcA, Hprod, Hobject. cbn [fmap option_fmap option_map].
    do 4 f_equal. apply encryptData_reads_encryption.
    cbn. by apply spread_present.
Qed.

(** * Further properties of the code *)

(** ** [constructUrl] *)

Lemma str_truthy_append_r (a b : string) :
  str_truthy b = true -> str_truthy (a +:+ b) = true.
Proof. destruct a; [done | reflexivity]. Qed.

Lemma join_cons_truthy (sep p : string) (ps : list string) :
  str_truthy p = true -> str_truthy (join sep (p :: ps)) = true.
Proof.
  unfold join. revert p. induction ps as [|q ps IH]; intros p Hp; [done|].
  cbn [fold_left]. apply IH. destruct p; [done | reflexivity].
Qed.

Lemma queryPair_truthy (kv : string * JsValue) : str_truthy (queryPair kv) = true.
Proof. unfold queryPair. by apply str_truthy_append_r. Qed.

Lemma constructUrl_params (params : list (string * JsValue)) :
  omap (fun kv =>
          match snd kv with
          | None | Some JNull => None
          | Some value => Some (formEncode (fst kv) +:+ "=" +:+ formEncode (toString value))
          end) params
  = map queryPair (filter (fun kv => usable (snd kv) = true) params).
Proof.
  induction params as [|[k [v|]] params IH]; [done| |].
  - destruct v; cbn [omap list_omap snd fst];
      rewrite ?filter_cons_True, ?filter_cons_False by (cbn; congruence);
      cbn [map]; rewrite <- ?IH; reflexivity.
  - cbn [omap list_omap snd]. by rewrite filter_cons_False by (cbn; congruence).
Qed.

(** X1.  When [queryParams] is missing, empty, or holds only [null] and
    [undefined] values, [constructUrl] returns the URL as it is: no [?]
    is appended. *)
Theorem constructUrl_without_parameters
    (url : string) (queryParams : option (list (string * JsValue))) :
  Forall (fun kv => usable (snd kv) = false) (default [] queryParams) ->
  constructUrl url queryParams = url.
Proof.
  intros Hall. unfold constructUrl. rewrite constructUrl_params.
  replace (filter _ (default [] queryParams)) with (@nil (string * JsValue)); [done|].
  symmetry. induction Hall as [|kv l Hkv Hl IH]; [done|].
  by rewrite filter_cons_False by congruence.
Qed.

(** X2.  When at least one parameter has a value other than [null] and
    [undefined], [constructUrl] appends to the URL a [?], or a [&] when
    the URL already contains a [?], and then the kept parameters in their
    order, joined by [&]; the values [0], [false] and the empty string are
    kept. *)
Theorem constructUrl_with_parameters
    (url : string) (queryParams : option (list (string * JsValue))) :
  let kept := filter (fun kv => usable (snd kv) = true) (default [] queryParams) in
  kept <> [] ->
  constructUrl url queryParams =
    url +:+ (if includes "?"%char url then "&" else "?") +:+
    join "&" (map queryPair kept).
Proof.
  cbv zeta. intros Hkept. unfold constructUrl. rewrite constructUrl_params.
  destruct (filter _ (default [] queryParams)) as [|kv kept]; [done|].
  cbn [map]. by rewrite join_cons_truthy by apply queryPair_truthy.
Qed.

(** ** The configuration store, composed *)

Lemma spread_assoc {A} (a b c : Slot A) : spread (spread a b) c = spread a (spread b c).
Proof. by destruct c, b. Qed.

Lemma shallowMerge_assoc (g a b : NetworkConfig) :
  shallowMerge (shallowMerge g a) b = shallowMerge g (shallowMerge a b).
Proof. unfold shallowMerge. cbn. by rewrite !spread_assoc. Qed.

(** X3.  Two updates in a row are one update with their shallow merge,
    the later one winning key by key; an update repeated changes nothing
    more; an update without keys changes nothing; and [getNetworkConfig]
    returns what the updates left. *)
Theorem setNetworkConfig_composes (U1 U2 : NetworkConfig) (w : World) :
  (setNetworkConfig U1 ;;; setNetworkConfig U2) w
    = setNetworkConfig (shallowMerge U1 U2) w /\
  (setNetworkConfig U1 ;;; setNetworkConfig U1) w = setNetworkConfig U1 w /\
  setNetworkConfig emptyUpdate w = (Fulfilled tt, w) /\
  (setNetworkConfig U1 ;;; getNetworkConfig) w
    = (Fulfilled (shallowMerge (globalConfig w) U1), snd (setNetworkConfig U1 w)).
Proof.
  assert (shallowMerge (shallowMerge (globalConfig w) U1) U1
          = shallowMerge (globalConfig w) U1) as Hidem.
  { rewrite shallowMerge_assoc. f_equal.
    by destruct U1 as [[] [] [] [] [] [] []]. }
  assert (shallowMerge (globalConfig w) emptyUpdate = globalConfig w) as Hempty.
  { by destruct (globalConfig w). }
  unfold setNetworkConfig, getNetworkConfig. run.
  split; [|split; [|split]].
  - cbn. by rewrite shallowMerge_assoc.
  - cbn. by rewrite Hidem.
  - rewrite Hempty. by destruct w.
  - reflexivity.
Qed.

(** ** [decryptData] *)

(** X4.  With encryption disabled in the global configuration, or no
    non-empty secret key there, [decryptData] returns its argument
    unchanged and does not raise, whatever the argument is. *)
Theorem decryptData_passthrough (g : NetworkConfig) (encryptedData : string) :
  encryptionEnabled g <> Some true \/ unset (encryptionSecretKey g) ->
  decryptData g encryptedData = Ret encryptedData.
Proof.
  unfold decryptData. intros [Hoff|[Hk|Hk]].
  - by destruct (encryptionEnabled g) as [[|]|].
  - by rewrite Hk, orb_true_r.
  - by rewrite Hk, orb_true_r.
Qed.

(** X5.  Under one and the same global configuration, whatever it is,
    [decryptData] undoes [encryptData]: with encryption off both pass the
    text through, with it on the cipher is applied and undone (given that
    the cipher undoes itself on the text under the configured key). *)
Theorem decrypt_encrypt_any_configuration (g : NetworkConfig) (P : Json) :
  (forall K, encryptionSecretKey g = Some K ->
             aesDecrypt (aesEncrypt (JSON_stringify P) K) K = Ret (JSON_stringify P)) ->
  decryptData g (encryptData g P) = Ret (JSON_stringify P).
Proof.
  intros Hlaw. unfold decryptData, encryptData.
  destruct (encryptionEnabled g) as [[|]|]; cbn [notBool orb]; try done.
  destruct (encryptionSecretKey g) as [K|] eqn:HK; cbn [notStr]; [|done].
  destruct (str_truthy K); cbn [negb]; [|done].
  by apply Hlaw.
Qed.

(** ** The request a call sends *)

(** What the request interceptor makes of a request [c] in the world
    [w]. *)
Lemma requestInterceptor_facts (self : WebLattice) (c c' : RequestConfig) (w w' : World) :
  requestInterceptor self c w = (Fulfilled c', w') ->
  let token := default EmptyString (accessToken w) in
  req_id c' = req_id c /\
  (* the marks for the response interceptor *)
  req__startTime c' = Some (clock w) /\
  req__isGraphQL c' = Some (opt_bool_or (req_isGraphQL c) false) /\
  req_isGraphQL c' = req_isGraphQL c /\
  accessToken w' = accessToken w /\
  (* the common headers *)
  req_headers c' !! "x-client-version" = Some "1.0.0" /\
  req_headers c' !! "x-app-platform" = Some "web" /\
  (exists n, req_headers c' !! "x-correlation-id"
             = Some (pretty (clock w) +:+ "-" +:+ randomSuffix n)) /\
  (* the session token *)
  req_headers c' !! "authorization"
    = (if str_truthy token then Some ("Bearer " +:+ token)
       else req_headers c !! "authorization") /\
  (* the encryption headers and the stored keys *)
  (if isProd (this_config self) then
     req_headers c' !! "x-encryption" = Some "true" /\
     req_headers c' !! "x-public-key-id"
       = Some (snd (getPublicKeyDetails (globalConfig w))) /\
     exists aesKey iv,
       requestKeys w' !! req_id c = Some (aesKey, iv) /\
       req_headers c' !! "x-encryption-key" = Some aesKey /\
       req_headers c' !! "x-encryption-iv" = Some iv
   else
     requestKeys w' = requestKeys w /\
     forall h, h ∈ encryptionHeaders -> req_headers c' !! h = req_headers c !! h) /\
  (* every other header *)
  (forall h, h ∉ encryptionHeaders -> h ∉ commonHeaders -> h <> "authorization" ->
             req_headers c' !! h = req_headers c !! h).
Proof.
  unfold requestInterceptor, handleProductionSecurity, generateEncryptionKeys,
    addCommonHeaders, updateHeadersWithEncryption, encryptionHeaders, commonHeaders.
  run.
  assert (str_truthy (snd (getPublicKeyDetails (globalConfig w))) = true) as Hid.
  { unfold getPublicKeyDetails. by destruct (opt_bool_or _ false). }
  destruct (isProd (this_config self)); run; cbn [fst snd default];
    intros Heq; injection Heq as <- <-;
    destruct (str_truthy (default EmptyString (accessToken w))) eqn:Htoken;
    repeat match goal with
      | |- context [match req_data ?r with _ => _ end] =>
          destruct (req_data r) as [d|]
      | |- context [if truthy ?d && ?b then _ else _] => destruct (truthy d && b)
      end;
    cbn -[typeof truthy encryptData getPublicKeyDetails setHeader];
    rewrite ?Hid; lower.
  all: repeat match goal with
       | |- _ /\ _ => split
       | |- forall _, _ => intro
       | |- exists n : nat, _ => eexists
       | |- exists k : string, _ => eexists
       | Hin : _ ∈ _ |- _ => set_unfold; destruct_or!; subst
       | Hout : _ ∉ _ |- _ => set_unfold
       end.
  all: repeat (rewrite lookup_insert_ne by naive_solver).
  all: by rewrite ?lookup_insert_eq.
Qed.

(** ** A call, step by step *)

Lemma invoke_as_request (self : WebLattice) (call : Call) (w : World) :
  reachesClient (globalConfig w) call = true ->
  invoke self call w =
    enveloped (callPayload call)
      (client_request self (callMethod call) (callUrl (globalConfig w) call)
         (callBody call) (callAxiosConfig call)) w.
Proof.
  unfold reachesClient.
  destruct call as [url config|url body config|url body config|url body config
                   |url config|query variables config]; try reflexivity.
  cbn [isRest orb callConfig]. intros Hendpoint.
  unfold invoke, WebLattice_graphql, enveloped, callUrl, graphqlEndpoint in *.
  run. by rewrite Hendpoint.
Qed.

Lemma invoke_stops (self : WebLattice) (call : Call) (w : World) :
  reachesClient (globalConfig w) call = false ->
  invoke self call w =
    (Fulfilled (failureEnvelope (mkError "GraphQL endpoint is not configured")), w).
Proof.
  unfold reachesClient.
  destruct call as [url config|url body config|url body config|url body config
                   |url config|query variables config]; try done.
  cbn [isRest orb callConfig]. intros Hendpoint.
  unfold invoke, WebLattice_graphql, graphqlEndpoint in *.
  run. by rewrite Hendpoint.
Qed.

(** The response handlers touch neither the stored keys, the session
    token nor the clock. *)
Lemma intercepted_keeps self c reply w :
  let w' := snd (intercepted self c reply w) in
  requestKeys w' = requestKeys w /\ accessToken w' = accessToken w /\
  clock w' = clock w /\ nextObject w' = nextObject w.
Proof.
  rewrite intercepted_run.
  assert (forall g d w0, requestKeys (recorded g d w0) = requestKeys w0 /\
                         accessToken (recorded g d w0) = accessToken w0 /\
                         clock (recorded g d w0) = clock w0 /\
                         nextObject (recorded g d w0) = nextObject w0) as Hrec.
  { intros g d w0. unfold recorded. by destruct (_ && _). }
  assert (forall paths w0, requestKeys (redirected paths w0) = requestKeys w0 /\
                           accessToken (redirected paths w0) = accessToken w0 /\
                           clock (redirected paths w0) = clock w0 /\
                           nextObject (redirected paths w0) = nextObject w0) as Hred.
  { intros paths w0. by destruct paths. }
  assert (forall error treated,
            let w' := snd (rejectedOutcome self error w treated) in
            requestKeys w' = requestKeys w /\ accessToken w' = accessToken w /\
            clock w' = clock w /\ nextObject w' = nextObject w) as Hrej.
  { intros error treated.
    destruct treated; cbn [snd rejectedOutcome]; try done.
    all: repeat match goal with
         | |- context [redirected ?p ?w0] =>
             destruct (Hred p w0) as (-> & -> & -> & ->)
         | |- context [recorded ?g ?d ?w0] =>
             destruct (Hrec g d w0) as (-> & -> & -> & ->)
         end; done. }
  destruct reply as [status body hdrs|message]; cbv zeta; [|apply Hrej].
  destruct (validateStatus status); [|apply Hrej].
  destruct (decoding _ _ _ body); cbn [snd fulfilledOutcome]; try done.
  all: match goal with
       | |- context [recorded ?g ?d ?w0] =>
           by destruct (Hrec g d w0) as (-> & -> & -> & ->)
       end.
Qed.

(** A call that reaches the client: the request object goes through the
    request interceptor, which hands on [c']; the transformed request [c]
    goes to the adapter, once; the reply goes through the response
    interceptor and into the envelope. *)
Lemma invoke_reaching (self : WebLattice) (call : Call) (w : World) :
  reachesClient (globalConfig w) call = true ->
  exists (c' : RequestConfig) (w' : World),
    requestInterceptor self
      (callRequest self (globalConfig w) call (nextObject w))
      (set_nextObject (S (nextObject w)) w) = (Fulfilled c', w') /\
    sameEffects w w' /\
    let c := with_data (transformRequest self (req_data c')) c' in
    let w1 := set_clock (clock w' + latency c) (set_sent (sent w' ++ [c]) w') in
    sent (snd (invoke self call w)) = sent w ++ [c] /\
    invoke self call w =
      (Fulfilled (envelopeOf (callPayload call) (fst (intercepted self c (adapter c) w1))),
       snd (intercepted self c (adapter c) w1)).
Proof.
  intros Hreach. rewrite (invoke_as_request _ _ _ Hreach).
  destruct (requestInterceptor_run self
              (callRequest self (globalConfig w) call (nextObject w))
              (set_nextObject (S (nextObject w)) w))
    as (c' & w' & Hrun & _ & Hsame & _).
  exists c', w'. split; [exact Hrun|]. split; [exact Hsame|]. cbv zeta.
  set (c := with_data (transformRequest self (req_data c')) c').
  set (w1 := set_clock (clock w' + latency c) (set_sent (sent w' ++ [c]) w')).
  assert (client_request self (callMethod call) (callUrl (globalConfig w) call)
            (callBody call) (callAxiosConfig call) w
          = intercepted self c (adapter c) w1) as Hrequest.
  { unfold client_request, newRequest. run.
    unfold callRequest in Hrun. rewrite Hrun. run.
    rewrite dispatchRequest_run. cbv zeta. fold c. fold w1.
    unfold intercepted.
    destruct (adapter c) as [status data hdrs|message]; [|reflexivity].
    destruct (validateStatus status); reflexivity. }
  assert (enveloped (callPayload call)
            (client_request self (callMethod call) (callUrl (globalConfig w) call)
               (callBody call) (callAxiosConfig call)) w
          = (Fulfilled (envelopeOf (callPayload call)
                          (fst (intercepted self c (adapter c) w1))),
             snd (intercepted self c (adapter c) w1))) as Heq.
  { unfold enveloped, envelopeOf. run. rewrite Hrequest.
    destruct (intercepted self c (adapter c) w1) as [[response|error] w2];
      cbn [fst snd]; [|reflexivity].
    by destruct (callPayload call response). }
  split; [|exact Heq].
  rewrite Heq. cbn [snd].
  destruct (intercepted_frame self c (adapter c) w1) as [_ ->].
  destruct Hsame as (_ & _ & _ & _ & Hsent). subst w1. cbn. by rewrite Hsent.
Qed.

(** The same, read from the request [c] that was sent. *)
Lemma invoke_sends (self : WebLattice) (call : Call) (w : World) (c : RequestConfig) :
  sent (snd (invoke self call w)) = sent w ++ [c] ->
  reachesClient (globalConfig w) call = true /\
  exists (c' : RequestConfig) (w' : World),
    requestInterceptor self
      (callRequest self (globalConfig w) call (nextObject w))
      (set_nextObject (S (nextObject w)) w) = (Fulfilled c', w') /\
    sameEffects w w' /\
    c = with_data (transformRequest self (req_data c')) c' /\
    let w1 := set_clock (clock w' + latency c) (set_sent (sent w' ++ [c]) w') in
    invoke self call w =
      (Fulfilled (envelopeOf (callPayload call) (fst (intercepted self c (adapter c) w1))),
       snd (intercepted self c (adapter c) w1)).
Proof.
  intros Hsent.
  destruct (reachesClient (globalConfig w) call) eqn:Hreach.
  - split; [done|].
    destruct (invoke_reaching self call w Hreach)
      as (c' & w' & Hrun & Hsame & Hsent' & Heq).
    cbv zeta in Hsent', Heq. rewrite Hsent in Hsent'.
    apply app_inv_head in Hsent'. injection Hsent' as Hc.
    exists c', w'. rewrite <- Hc in Heq.
    split; [exact Hrun|]. split; [exact Hsame|]. split; [exact Hc|]. exact Heq.
  - rewrite (invoke_stops _ _ _ Hreach) in Hsent. cbn in Hsent.
    apply (f_equal length) in Hsent. rewrite length_app in Hsent. cbn in Hsent. lia.
Qed.

Lemma callAxiosConfig_headers (call : Call) :
  arc_headers (callAxiosConfig call) = arc_headers (callConfig call).
Proof. by destruct call. Qed.

Lemma publicKey_id_of (g : NetworkConfig) :
  snd (getPublicKeyDetails g)
  = if opt_bool_or (read (encryption g) ≫= enc_useRemoteKeys) false
    then "remote-key-id" else "local-key-id".
Proof. unfold getPublicKeyDetails. by destruct (opt_bool_or _ false). Qed.

(** ** The request on the wire *)

Lemma setHeaders_lastNamed (name : string) (entries : Properties) (h : AxiosHeaders) :
  getHeader name (setHeaders entries h)
  = match lastNamed name entries with
    | Some v => Some v
    | None => getHeader name h
    end.
Proof.
  unfold setHeaders, getHeader. revert h.
  induction entries as [|[k v] rest IH]; intros h; [done|].
  cbn [fold_left lastNamed fst snd]. rewrite IH.
  destruct (lastNamed name rest); [done|].
  unfold setHeader.
  destruct (String.eqb_spec (toLowerCase k) (toLowerCase name)) as [->|Hne].
  - by rewrite lookup_insert_eq.
  - by rewrite lookup_insert_ne.
Qed.

Lemma lastNamed_app (name : string) (a b : Properties) :
  lastNamed name (a ++ b)
  = match lastNamed name b with Some v => Some v | None => lastNamed name a end.
Proof.
  induction a as [|[k v] a IH]; cbn [app lastNamed].
  - by destruct (lastNamed name b).
  - rewrite IH. by destruct (lastNamed name b).
Qed.

(** The headers of the request object of a call: the entries of the
    instance, then those of the call, the later entry of a name winning. *)
Lemma merged_header (self : WebLattice) (call : Call) (g : NetworkConfig) (id : nat)
    (name : string) :
  getHeader name (req_headers (callRequest self g call id))
  = lastNamed name (client_headers self ++ default [] (arc_headers (callConfig call))).
Proof.
  unfold callRequest. cbn [req_headers].
  rewrite callAxiosConfig_headers, !setHeaders_lastNamed, lastNamed_app.
  destruct (lastNamed name (default [] _)); [done|].
  by destruct (lastNamed name (client_headers self)).
Qed.

(** X6.  Every request a verb hands to the transport carries the headers
    [x-client-version: 1.0.0] and [x-app-platform: web] and a correlation
    id that starts with the time of the call.  Its [Authorization] header
    is [Bearer <token>] when the session holds a non-empty access token,
    whatever the caller passed and however the caller spelled the name;
    without a token it is the header the call gave, else the one the
    instance gave, if any, the case of the name apart. *)
Theorem sent_request_headers
    (self : WebLattice) (call : Call) (w : World) (c : RequestConfig) :
  sent (snd (invoke self call w)) = sent w ++ [c] ->
  let token := default EmptyString (accessToken w) in
  let given := client_headers self ++ default [] (arc_headers (callConfig call)) in
  getHeader "x-client-version" (req_headers c) = Some "1.0.0" /\
  getHeader "x-app-platform" (req_headers c) = Some "web" /\
  (exists n, getHeader "x-correlation-id" (req_headers c)
             = Some (pretty (clock w) +:+ "-" +:+ randomSuffix n)) /\
  getHeader "Authorization" (req_headers c)
    = (if str_truthy token then Some ("Bearer " +:+ token)
       else lastNamed "Authorization" given).
Proof.
  intros Hsent.
  destruct (invoke_sends self call w c Hsent)
    as (_ & c' & w' & Hrun & _ & -> & _).
  destruct (requestInterceptor_facts self _ c' _ w' Hrun)
    as (_ & _ & _ & _ & _ & Hversion & Hplatform & Hid & Hauth & _).
  pose proof (merged_header self call (globalConfig w) (nextObject w) "Authorization")
    as Hgiven.
  cbv zeta. cbn [req_headers with_data] in *. lower.
  by rewrite <- Hgiven.
Qed.

(** X7.  In production mode the request carries [x-encryption: true], the
    id of the key in use ([remote-key-id] when the global configuration
    asks for remote keys, [local-key-id] otherwise) and the AES key and
    IV generated for it, whatever the caller passed under these names in
    any spelling, and these are the pair stored for the request when the
    call returns.  Outside production mode no key is stored and each of
    the four encryption headers is the one the call gave, else the one
    the instance gave, if any, the case of the name apart. *)
Theorem sent_request_encryption_headers
    (self : WebLattice) (call : Call) (w : World) (c : RequestConfig) :
  sent (snd (invoke self call w)) = sent w ++ [c] ->
  let w' := snd (invoke self call w) in
  let given := client_headers self ++ default [] (arc_headers (callConfig call)) in
  if isProd (this_config self) then
    getHeader "x-encryption" (req_headers c) = Some "true" /\
    getHeader "x-public-key-id" (req_headers c)
      = Some (if opt_bool_or (read (encryption (globalConfig w)) ≫= enc_useRemoteKeys)
                   false
              then "remote-key-id" else "local-key-id") /\
    exists aesKey iv,
      requestKeys w' !! req_id c = Some (aesKey, iv) /\
      getHeader "x-encryption-key" (req_headers c) = Some aesKey /\
      getHeader "x-encryption-iv" (req_headers c) = Some iv
  else
    requestKeys w' = requestKeys w /\
    forall name, name ∈ encryptionHeaders ->
                 getHeader name (req_headers c) = lastNamed name given.
Proof.
  intros Hsent.
  destruct (invoke_sends self call w c Hsent)
    as (_ & c' & w1 & Hrun & _ & Hc & Heq).
  cbv zeta in *. rewrite Heq. cbn [snd].
  destruct (intercepted_keeps self c (adapter c)
              (set_clock (clock w1 + latency c) (set_sent (sent w1 ++ [c]) w1)))
    as (-> & _).
  destruct (requestInterceptor_facts self _ c' _ w1 Hrun)
    as (Hid & _ & _ & _ & _ & _ & _ & _ & _ & Henc & _).
  rewrite <- publicKey_id_of.
  subst c. cbn [req_headers req_id with_data] in *.
  destruct (isProd (this_config self)).
  - replace (req_id c') with (req_id (callRequest self (globalConfig w) call (nextObject w))).
    lower. exact Henc.
  - destruct Henc as [Hkeys Hgiven]. split; [exact Hkeys|].
    intros name Hname.
    rewrite <- (merged_header self call (globalConfig w) (nextObject w) name).
    specialize (Hgiven name Hname).
    assert (toLowerCase name = name) as Hlower.
    { unfold encryptionHeaders in Hname. set_unfold. by destruct_or!; subst. }
    unfold getHeader. by rewrite Hlower.
Qed.

(** X8.  The request goes to the URL and with the method of the verb.
    Outside production mode its body is the body the caller gave,
    untouched.  In production mode an object or array body is encrypted
    under the global configuration and the ciphertext is sent as a JSON
    string; any other body ([null], a string, a number, a boolean) is
    sent as its JSON text without encryption, and a missing body stays
    missing. *)
Theorem sent_request_body
    (self : WebLattice) (call : Call) (w : World) (c : RequestConfig) :
  sent (snd (invoke self call w)) = sent w ++ [c] ->
  req_url c = Some (callUrl (globalConfig w) call) /\
  req_method c = Some (callMethod call) /\
  req_data c =
    if isProd (this_config self) then
      match callBody call with
      | Some d =>
          Some (JStr (JSON_stringify
                        (if truthy d && String.eqb (typeof (Some d)) "object"
                         then JStr (encryptData (globalConfig w) d)
                         else d)))
      | None => None
      end
    else callBody call.
Proof.
  intros Hsent.
  destruct (invoke_sends self call w c Hsent)
    as (_ & c' & w1 & Hrun & _ & -> & _).
  destruct (requestInterceptor_run self
              (callRequest self (globalConfig w) call (nextObject w))
              (set_nextObject (S (nextObject w)) w))
    as (c0 & w0 & Hrun0 & _ & _ & _ & _ & Hurl & Hmethod & Hdata).
  rewrite Hrun in Hrun0. injection Hrun0 as <- <-.
  cbn [req_url req_method req_data with_data].
  rewrite Hurl, Hmethod, Hdata.
  unfold transformRequest, securedData. cbn.
  destruct (isProd (this_config self)); [|done].
  destruct (callBody call) as [d|]; [|done].
  by destruct (truthy d && _).
Qed.

(** ** The reply, up to the envelope *)

Lemma callAxiosConfig_isGraphQL (call : Call) :
  opt_bool_or (arc_isGraphQL (callAxiosConfig call)) false
  = if isRest call then opt_bool_or (arc_isGraphQL (callConfig call)) false else true.
Proof. by destruct call. Qed.

(** The world [w1] in which the response interceptor meets the reply to
    the request [c] of a call started in [w]. *)
Lemma invoke_outcome (self : WebLattice) (call : Call) (w : World) (c : RequestConfig) :
  sent (snd (invoke self call w)) = sent w ++ [c] ->
  exists w1 : World,
    (globalConfig w1 = globalConfig w /\
     consoleLog w1 = consoleLog w /\
     consoleError w1 = consoleError w /\
     locationAssign w1 = locationAssign w /\
     accessToken w1 = accessToken w /\
     clock w1 = clock w + latency c /\
     sent w1 = sent w ++ [c]) /\
    (isProd (this_config self) = true -> is_Some (requestKeys w1 !! req_id c)) /\
    (req_url c = Some (callUrl (globalConfig w) call) /\
     req_method c = Some (callMethod call) /\
     req__startTime c = Some (clock w) /\
     req__isGraphQL c
       = Some (if isRest call
               then opt_bool_or (arc_isGraphQL (callConfig call)) false
               else true)) /\
    invoke self call w =
      (Fulfilled (envelopeOf (callPayload call) (fst (intercepted self c (adapter c) w1))),
       snd (intercepted self c (adapter c) w1)).
Proof.
  intros Hsent.
  destruct (invoke_sends self call w c Hsent)
    as (_ & c' & w' & Hrun & _ & Hc & Heq).
  destruct (requestInterceptor_run self
              (callRequest self (globalConfig w) call (nextObject w))
              (set_nextObject (S (nextObject w)) w))
    as (c0 & w0 & Hrun0 & Hid & (Hg & Hl & He & Hr & Hs) & Hclock & Hkeys
        & Hurl & Hmethod & _).
  rewrite Hrun in Hrun0. injection Hrun0 as <- <-.
  destruct (requestInterceptor_facts self _ c' _ w' Hrun)
    as (_ & Hstart & Hmark & _ & Htoken & _).
  cbv zeta in Heq.
  exists (set_clock (clock w' + latency c) (set_sent (sent w' ++ [c]) w')).
  split; [by cbn; rewrite Hclock, Hs|].
  split; [intros Hprod; subst c; cbn; rewrite Hid; by apply Hkeys|].
  split; [|exact Heq].
  subst c. cbn [req_url req_method req__startTime req__isGraphQL with_data].
  rewrite Hurl, Hmethod, Hstart, Hmark, <- callAxiosConfig_isGraphQL. done.
Qed.

(** X9.  A REST verb answered with a 2xx reply whose body needs no
    decryption (outside production mode, or any body that is not a
    non-empty string) returns the success envelope of that reply: the body
    as data, the status and the headers of the reply, no error; nothing is
    redirected and nothing is written to the error console. *)
Theorem rest_success_envelope
    (self : WebLattice) (call : Call) (w : World)
    (status : Z) (body : Json) (hdrs : gmap string string) :
  isRest call = true ->
  answered self call w (Replied status body hdrs) ->
  validateStatus status = true ->
  isProd (this_config self) = false \/ (forall s, body = JStr s -> s = EmptyString) ->
  let w' := snd (invoke self call w) in
  fst (invoke self call w)
    = Fulfilled {| success := true; data := Some body; error := None;
                   resp_hdrs := Some hdrs; statusCode := Some status;
                   errorCode := None |} /\
  locationAssign w' = locationAssign w /\
  consoleError w' = consoleError w.
Proof.
  intros Hrest (c & Hsent & Hreply) Hok Hplain.
  destruct (invoke_outcome self call w c Hsent)
    as (w1 & (_ & _ & He & Hr & _) & _ & _ & ->).
  cbv zeta. cbn [fst snd].
  rewrite intercepted_run, Hreply. cbv zeta.
  rewrite Hok, (decoding_elsewhere _ _ _ _ Hplain).
  world. rewrite He, Hr.
  by destruct call.
Qed.

(** X10.  In production mode a REST verb answered with a 2xx reply whose
    body is a non-empty string returns, as the data of its success
    envelope, the JSON value parsed from the decryption of that string
    under the global configuration. *)
Theorem sealed_reply_is_opened
    (self : WebLattice) (call : Call) (w : World)
    (status : Z) (s d : string) (v : Json) (hdrs : gmap string string) :
  isRest call = true ->
  isProd (this_config self) = true ->
  answered self call w (Replied status (JStr s) hdrs) ->
  validateStatus status = true ->
  s <> EmptyString ->
  decryptData (globalConfig w) s = Ret d ->
  JSON_parse d = Ret v ->
  fst (invoke self call w)
    = Fulfilled {| success := true; data := Some v; error := None;
                   resp_hdrs := Some hdrs; statusCode := Some status;
                   errorCode := None |}.
Proof.
  intros Hrest Hprod (c & Hsent & Hreply) Hok Hs Hdecrypt Hparse.
  destruct (invoke_outcome self call w c Hsent)
    as (w1 & (Hg & _) & Hkeys & _ & ->).
  cbn [fst].
  rewrite intercepted_run, Hreply. cbv zeta.
  rewrite Hok, (decoding_string self _ _ s Hprod (Hkeys Hprod) Hs), Hg, Hdecrypt, Hparse.
  world. by destruct call.
Qed.

(** X11.  [graphql] answered with a 2xx reply whose body needs no
    decryption returns the [data] member of an object body as the data of
    its success envelope, and no data for a body that is no object.  On
    a [null] body it returns a failure envelope with status 500 and code
    [ERR_UNKNOWN], although the reply was a success and is recorded as one
    in the metrics. *)
Theorem graphql_data_member
    (self : WebLattice) (query : string) (variables : JsValue)
    (config : ApiRequestConfig) (w : World)
    (status : Z) (body : Json) (hdrs : gmap string string) :
  let call := Graphql query variables config in
  answered self call w (Replied status body hdrs) ->
  validateStatus status = true ->
  isProd (this_config self) = false \/ (forall s, body = JStr s -> s = EmptyString) ->
  (exists env, fst (invoke self call w) = Fulfilled env /\
     match body with
     | JNull => success env = false /\ unknownStatus env
     | JObj members =>
         env = {| success := true; data := member "data" members; error := None;
                  resp_hdrs := Some hdrs; statusCode := Some status;
                  errorCode := None |}
     | _ =>
         env = {| success := true; data := None; error := None;
                  resp_hdrs := Some hdrs; statusCode := Some status;
                  errorCode := None |}
     end) /\
  (metricsEnabled (globalConfig w) && logsToConsole (globalConfig w) = true ->
   exists record,
     consoleLog (snd (invoke self call w)) = consoleLog w ++ [record] /\
     md_success (metric_data record) = true /\
     md_graphql (metric_data record) = true).
Proof.
  intros call (c & Hsent & Hreply) Hok Hplain.
  destruct (invoke_outcome self call w c Hsent)
    as (w1 & (Hg & Hl & _) & _ & (_ & _ & _ & Hmark) & ->).
  cbn [fst snd].
  rewrite intercepted_run, Hreply. cbv zeta.
  rewrite Hok, (decoding_elsewhere _ _ _ _ Hplain).
  split.
  - eexists. split; [reflexivity|]. cbn.
    by destruct body.
  - intros Hon. world. rewrite Hg, Hon, Hl.
    eexists. split; [reflexivity|]. cbn. by rewrite Hmark.
Qed.

(** ** What a call does, and how often *)

Lemma redirectFor_length (status : option Z) : (length (redirectFor status) <= 1)%nat.
Proof.
  destruct status as [st|]; cbn; [|lia].
  destruct (decide (st = 401)); [cbn; lia|].
  destruct (decide (500 <= st < 600)); cbn; lia.
Qed.

Lemma intercepted_at_most_once self c reply w :
  let w' := snd (intercepted self c reply w) in
  (exists paths, locationAssign w' = locationAssign w ++ paths /\
                 (length paths <= 1)%nat) /\
  (exists records, consoleLog w' = consoleLog w ++ records /\
                   (length records <= 1)%nat) /\
  (exists labels, consoleError w' = consoleError w ++ labels /\
                  (length labels <= 1)%nat).
Proof.
  cbv zeta. rewrite intercepted_run.
  assert (forall (b : bool) (record : MetricRecord),
            (length (if b then [record] else []) <= 1)%nat) as Hrecord.
  { intros [|] record; cbn; lia. }
  pose proof redirectFor_length as Hpaths.
  destruct reply as [status body hdrs|message]; cbv zeta;
    [destruct (validateStatus status); destruct (decoding self _ _ body)|];
    world.
  all: repeat split.
  all: eexists; (split; [first [reflexivity | symmetry; apply app_nil_r]|]).
  all: first [apply Hrecord | apply Hpaths | cbn; lia].
Qed.

(** X12.  A call through a verb leaves the global configuration and the
    session token as they were.  It hands at most one request to the
    transport, redirects the browser at most once, writes at most one
    metric record and at most one line to the error console. *)
Theorem call_frame (self : WebLattice) (call : Call) (w : World) :
  let w' := snd (invoke self call w) in
  globalConfig w' = globalConfig w /\
  accessToken w' = accessToken w /\
  (sent w' = sent w \/ exists c, sent w' = sent w ++ [c]) /\
  (exists paths, locationAssign w' = locationAssign w ++ paths /\
                 (length paths <= 1)%nat) /\
  (exists records, consoleLog w' = consoleLog w ++ records /\
                   (length records <= 1)%nat) /\
  (exists labels, consoleError w' = consoleError w ++ labels /\
                  (length labels <= 1)%nat).
Proof.
  cbv zeta.
  destruct (reachesClient (globalConfig w) call) eqn:Hreach.
  - destruct (invoke_reaching self call w Hreach)
      as (c' & w0 & _ & _ & Hsent & _).
    cbv zeta in Hsent.
    set (c := with_data (transformRequest self (req_data c')) c') in *.
    destruct (invoke_outcome self call w c Hsent)
      as (w1 & (Hg & Hl & He & Hr & Ht & _) & _ & _ & Heq).
    rewrite Heq in *. cbn [snd] in *.
    destruct (intercepted_frame self c (adapter c) w1) as [-> _].
    destruct (intercepted_keeps self c (adapter c) w1) as (_ & -> & _).
    destruct (intercepted_at_most_once self c (adapter c) w1) as (Hp & Hm & Hc).
    rewrite Hr in Hp. rewrite Hl in Hm. rewrite He in Hc.
    repeat split; try done. right. by eexists.
  - rewrite (invoke_stops _ _ _ Hreach). cbn [snd].
    repeat split; try by left.
    all: exists []; split; [by rewrite app_nil_r | cbn; lia].
Qed.

Lemma metadata_of_request (c : RequestConfig) (url : string) (method : Method) :
  req_url c = Some url -> req_method c = Some method ->
  getRequestMetadata (Some c) = (url, toUpperCase method).
Proof.
  intros Hurl Hmethod. unfold getRequestMetadata. cbn. rewrite Hurl, Hmethod. cbn.
  f_equal; [by destruct url | by destruct method].
Qed.

(** X13.  With metrics enabled and logged to the console, the record of a
    call whose reply is decoded carries the URL and the upper-case method
    of the request, the status of the reply (none for a transport
    failure), success exactly for a 2xx reply, whether the client is in
    production mode, and whether the call was a GraphQL one.  Its end time
    is the time the reply arrived and its start time the time the call
    began, except that a start time of 0 counts as missing and is replaced
    by the end time, which makes the duration 0. *)
Theorem metric_record_of_a_call
    (self : WebLattice) (call : Call) (w : World) (reply : Reply) :
  metricsEnabled (globalConfig w) = true ->
  logsToConsole (globalConfig w) = true ->
  answered self call w reply ->
  decodes self (globalConfig w) reply ->
  exists (c : RequestConfig) (record : MetricRecord),
    sent (snd (invoke self call w)) = sent w ++ [c] /\
    consoleLog (snd (invoke self call w)) = consoleLog w ++ [record] /\
    let m := metric_data record in
    let arrival := clock w + latency c in
    md_url m = callUrl (globalConfig w) call /\
    md_method m = toUpperCase (callMethod call) /\
    md_startTime m = (if clock w =? 0 then arrival else clock w) /\
    md_endTime m = arrival /\
    md_duration m = (if clock w =? 0 then 0 else latency c) /\
    md_status m = match reply with
                  | Replied status _ _ => Some status
                  | NetworkFailure _ => None
                  end /\
    md_success m = match reply with
                   | Replied status _ _ => validateStatus status
                   | NetworkFailure _ => false
                   end /\
    md_encrypted m = isProd (this_config self) /\
    md_graphql m = (if isRest call
                    then opt_bool_or (arc_isGraphQL (callConfig call)) false
                    else true) /\
    metric_timestamp record = arrival.
Proof.
  intros Hm Hlog (c & Hsent & Hreply) Hdecodes.
  destruct (invoke_outcome self call w c Hsent)
    as (w1 & (Hg & Hl & _ & _ & _ & Hclock & Hs) & _
        & (Hurl & Hmethod & Hstart & Hmark) & Heq).
  exists c. rewrite Heq. cbn [snd].
  pose proof (metadata_of_request c _ _ Hurl Hmethod) as Hmeta.
  assert (forall a : Z, (if clock w =? 0 then a else clock w) = num_or (Some (clock w)) a)
    as Hnum by done.
  assert ((if clock w =? 0 then 0 else latency c)
          = clock w + latency c - num_or (Some (clock w)) (clock w + latency c))
    as Hduration.
  { cbn. destruct (clock w =? 0); lia. }
  assert (forall b : bool, opt_bool_or (Some b) false = b) as Hbool by (by intros [|]).
  rewrite intercepted_run, Hreply. rewrite Hg.
  destruct reply as [status body hdrs|message]; cbv zeta.
  - destruct (decodes_decoding self (globalConfig w) status body hdrs
                (requestKeys w1 !! req_id c) Hdecodes) as [Hdecrypt Hparse].
    destruct (validateStatus status) eqn:Hok;
      destruct (decoding self _ _ body) eqn:Htreated;
      try (by destruct (Hdecrypt message));
      try (by destruct (Hparse eq_refl message));
      world; rewrite Hg, Hm, Hlog, Hl; cbn [andb];
      (eexists; split; [exact Hs|]; split; [reflexivity|]);
      unfold successMetric, failureMetric;
      cbn -[getRequestMetadata num_or Z.add Z.sub Z.eqb];
      rewrite ?Hmeta, ?Hstart, ?Hmark, ?Hclock, Hduration, Hnum, Hbool; done.
  - world. rewrite Hg, Hm, Hlog, Hl. cbn [andb].
    eexists; split; [exact Hs|]; split; [reflexivity|].
    unfold failureMetric.
    cbn -[getRequestMetadata num_or Z.add Z.sub Z.eqb].
    rewrite ?Hmeta, ?Hstart, ?Hmark, ?Hclock, Hduration, Hnum, Hbool. done.
Qed.

(** X14.  A client in production mode marks every request with
    [x-encryption: true], also when encryption is switched off in the
    global configuration or no key is set there (by a later
    [setNetworkConfig] or a later client): the body then leaves as the
    JSON text of the plain JSON text of an object body, unencrypted. *)
Theorem plaintext_under_encryption_header
    (self : WebLattice) (call : Call) (w : World) (c : RequestConfig) (d : Json) :
  isProd (this_config self) = true ->
  encryptionEnabled (globalConfig w) <> Some true \/
    unset (encryptionSecretKey (globalConfig w)) ->
  sent (snd (invoke self call w)) = sent w ++ [c] ->
  callBody call = Some d ->
  req_headers c !! "x-encryption" = Some "true" /\
  req_data c =
    Some (JStr (JSON_stringify
                  (if truthy d && String.eqb (typeof (Some d)) "object"
                   then JStr (JSON_stringify d) else d))).
Proof.
  intros Hprod Hoff Hsent Hbody.
  destruct (invoke_sends self call w c Hsent)
    as (_ & c' & w1 & Hrun & _ & -> & _).
  destruct (requestInterceptor_facts self _ c' _ w1 Hrun)
    as (_ & _ & _ & _ & _ & _ & _ & _ & _ & Henc & _).
  destruct (requestInterceptor_run self
              (callRequest self (globalConfig w) call (nextObject w))
              (set_nextObject (S (nextObject w)) w))
    as (c0 & w0 & Hrun0 & _ & _ & _ & _ & _ & _ & Hdata).
  rewrite Hrun in Hrun0. injection Hrun0 as <- <-.
  rewrite Hprod in Henc. destruct Henc as (Hheader & _).
  split; [exact Hheader|].
  cbn [req_data with_data]. rewrite Hdata.
  unfold transformRequest, securedData. rewrite Hprod.
  unfold callRequest. cbn [req_data globalConfig set_nextObject]. rewrite Hbody.
  assert (encryptData (globalConfig w) d = JSON_stringify d) as ->.
  { destruct Hoff; [by apply encryptData_disabled | by apply encryptData_unkeyed]. }
  by destruct (truthy d && _).
Qed.

(** ** [initWebLattice] *)

Lemma sent_data (self : WebLattice) (call : Call) (w : World) (c : RequestConfig) :
  sent (snd (invoke self call w)) = sent w ++ [c] ->
  req_data c = transformRequest self (securedData self (globalConfig w) (callBody call)).
Proof.
  intros Hsent.
  destruct (invoke_sends self call w c Hsent)
    as (_ & c' & w1 & Hrun & _ & -> & _).
  destruct (requestInterceptor_run self
              (callRequest self (globalConfig w) call (nextObject w))
              (set_nextObject (S (nextObject w)) w))
    as (c0 & w0 & Hrun0 & _ & _ & _ & _ & _ & _ & Hdata).
  rewrite Hrun in Hrun0. injection Hrun0 as <- <-.
  cbn [req_data with_data]. by rewrite Hdata.
Qed.

Lemma property_setProperty (key value : string) (object : Properties) :
  property key (setProperty key value object) = Some value.
Proof.
  unfold property.
  induction object as [|[k v] rest IH]; cbn.
  - by rewrite String.eqb_refl.
  - destruct (String.eqb k key) eqn:Hk; cbn; by rewrite Hk.
Qed.

Lemma property_setProperty_ne (key other value : string) (object : Properties) :
  other <> key ->
  property other (setProperty key value object) = property other object.
Proof.
  intros Hne. unfold property.
  induction object as [|[k v] rest IH]; cbn.
  - by destruct (String.eqb_spec key other) as [->|].
  - destruct (String.eqb_spec k key) as [->|Hk]; cbn.
    + by destruct (String.eqb_spec key other) as [->|].
    + destruct (String.eqb k other); [done | exact IH].
Qed.

(** X15.  [initWebLattice] always returns a client.  The client is in
    production mode exactly when [env] is [PROD] and a non-empty
    [encryptionKey] was given.  The global configuration then has
    encryption enabled exactly when the key is non-empty, metrics enabled
    unless [enableMetrics] is [false], and metrics always logged to the
    console; its [graphql] section is the one it had before.  The
    instance defaults are the base URL, the timeout (10000 when missing
    or 0) and the given headers with [Content-Type: application/json]
    on top. *)
Theorem initWebLattice_client (o : InitOptions) (w : World) :
  exists (self : WebLattice) (w' : World),
    initWebLattice o w = (Fulfilled self, w') /\
    let g := globalConfig w' in
    let keyed := negb (notStr (io_encryptionKey o)) in
    isProd (this_config self)
      = match io_env o with Some PROD => keyed | _ => false end /\
    encryptionEnabled g = Some keyed /\
    encryptionSecretKey g = Some (opt_str_or (io_encryptionKey o) EmptyString) /\
    metricsEnabled g
      = match io_enableMetrics o with Some false => false | _ => true end /\
    logsToConsole g = true /\
    graphql g = graphql (globalConfig w) /\
    client_baseURL self = Some (io_baseUrl o) /\
    client_timeout self = num_or (io_timeout o) 10000 /\
    property "Content-Type" (client_headers self) = Some "application/json" /\
    (forall h, h <> "Content-Type" ->
               property h (client_headers self) = io_headers o ≫= property h).
Proof.
  eexists _, _. split; [reflexivity|]. cbv zeta.
  cbn -[notStr num_or opt_str_or setProperty property].
  repeat split.
  - destruct (io_env o) as [[| |]|]; try done.
    by destruct (negb _).
  - destruct (io_timeout o) as [n|]; [|done].
    unfold num_or. destruct (n =? 0) eqn:Hn; [done | by rewrite Hn].
  - apply property_setProperty.
  - intros h Hh. rewrite property_setProperty_ne by done.
    by destruct (io_headers o).
Qed.

(** X16.  [initWebLattice] has no option for a GraphQL endpoint: where
    the global configuration had none before (as on a fresh page), every
    [graphql] call through the client it returns fails at once with
    [GraphQL endpoint is not configured], unless the call brings its own
    [baseUrl]. *)
Theorem graphql_after_initWebLattice
    (o : InitOptions) (w : World)
    (query : string) (variables : JsValue) (config : ApiRequestConfig) :
  unset (read (graphql (globalConfig w)) ≫= gql_endpoint) ->
  unset (arc_baseUrl config) ->
  exists (self : WebLattice) (w' : World),
    initWebLattice o w = (Fulfilled self, w') /\
    invoke self (Graphql query variables config) w'
      = (Fulfilled {| success := false;
                      data := None;
                      error := Some "GraphQL endpoint is not configured";
                      resp_hdrs := None;
                      statusCode := Some 500;
                      errorCode := Some "ERR_UNKNOWN" |},
         w').
Proof.
  intros Hglobal Hcall.
  eexists _, _. split; [reflexivity|].
  cbn [invoke]. by rewrite graphql_fails_fast.
Qed.

(** X17.  Through a client made by [initWebLattice] with [env: PROD] and
    a non-empty key [K], an object or array body leaves as the JSON
    string of its AES encryption under [K], and the request says
    [x-encryption: true]. *)
Theorem initWebLattice_production_request
    (o : InitOptions) (K : string) (w w' : World) (self : WebLattice)
    (call : Call) (c : RequestConfig) (d : Json) :
  io_env o = Some PROD ->
  io_encryptionKey o = Some K ->
  K <> EmptyString ->
  initWebLattice o w = (Fulfilled self, w') ->
  sent (snd (invoke self call w')) = sent w' ++ [c] ->
  callBody call = Some d ->
  truthy d && String.eqb (typeof (Some d)) "object" = true ->
  req_headers c !! "x-encryption" = Some "true" /\
  req_data c = Some (JStr (JSON_stringify (JStr (aesEncrypt (JSON_stringify d) K)))).
Proof.
  intros Henv Hkey HK Hinit Hsent Hbody Hobject.
  assert (str_truthy K = true) as Htruthy by (by destruct K).
  assert (isProd (this_config self) = true) as Hprod.
  { injection Hinit as <- _. cbn -[notStr]. rewrite Henv, Hkey.
    unfold notStr. by rewrite Htruthy. }
  assert (encryptData (globalConfig w') d = aesEncrypt (JSON_stringify d) K) as Hcipher.
  { injection Hinit as _ <-. apply encryptData_enabled.
    - cbn -[notStr]. rewrite Hkey. unfold notStr. by rewrite Htruthy.
    - cbn -[notStr opt_str_or]. rewrite Hkey.
      unfold opt_str_or, str_or. by rewrite Htruthy.
    - exact HK. }
  split.
  - destruct (invoke_sends self call w' c Hsent)
      as (_ & c' & w1 & Hrun & _ & -> & _).
    destruct (requestInterceptor_facts self _ c' _ w1 Hrun)
      as (_ & _ & _ & _ & _ & _ & _ & _ & _ & Henc & _).
    rewrite Hprod in Henc. by destruct Henc as (Hheader & _).
  - rewrite (sent_data self call w' c Hsent).
    unfold transformRequest, securedData.
    by rewrite Hprod, Hbody, Hobject, Hcipher.
Qed.

(** ** The envelope of an error reply *)

(** X18.  The envelope of a call answered with a reply that is no 2xx
    carries axios's message [Request failed with status code <status>]
    and neither data nor headers: the body of the error reply, decrypted
    or not, does not reach the caller.  For a transport failure the
    message is the one of the transport, or [An unknown error occurred]
    when that is empty. *)
Theorem error_reply_envelope
    (self : WebLattice) (call : Call) (w : World) (reply : Reply) :
  answered self call w reply ->
  match reply with
  | Replied status _ _ =>
      validateStatus status = false ->
      fst (invoke self call w)
        = Fulfilled {| success := false;
                       data := None;
                       error := Some ("Request failed with status code " +:+ pretty status);
                       resp_hdrs := None;
                       statusCode := Some (if status =? 0 then 500 else status);
                       errorCode :=
                         Some ("ERR_" +:+
                               (if status =? 0 then "UNKNOWN" else pretty status)) |}
  | NetworkFailure message =>
      fst (invoke self call w)
        = Fulfilled {| success := false;
                       data := None;
                       error := Some (if str_truthy message then message
                                      else "An unknown error occurred");
                       resp_hdrs := None;
                       statusCode := Some 500;
                       errorCode := Some "ERR_UNKNOWN" |}
  end.
Proof.
  intros (c & Hsent & Hreply).
  destruct (invoke_outcome self call w c Hsent) as (w1 & _ & _ & _ & ->).
  cbn [fst]. rewrite intercepted_run, Hreply.
  destruct reply as [status body hdrs|message]; cbv zeta.
  - intros ->.
    by destruct (decoding self _ _ body).
  - reflexivity.
Qed.

End Laws.

(** * The claims on concrete calls *)

Section Runs.
Local Existing Instance Demo.runtime.

Example stringify_then_parse :
  let v := JObj [("a", JNum (-12)); ("b", JArr [JBool true; JNull; JStr "x"])] in
  JSON_stringify v
    = "{" +:+ dquote +:+ "a" +:+ dquote +:+ ":-12," +:+ dquote +:+ "b" +:+ dquote
      +:+ ":[true,null," +:+ dquote +:+ "x" +:+ dquote +:+ "]}" /\
  Demo.parse (JSON_stringify v) = Ret v /\
  Demo.parse "not json" = Raise "Unexpected token in JSON".
Proof. by vm_compute. Qed.

(** The pass-through law on the initial configuration, where encryption
    is disabled. *)
Lemma encryptData_passthrough_witness :
  encryptData initialGlobalConfig Demo.okBody = JSON_stringify Demo.okBody.
Proof.
  apply (encryptData_passthrough initialGlobalConfig Demo.okBody).
  left. vm_compute. discriminate.
Defined.

(** C1 as stated fails: in the environment [DEV], with encryption
    enabled and a key configured, [encryptData] returns the ciphertext. *)
Lemma encryptData_ignores_environment :
  read (environment Demo.devConfig) = Some DEV /\
  encryptData Demo.devConfig (JNum 1) = "Salted__s3cret:1" /\
  JSON_stringify (JNum 1) = "1" /\
  encryptData Demo.devConfig (JNum 1) <> JSON_stringify (JNum 1).
Proof. by vm_compute. Qed.

(** The round trip in production mode with the key of the demo. *)
Lemma decrypt_encrypt_roundtrip_witness :
  decryptData Demo.prodConfig (encryptData Demo.prodConfig Demo.okBody)
  = Ret (JSON_stringify Demo.okBody).
Proof.
  apply (decrypt_encrypt_roundtrip Demo.prodConfig Demo.okBody Demo.secret);
    by vm_compute.
Defined.

(** [graphql] on a client whose configuration names no endpoint. *)
Lemma graphql_without_endpoint_witness :
  WebLattice_graphql (Demo.boot Demo.devConfig).1 "{ me { id } }" None
    emptyRequestConfig (Demo.boot Demo.devConfig).2
  = (Fulfilled {| success := false;
                  data := None;
                  error := Some "GraphQL endpoint is not configured";
                  resp_hdrs := None;
                  statusCode := Some 500;
                  errorCode := Some "ERR_UNKNOWN" |},
     (Demo.boot Demo.devConfig).2).
Proof.
  apply (graphql_without_endpoint (Demo.boot Demo.devConfig).1 "{ me { id } }" None
           emptyRequestConfig (Demo.boot Demo.devConfig).2);
    left; by vm_compute.
Defined.

(** A production client, a 401 reply with the plain text
    [Unauthorized]: decryption raises and nothing is redirected. *)
Lemma redirect_skipped_witness :
  let self := (Demo.boot Demo.prodConfig).1 in
  let w := (Demo.boot Demo.prodConfig).2 in
  let call := Get "/denied" emptyRequestConfig in
  let w' := snd (invoke self call w) in
  (exists env, fst (invoke self call w) = Fulfilled env /\
               success env = false /\ statusCode env = Some 401) /\
  locationAssign w' = locationAssign w /\
  consoleLog w' = consoleLog w /\
  consoleError w' = consoleError w ++ ["Error decrypting error response data:"].
Proof.
  apply (redirect_skipped_when_decryption_raises
           (Demo.boot Demo.prodConfig).1 (Get "/denied" emptyRequestConfig)
           (Demo.boot Demo.prodConfig).2 401 "Unauthorized" ∅ "Malformed UTF-8 data").
  - by vm_compute.
  - eexists. split; vm_compute; reflexivity.
  - by vm_compute.
  - done.
  - done.
  - by vm_compute.
Defined.

(** A production client and a body that decrypts to [not json]: on a
    200 reply and on a 401 reply. *)
Lemma parse_failure_witness :
  let self := (Demo.boot Demo.prodConfig).1 in
  let w := (Demo.boot Demo.prodConfig).2 in
  let ok := Get "/garbled" emptyRequestConfig in
  let ko := Get "/denied-sealed" emptyRequestConfig in
  (fst (invoke self ok w)
     = Fulfilled {| success := false;
                    data := None;
                    error := Some "Unexpected token in JSON";
                    resp_hdrs := None;
                    statusCode := Some 500;
                    errorCode := Some "ERR_UNKNOWN" |} /\
   consoleError (snd (invoke self ok w))
     = consoleError w ++ ["Error parsing decrypted JSON:"] /\
   consoleLog (snd (invoke self ok w)) = consoleLog w /\
   locationAssign (snd (invoke self ok w)) = locationAssign w) /\
  (exists (c : RequestConfig) (w1 : World) (e : JsError),
     sent (snd (invoke self ko w)) = sent w ++ [c] /\
     intercepted self c (Replied 401 (JStr (Demo.encrypt "not json" Demo.secret)) ∅) w1
       = (Rejected e, snd (invoke self ko w)) /\
     e = httpError c 401 (JStr (Demo.encrypt "not json" Demo.secret)) ∅ /\
     err_message e = "Request failed with status code 401" /\
     resp_status <$> err_response e = Some 401 /\
     resp_data <$> err_response e = Some (JStr (Demo.encrypt "not json" Demo.secret)) /\
     fst (invoke self ko w)
       = Fulfilled {| success := false;
                      data := None;
                      error := Some "Request failed with status code 401";
                      resp_hdrs := None;
                      statusCode := Some 401;
                      errorCode := Some "ERR_401" |} /\
     consoleError (snd (invoke self ko w))
       = consoleError w ++ ["Error parsing decrypted error JSON:"] /\
     (exists record,
        consoleLog (snd (invoke self ko w)) =
          consoleLog w ++
          (if metricsEnabled (globalConfig w) && logsToConsole (globalConfig w)
           then [record] else [])) /\
     locationAssign (snd (invoke self ko w))
       = locationAssign w ++ redirectFor (Some 401)).
Proof.
  split.
  - apply (parse_failure_on_both_paths
             (Demo.boot Demo.prodConfig).1 (Get "/garbled" emptyRequestConfig)
             (Demo.boot Demo.prodConfig).2 200
             (Demo.encrypt "not json" Demo.secret) ∅ "not json"
             "Unexpected token in JSON").
    + by vm_compute.
    + eexists. split; vm_compute; reflexivity.
    + done.
    + by vm_compute.
    + by vm_compute.
    + by vm_compute.
  - apply (parse_failure_on_both_paths
             (Demo.boot Demo.prodConfig).1 (Get "/denied-sealed" emptyRequestConfig)
             (Demo.boot Demo.prodConfig).2 401
             (Demo.encrypt "not json" Demo.secret) ∅ "not json"
             "Unexpected token in JSON").
    + by vm_compute.
    + eexists. split; vm_compute; reflexivity.
    + done.
    + by vm_compute.
    + by vm_compute.
    + by vm_compute.
Defined.

(** C2 as stated fails: with metrics enabled, a successful call writes
    no record when [logToConsole] is off; a [graphql] call that stops for
    want of an endpoint writes none; and neither does a call whose 200
    reply decrypts to a text that is no JSON. *)
Lemma metrics_not_one_per_call :
  (let self := (Demo.boot Demo.quietConfig).1 in
   let w := (Demo.boot Demo.quietConfig).2 in
   let result := invoke self (Get "/users" emptyRequestConfig) w in
   metricsEnabled (globalConfig w) = true /\
   (exists env, fst result = Fulfilled env /\ success env = true) /\
   consoleLog (snd result) = consoleLog w) /\
  (let self := (Demo.boot Demo.devConfig).1 in
   let w := (Demo.boot Demo.devConfig).2 in
   let result := invoke self (Graphql "{ me { id } }" None emptyRequestConfig) w in
   metricsEnabled (globalConfig w) = true /\
   logsToConsole (globalConfig w) = true /\
   (exists env, fst result = Fulfilled env /\ success env = false) /\
   consoleLog (snd result) = consoleLog w) /\
  (let self := (Demo.boot Demo.prodConfig).1 in
   let w := (Demo.boot Demo.prodConfig).2 in
   let result := invoke self (Get "/garbled" emptyRequestConfig) w in
   metricsEnabled (globalConfig w) = true /\
   logsToConsole (globalConfig w) = true /\
   (exists env, fst result = Fulfilled env /\ success env = false) /\
   consoleLog (snd result) = consoleLog w).
Proof.
  repeat split; try (by vm_compute);
    eexists; split; vm_compute; reflexivity.
Qed.

(** One record per call, success or failure, with metrics on. *)
Example metrics_one_record :
  let self := (Demo.boot Demo.devConfig).1 in
  let w := (Demo.boot Demo.devConfig).2 in
  forall call, In call [Get "/users" emptyRequestConfig;
                        Post "/login" (Some (JObj [("user", JStr "ada")])) emptyRequestConfig;
                        Delete "/offline" emptyRequestConfig;
                        Put "/crash" None emptyRequestConfig] ->
  length (consoleLog (snd (invoke self call w))) = S (length (consoleLog w)).
Proof.
  cbv zeta. intros call Hin.
  repeat (destruct Hin as [<-|Hin]; [by vm_compute|]). destruct Hin.
Qed.

Example metrics_silent_when_disabled :
  let self := (Demo.boot Demo.silentConfig).1 in
  let w := (Demo.boot Demo.silentConfig).2 in
  consoleLog (snd (invoke self (Get "/users" emptyRequestConfig) w)) = consoleLog w /\
  consoleLog (snd (invoke self (Get "/crash" emptyRequestConfig) w)) = consoleLog w.
Proof. by vm_compute. Qed.


(** The redirects of the specification where no decryption is involved. *)
Example redirects_once :
  let self := (Demo.boot Demo.devConfig).1 in
  let w := (Demo.boot Demo.devConfig).2 in
  let after := fun url => locationAssign (snd (invoke self (Get url emptyRequestConfig) w)) in
  after "/login" = ["/enter-email"] /\
  after "/crash" = ["/generic-error"] /\
  after "/teapot" = [] /\
  after "/offline" = [] /\
  after "/users" = [].
Proof. by vm_compute. Qed.

Example failures_as_envelopes :
  let self := (Demo.boot Demo.devConfig).1 in
  let w := (Demo.boot Demo.devConfig).2 in
  let codes := fun url =>
    match fst (invoke self (Get url emptyRequestConfig) w) with
    | Fulfilled env => (success env, statusCode env, errorCode env)
    | Rejected _ => (true, None, None)
    end in
  codes "/login" = (false, Some 401, Some "ERR_401") /\
  codes "/crash" = (false, Some 500, Some "ERR_500") /\
  codes "/teapot" = (false, Some 418, Some "ERR_418") /\
  codes "/offline" = (false, Some 500, Some "ERR_UNKNOWN").
Proof. by vm_compute. Qed.

(** A client that reports metrics, then a second client that turns them
    off: the first one reports none any more. *)
Example second_client_silences_first :
  let A := (Demo.boot Demo.devConfig).1 in
  let w1 := (Demo.boot Demo.devConfig).2 in
  let w2 := snd (WebLattice_constructor Demo.silentConfig w1) in
  length (consoleLog (snd (invoke A (Get "/users" emptyRequestConfig) w1))) = 1%nat /\
  length (consoleLog (snd (invoke A (Get "/users" emptyRequestConfig) w2))) = 0%nat.
Proof. by vm_compute. Qed.

(** One record for a 401 reply, with metrics on and logged. *)
Lemma metrics_per_call_witness :
  let self := (Demo.boot Demo.devConfig).1 in
  let w := (Demo.boot Demo.devConfig).2 in
  exists record,
    consoleLog (snd (invoke self (Get "/login" emptyRequestConfig) w))
    = consoleLog w ++ [record].
Proof.
  cbv zeta.
  destruct (metrics_per_call (Demo.boot Demo.devConfig).1
              (Get "/login" emptyRequestConfig) (Demo.boot Demo.devConfig).2)
    as (_ & _ & Hone).
  apply (Hone eq_refl eq_refl
           (Replied 401 (JObj [("message", JStr "unauthorized")]) ∅)).
  - eexists. split; vm_compute; reflexivity.
  - intros s Hprod. vm_compute in Hprod. discriminate.
Defined.

(** The envelope of a 401 reply. *)
Lemma failure_is_an_envelope_witness :
  let self := (Demo.boot Demo.devConfig).1 in
  let w := (Demo.boot Demo.devConfig).2 in
  exists (env : ApiResponse) (w' : World),
    invoke self (Get "/login" emptyRequestConfig) w = (Fulfilled env, w') /\
    success env = false /\
    data env = None /\
    (exists message, error env = Some message /\ message <> EmptyString) /\
    reportsStatus 401 env.
Proof.
  cbv zeta.
  destruct (failure_is_an_envelope (Demo.boot Demo.devConfig).1
              (Get "/login" emptyRequestConfig) (Demo.boot Demo.devConfig).2)
    as (env & w' & Heq & _ & Hfails & Hlooks).
  exists env, w'. split; [exact Heq|].
  assert (answered (Demo.boot Demo.devConfig).1 (Get "/login" emptyRequestConfig)
            (Demo.boot Demo.devConfig).2
            (Replied 401 (JObj [("message", JStr "unauthorized")]) ∅)) as Hreply.
  { eexists. split; vm_compute; reflexivity. }
  destruct (Hfails _ Hreply) as [Hsuccess _]. specialize (Hsuccess eq_refl).
  destruct (Hlooks Hsuccess) as (Hdata & _ & Hmessage & Hstatus & _).
  split; [exact Hsuccess|]. split; [exact Hdata|]. split; [exact Hmessage|].
  apply (Hstatus _ Hreply).
Defined.

(** An update with the key [encryption] alone replaces that sub-object
    as a whole, secret key included, and keeps the other keys. *)
Lemma setNetworkConfig_shallow_witness :
  let w := (Demo.boot Demo.prodConfig).2 in
  let C' := globalConfig (snd (setNetworkConfig Demo.encryptionOffUpdate w)) in
  encryption C' = encryption Demo.encryptionOffUpdate /\
  encryptionSecretKey C' = None /\
  environment C' = Value PROD /\
  metrics C' = metrics (globalConfig w).
Proof.
  cbv zeta.
  destruct (setNetworkConfig_shallow Demo.encryptionOffUpdate
              (Demo.boot Demo.prodConfig).2)
    as (_ & _ & _ & _ & Henv & Henc & Hmet & _).
  destruct Henv as [_ Henv], Henc as [Henc _], Hmet as [_ Hmet].
  specialize (Henv eq_refl). specialize (Henc eq_refl). specialize (Hmet eq_refl).
  split; [exact Henc|].
  split; [unfold encryptionSecretKey; by rewrite Henc|].
  split; [exact Henv | exact Hmet].
Defined.

(** A production client with the key [s3cret], then a second one with
    the key [other] and no [metrics] key: the first client's helpers use
    [other], and so does the body it posts; the metrics are still read
    from the first client's section. *)
Lemma helpers_read_last_constructed_witness :
  exists (A B : WebLattice) (w1 w2 : World),
    WebLattice_constructor Demo.prodConfig initialWorld = (Fulfilled A, w1) /\
    WebLattice_constructor Demo.otherConfig w1 = (Fulfilled B, w2) /\
    encryptionSecretKey (this_config A) = Some Demo.secret /\
    encryption (globalConfig w2) = encryption Demo.otherConfig /\
    metrics (globalConfig w2) = metrics Demo.prodConfig /\
    (forall P,
       encryptData (globalConfig w2) P = Demo.encrypt (JSON_stringify P) "other") /\
    (forall d, recordMetrics d w2 = (Fulfilled tt, recorded Demo.prodConfig d w2)) /\
    (exists c : RequestConfig,
       sent (snd (invoke A (Post "/users" (Some Demo.okBody) emptyRequestConfig) w2))
         = sent w2 ++ [c] /\
       req_data c =
         Some (JStr (JSON_stringify
                       (JStr (Demo.encrypt (JSON_stringify Demo.okBody) "other"))))).
Proof.
  destruct (helpers_read_last_constructed Demo.prodConfig Demo.otherConfig initialWorld)
    as (A & B & w1 & w2 & HA & HB & HcA & _ & Hfirst & Hsecond & Henc & _ & _
        & Hmetrics & _ & Hpost).
  exists A, B, w1, w2. split; [exact HA|]. split; [exact HB|].
  split; [by rewrite HcA|].
  destruct Hfirst as (_ & _ & _ & _ & _ & [Hmet1 _] & _).
  destruct Hsecond as (_ & _ & _ & _ & [Henc2 _] & [_ Hmet2] & _).
  split; [exact (Henc2 eq_refl)|].
  split; [by rewrite (Hmet2 eq_refl), (Hmet1 eq_refl)|].
  split; [|split].
  - intros P. by destruct (Henc eq_refl P EmptyString) as [-> _].
  - intros d. by destruct (Hmetrics eq_refl d) as (_ & -> & _).
  - apply (Hpost eq_refl eq_refl "/users" Demo.okBody emptyRequestConfig eq_refl).
Defined.

(** * The further properties on concrete calls *)

(** Parameters that are all [null] or [undefined]. *)
Lemma constructUrl_without_parameters_witness :
  constructUrl "/users" (Some [("limit", Some JNull); ("page", None)]) = "/users".
Proof.
  apply (constructUrl_without_parameters "/users"
           (Some [("limit", Some JNull); ("page", None)])).
  repeat constructor.
Defined.

(** A URL that has a query already; [0] and [false] are kept, [null] is
    dropped. *)
Lemma constructUrl_with_parameters_witness :
  constructUrl "/users?x=1"
    (Some [("page", Some (JNum 0)); ("limit", Some JNull); ("flag", Some (JBool false))])
  = "/users?x=1&page=0&flag=false".
Proof.
  etrans.
  - apply (constructUrl_with_parameters "/users?x=1"
             (Some [("page", Some (JNum 0)); ("limit", Some JNull);
                    ("flag", Some (JBool false))])).
    vm_compute. discriminate.
  - by vm_compute.
Defined.

Lemma decryptData_passthrough_witness :
  decryptData initialGlobalConfig "Salted__s3cret:1" = Ret "Salted__s3cret:1".
Proof.
  apply (decryptData_passthrough initialGlobalConfig "Salted__s3cret:1").
  left. vm_compute. discriminate.
Defined.

(** The round trip with the cipher of the demo, under a configuration
    that encrypts and under one that does not. *)
Lemma decrypt_encrypt_any_configuration_witness :
  decryptData Demo.prodConfig (encryptData Demo.prodConfig Demo.okBody)
    = Ret (JSON_stringify Demo.okBody) /\
  decryptData initialGlobalConfig (encryptData initialGlobalConfig Demo.okBody)
    = Ret (JSON_stringify Demo.okBody).
Proof.
  split.
  - apply (decrypt_encrypt_any_configuration Demo.prodConfig Demo.okBody).
    intros K HK. vm_compute in HK. injection HK as <-. by vm_compute.
  - apply (decrypt_encrypt_any_configuration initialGlobalConfig Demo.okBody).
    intros K HK. vm_compute in HK. discriminate.
Defined.

(** A caller that passes [authorization: Basic abc] in lower case: on a
    signed-in page the token of the session replaces it, on a page
    without a session it leaves under the name [Authorization]. *)
Lemma sent_request_headers_witness :
  let self := (Demo.boot Demo.devConfig).1 in
  let call :=
    Get "/users"
      {| arc_baseUrl := None; arc_queryParams := None; arc_isGraphQL := None;
         arc_headers := Some [("authorization", "Basic abc")];
         arc_timeout := None; arc_data := None |} in
  (let w := signedIn "t0k3n" (Demo.boot Demo.devConfig).2 in
   exists c : RequestConfig,
     sent (snd (invoke self call w)) = sent w ++ [c] /\
     getHeader "x-client-version" (req_headers c) = Some "1.0.0" /\
     getHeader "x-app-platform" (req_headers c) = Some "web" /\
     (exists n, getHeader "x-correlation-id" (req_headers c)
                = Some (pretty (clock w) +:+ "-" +:+ randomSuffix n)) /\
     getHeader "Authorization" (req_headers c) = Some "Bearer t0k3n") /\
  (let w := (Demo.boot Demo.devConfig).2 in
   exists c : RequestConfig,
     sent (snd (invoke self call w)) = sent w ++ [c] /\
     getHeader "Authorization" (req_headers c) = Some "Basic abc").
Proof.
  cbv zeta. split.
  - eexists. split; [vm_compute; reflexivity|].
    apply (sent_request_headers (Demo.boot Demo.devConfig).1
             (Get "/users"
                {| arc_baseUrl := None; arc_queryParams := None; arc_isGraphQL := None;
                   arc_headers := Some [("authorization", "Basic abc")];
                   arc_timeout := None; arc_data := None |})
             (signedIn "t0k3n" (Demo.boot Demo.devConfig).2)).
    vm_compute. reflexivity.
  - eexists. split; [vm_compute; reflexivity|].
    apply (sent_request_headers (Demo.boot Demo.devConfig).1
             (Get "/users"
                {| arc_baseUrl := None; arc_queryParams := None; arc_isGraphQL := None;
                   arc_headers := Some [("authorization", "Basic abc")];
                   arc_timeout := None; arc_data := None |})
             (Demo.boot Demo.devConfig).2).
    vm_compute. reflexivity.
Defined.

(** A production client and a caller that passes [X-Encryption: false]:
    the request says [x-encryption: true], and the generated key and IV
    are in the headers and stored for the request. *)
Lemma sent_request_encryption_headers_witness :
  let self := (Demo.boot Demo.prodConfig).1 in
  let w := (Demo.boot Demo.prodConfig).2 in
  let call :=
    Post "/users" (Some Demo.okBody)
      {| arc_baseUrl := None; arc_queryParams := None; arc_isGraphQL := None;
         arc_headers := Some [("X-Encryption", "false")];
         arc_timeout := None; arc_data := None |} in
  exists c : RequestConfig,
    sent (snd (invoke self call w)) = sent w ++ [c] /\
    getHeader "X-Encryption" (req_headers c) = Some "true" /\
    getHeader "x-public-key-id" (req_headers c) = Some "local-key-id" /\
    exists aesKey iv,
      requestKeys (snd (invoke self call w)) !! req_id c = Some (aesKey, iv) /\
      getHeader "x-encryption-key" (req_headers c) = Some aesKey /\
      getHeader "x-encryption-iv" (req_headers c) = Some iv.
Proof.
  cbv zeta. eexists. split; [vm_compute; reflexivity|].
  apply (sent_request_encryption_headers (Demo.boot Demo.prodConfig).1
           (Post "/users" (Some Demo.okBody)
              {| arc_baseUrl := None; arc_queryParams := None; arc_isGraphQL := None;
                 arc_headers := Some [("X-Encryption", "false")];
                 arc_timeout := None; arc_data := None |})
           (Demo.boot Demo.prodConfig).2).
  vm_compute. reflexivity.
Defined.

(** Outside production mode the posted object is the body on the wire. *)
Lemma sent_request_body_witness :
  let self := (Demo.boot Demo.devConfig).1 in
  let w := (Demo.boot Demo.devConfig).2 in
  let call := Put "/users" (Some Demo.okBody) emptyRequestConfig in
  exists c : RequestConfig,
    sent (snd (invoke self call w)) = sent w ++ [c] /\
    req_url c = Some "/users" /\
    req_method c = Some PUT /\
    req_data c = Some Demo.okBody.
Proof.
  cbv zeta. eexists. split; [vm_compute; reflexivity|].
  apply (sent_request_body (Demo.boot Demo.devConfig).1
           (Put "/users" (Some Demo.okBody) emptyRequestConfig)
           (Demo.boot Demo.devConfig).2).
  vm_compute. reflexivity.
Defined.

(** A 200 reply with an object body, outside production mode. *)
Lemma rest_success_envelope_witness :
  let self := (Demo.boot Demo.devConfig).1 in
  let w := (Demo.boot Demo.devConfig).2 in
  let call := Get "/users" emptyRequestConfig in
  fst (invoke self call w)
    = Fulfilled {| success := true; data := Some Demo.okBody; error := None;
                   resp_hdrs := Some ∅; statusCode := Some 200;
                   errorCode := None |} /\
  locationAssign (snd (invoke self call w)) = locationAssign w /\
  consoleError (snd (invoke self call w)) = consoleError w.
Proof.
  cbv zeta.
  apply (rest_success_envelope (Demo.boot Demo.devConfig).1
           (Get "/users" emptyRequestConfig) (Demo.boot Demo.devConfig).2
           200 Demo.okBody ∅).
  - reflexivity.
  - eexists. split; vm_compute; reflexivity.
  - reflexivity.
  - left. by vm_compute.
Defined.

(** A production client and a reply sealed under the key of the
    configuration. *)
Lemma sealed_reply_is_opened_witness :
  let self := (Demo.boot Demo.prodConfig).1 in
  let w := (Demo.boot Demo.prodConfig).2 in
  fst (invoke self (Get "/sealed" emptyRequestConfig) w)
    = Fulfilled {| success := true; data := Some Demo.okBody; error := None;
                   resp_hdrs := Some ∅; statusCode := Some 200;
                   errorCode := None |}.
Proof.
  cbv zeta.
  apply (sealed_reply_is_opened (Demo.boot Demo.prodConfig).1
           (Get "/sealed" emptyRequestConfig) (Demo.boot Demo.prodConfig).2
           200 (Demo.encrypt (JSON_stringify Demo.okBody) Demo.secret)
           (JSON_stringify Demo.okBody) Demo.okBody ∅).
  - reflexivity.
  - by vm_compute.
  - eexists. split; vm_compute; reflexivity.
  - reflexivity.
  - by vm_compute.
  - by vm_compute.
  - by vm_compute.
Defined.

(** [graphql] towards the endpoint of the demo server. *)
Lemma graphql_data_member_witness :
  let self := (Demo.boot Demo.devConfig).1 in
  let w := (Demo.boot Demo.devConfig).2 in
  let call := Graphql "{ user }" None (towards "/graphql") in
  (exists env,
     fst (invoke self call w) = Fulfilled env /\
     env = {| success := true; data := Some (JObj [("user", JStr "ada")]);
              error := None; resp_hdrs := Some ∅; statusCode := Some 200;
              errorCode := None |}) /\
  (metricsEnabled (globalConfig w) && logsToConsole (globalConfig w) = true ->
   exists record,
     consoleLog (snd (invoke self call w)) = consoleLog w ++ [record] /\
     md_success (metric_data record) = true /\
     md_graphql (metric_data record) = true).
Proof.
  cbv zeta.
  apply (graphql_data_member (Demo.boot Demo.devConfig).1 "{ user }" None
           (towards "/graphql") (Demo.boot Demo.devConfig).2
           200 (JObj [("data", JObj [("user", JStr "ada")])]) ∅).
  - eexists. split; vm_compute; reflexivity.
  - reflexivity.
  - left. by vm_compute.
Defined.

(** The record of a 401 reply to a [get]. *)
Lemma metric_record_of_a_call_witness :
  let self := (Demo.boot Demo.devConfig).1 in
  let w := (Demo.boot Demo.devConfig).2 in
  let call := Get "/login" emptyRequestConfig in
  exists (c : RequestConfig) (record : MetricRecord),
    sent (snd (invoke self call w)) = sent w ++ [c] /\
    consoleLog (snd (invoke self call w)) = consoleLog w ++ [record] /\
    md_url (metric_data record) = "/login" /\
    md_method (metric_data record) = "GET" /\
    md_startTime (metric_data record) = 1000 /\
    md_endTime (metric_data record) = 1007 /\
    md_duration (metric_data record) = 7 /\
    md_status (metric_data record) = Some 401 /\
    md_success (metric_data record) = false /\
    md_encrypted (metric_data record) = false /\
    md_graphql (metric_data record) = false /\
    metric_timestamp record = 1007.
Proof.
  cbv zeta.
  destruct (metric_record_of_a_call (Demo.boot Demo.devConfig).1
              (Get "/login" emptyRequestConfig) (Demo.boot Demo.devConfig).2
              (Replied 401 (JObj [("message", JStr "unauthorized")]) ∅))
    as (c & record & Hsent & Hlog & Hfields).
  - reflexivity.
  - reflexivity.
  - eexists. split; vm_compute; reflexivity.
  - intros s Hprod. vm_compute in Hprod. discriminate.
  - exists c, record. split; [exact Hsent|]. split; [exact Hlog|].
    cbv zeta in Hfields. exact Hfields.
Defined.

(** A production client after encryption was switched off globally. *)
Lemma plaintext_under_encryption_header_witness :
  let self := (Demo.boot Demo.prodConfig).1 in
  let w := snd (setNetworkConfig Demo.encryptionOffUpdate (Demo.boot Demo.prodConfig).2) in
  let call := Post "/users" (Some Demo.okBody) emptyRequestConfig in
  exists c : RequestConfig,
    sent (snd (invoke self call w)) = sent w ++ [c] /\
    req_headers c !! "x-encryption" = Some "true" /\
    req_data c = Some (JStr (JSON_stringify (JStr (JSON_stringify Demo.okBody)))).
Proof.
  cbv zeta. eexists. split; [vm_compute; reflexivity|].
  apply (plaintext_under_encryption_header (Demo.boot Demo.prodConfig).1
           (Post "/users" (Some Demo.okBody) emptyRequestConfig)
           (snd (setNetworkConfig Demo.encryptionOffUpdate (Demo.boot Demo.prodConfig).2))
           _ Demo.okBody).
  - by vm_compute.
  - left. vm_compute. discriminate.
  - vm_compute. reflexivity.
  - reflexivity.
Defined.

(** [initWebLattice] on a fresh page, then [graphql] without a
    [baseUrl]. *)
Lemma graphql_after_initWebLattice_witness :
  exists (self : WebLattice) (w' : World),
    initWebLattice (productionOptions "s3cret") initialWorld = (Fulfilled self, w') /\
    invoke self (Graphql "{ user }" None emptyRequestConfig) w'
      = (Fulfilled {| success := false;
                      data := None;
                      error := Some "GraphQL endpoint is not configured";
                      resp_hdrs := None;
                      statusCode := Some 500;
                      errorCode := Some "ERR_UNKNOWN" |},
         w').
Proof.
  apply (graphql_after_initWebLattice (productionOptions "s3cret") initialWorld
           "{ user }" None emptyRequestConfig).
  - left. by vm_compute.
  - by left.
Defined.

(** A production client made by [initWebLattice] posts an object. *)
Lemma initWebLattice_production_request_witness :
  exists (self : WebLattice) (w' : World) (c : RequestConfig),
    initWebLattice (productionOptions "s3cret") initialWorld = (Fulfilled self, w') /\
    sent (snd (invoke self (Post "/users" (Some Demo.okBody) emptyRequestConfig) w'))
      = sent w' ++ [c] /\
    req_headers c !! "x-encryption" = Some "true" /\
    req_data c
      = Some (JStr (JSON_stringify
                      (JStr (Demo.encrypt (JSON_stringify Demo.okBody) "s3cret")))).
Proof.
  eexists _, _, _. split; [reflexivity|]. split; [vm_compute; reflexivity|].
  change Demo.encrypt with (@aesEncrypt Demo.runtime).
  eapply (initWebLattice_production_request (productionOptions "s3cret") "s3cret"
           initialWorld _ _ (Post "/users" (Some Demo.okBody) emptyRequestConfig)
           _ Demo.okBody).
  - reflexivity.
  - reflexivity.
  - discriminate.
  - reflexivity.
  - vm_compute. reflexivity.
  - reflexivity.
  - by vm_compute.
Defined.

(** A template with two truthy values. *)
Lemma gql_truthy_witness :
  gql ["query { user(id: "; ") { "; " } }"] [Some (JNum 7); Some (JStr "name")]
  = "query { user(id: 7) { name } }".
Proof.
  etrans.
  - apply (gql_truthy ["query { user(id: "; ") { "; " } }"]
             [Some (JNum 7); Some (JStr "name")]).
    repeat constructor.
  - by vm_compute.
Defined.

(** A production client and a 200 reply that decrypts to a text that is
    no JSON: the call writes no metric record. *)
Lemma no_record_when_decoding_fails_witness :
  let self := (Demo.boot Demo.prodConfig).1 in
  let w := (Demo.boot Demo.prodConfig).2 in
  metricsEnabled (globalConfig w) && logsToConsole (globalConfig w) = true /\
  consoleLog (snd (invoke self (Get "/garbled" emptyRequestConfig) w)) = consoleLog w.
Proof.
  cbv zeta. split; [by vm_compute|].
  apply (no_record_when_decoding_fails (Demo.boot Demo.prodConfig).1
           (Get "/garbled" emptyRequestConfig) (Demo.boot Demo.prodConfig).2
           200 (Demo.encrypt "not json" Demo.secret) ∅).
  - by vm_compute.
  - eexists. split; vm_compute; reflexivity.
  - by vm_compute.
  - right. split; [reflexivity|].
    exists "not json", "Unexpected token in JSON". split; by vm_compute.
Defined.

(** A 500 reply with a text body. *)
Lemma error_reply_envelope_witness :
  let self := (Demo.boot Demo.devConfig).1 in
  let w := (Demo.boot Demo.devConfig).2 in
  fst (invoke self (Delete "/crash" emptyRequestConfig) w)
    = Fulfilled {| success := false;
                   data := None;
                   error := Some "Request failed with status code 500";
                   resp_hdrs := None;
                   statusCode := Some 500;
                   errorCode := Some "ERR_500" |}.
Proof.
  cbv zeta.
  apply (error_reply_envelope (Demo.boot Demo.devConfig).1
           (Delete "/crash" emptyRequestConfig) (Demo.boot Demo.devConfig).2
           (Replied 500 (JStr "Internal Server Error") ∅)).
  - eexists. split; vm_compute; reflexivity.
  - reflexivity.
Defined.

End Runs.
